(** * k8s-object-explorer: resource discovery and namespace caching

    A shallow embedding of the Go package [internal/k8s] (the [Client] with
    its catalog cache, namespace cache and object counter) and of the HTTP
    handlers of [cmd/main.go] that consume it, followed by the properties
    stated about them.

    Conventions.
    - A Go [string] is a byte sequence: [String.string].
    - A Go [int] is a [Z]; [len] is [Z.of_nat (length _)]; the sum of the
      object counts writes the 64-bit wrap-around out.
    - A Go [(value, error)] pair is a pair whose second component is an
      [option error] ([None] is [nil]).
    - A Go [map[string]T] is a [gmap string T].
    - Everything outside the process (the cluster behind client-go, the
      clock, the environment) is reached through the [Platform] interface.
      Effects are threaded through a state monad over the client and the
      process state; every remote call is recorded in a trace. *)

From Stdlib Require Import ZArith String Ascii List Bool Lia.
From stdpp Require Import base option list gmap strings.

Local Open Scope string_scope.
Local Open Scope Z_scope.
Local Open Scope list_scope.

(** ** Go values used by the package *)

(** [error]: the two dynamic kinds the code distinguishes.  [Groups] holds
    the keys of [ErrGroupDiscoveryFailed.Groups]; only its length is read. *)
Inductive error : Type :=
| ErrGroupDiscoveryFailed (Groups : list string) (msg : string)
| errorString (msg : string).

Definition Error (e : error) : string :=
  match e with
  | ErrGroupDiscoveryFailed _ msg => msg
  | errorString msg => msg
  end.

Definition IsGroupDiscoveryFailedError (e : error) : bool :=
  match e with
  | ErrGroupDiscoveryFailed _ _ => true
  | errorString _ => false
  end.

(** [strings.Contains]: [substr] occurs in [s] at some byte offset. *)
Fixpoint Contains (s substr : string) : bool :=
  if String.prefix substr s then true
  else match s with
       | EmptyString => false
       | String _ s' => Contains s' substr
       end.

(** Arguments of a [Printf]-style call.  A line is kept as its format
    string with its arguments, not rendered. *)
Inductive Arg : Type :=
| AInt (n : Z)
| AStr (s : string)
| ABool (b : bool)
| AErr (e : error)
| ADuration (d : Z)
| ARounded (d : Z) (unit : Z)          (* d.Round(unit) *)
| APercent (processed total : Z).      (* int(float64(processed)/float64(total)*100) *)

Record Formatted : Type := Printf { format : string; args : list Arg }.

(** [fmt.Errorf(prefix + "%v", e)] *)
Definition Errorf (prefix : string) (e : error) : error :=
  errorString (prefix +:+ Error e).

(** The newline and double quote characters of Go string literals. *)
Definition nl : string := String (ascii_of_nat 10) EmptyString.
Definition dq : string := String (ascii_of_nat 34) EmptyString.

(** A log line is a warning when its text starts with [Warning:]. *)
Definition isWarning (l : Formatted) : bool := String.prefix "Warning:" (format l).

(** ** Kubernetes API types (client-go / apimachinery) *)

Module metav1.
Record APIResource : Type := {
  Name : string;
  Kind : string;
  ShortNames : list string;
  Namespaced : bool
}.
Record APIResourceList : Type := {
  GroupVersion : string;
  APIResources : list APIResource
}.
Record ListOptions : Type := {
  Limit : Z;
  TimeoutSeconds : option Z
}.
End metav1.

Module schema.
Record GroupVersion : Type := { Group : string; Version : string }.
Record GroupVersionResource : Type := GVR {
  gvrGroup : string; gvrVersion : string; gvrResource : string
}.
End schema.

Module unstructured.
Record Unstructured : Type := { objectName : string }.
Record UnstructuredList : Type := {
  Continue : string;
  Items : list Unstructured
}.
End unstructured.

(** ** Time *)

Definition second : Z := 1000000000.
Definition minute : Z := 60 * second.
Definition maxDuration : Z := 2 ^ 63 - 1.
Definition minDuration : Z := - 2 ^ 63.

(** [Time.Sub]: the difference saturates at the range of [Duration]. *)
Definition Sub (t u : Z) : Z := Z.max minDuration (Z.min maxDuration (t - u)).

(** Times are nanoseconds on the process clock, which starts at 0.  The
    zero [time.Time] lies further in the past than a [Duration] can hold. *)
Definition zeroTime : Z := - 2 ^ 64.

(** ** Data model of the package *)

Record ResourceInfo : Type := {
  Name : string;
  FullName : string;
  DisplayName : string;
  Kind : string;
  ShortName : string;
  APIGroup : string;
  APIVersion : string;
  Namespaced : bool;
  Count : Z
}.

Definition withCount (r : ResourceInfo) (n : Z) : ResourceInfo :=
  {| Name := Name r; FullName := FullName r; DisplayName := DisplayName r;
     Kind := Kind r; ShortName := ShortName r; APIGroup := APIGroup r;
     APIVersion := APIVersion r; Namespaced := Namespaced r; Count := n |}.

(** The client.  The three client-go handles are kept as "non-nil" flags;
    the calls made through them go to the [Platform]. *)
Record Client : Type := {
  clientset : bool;
  dynamicClient : bool;
  discoveryClient : bool;
  resourcesCache : list ResourceInfo;
  resourcesCacheTime : Z;
  cacheTTL : Z;
  namespaceCaches : gmap string (list ResourceInfo);
  namespaceCacheTimes : gmap string Z
}.

Definition setResourcesCache (c : Client) (rs : list ResourceInfo) : Client :=
  {| clientset := clientset c; dynamicClient := dynamicClient c;
     discoveryClient := discoveryClient c;
     resourcesCache := rs; resourcesCacheTime := resourcesCacheTime c;
     cacheTTL := cacheTTL c;
     namespaceCaches := namespaceCaches c;
     namespaceCacheTimes := namespaceCacheTimes c |}.

Definition setResourcesCacheTime (c : Client) (t : Z) : Client :=
  {| clientset := clientset c; dynamicClient := dynamicClient c;
     discoveryClient := discoveryClient c;
     resourcesCache := resourcesCache c; resourcesCacheTime := t;
     cacheTTL := cacheTTL c;
     namespaceCaches := namespaceCaches c;
     namespaceCacheTimes := namespaceCacheTimes c |}.

Definition setNamespaceCache (c : Client) (ns : string) (rs : list ResourceInfo) : Client :=
  {| clientset := clientset c; dynamicClient := dynamicClient c;
     discoveryClient := discoveryClient c;
     resourcesCache := resourcesCache c; resourcesCacheTime := resourcesCacheTime c;
     cacheTTL := cacheTTL c;
     namespaceCaches := <[ns := rs]> (namespaceCaches c);
     namespaceCacheTimes := namespaceCacheTimes c |}.

Definition setNamespaceCacheTime (c : Client) (ns : string) (t : Z) : Client :=
  {| clientset := clientset c; dynamicClient := dynamicClient c;
     discoveryClient := discoveryClient c;
     resourcesCache := resourcesCache c; resourcesCacheTime := resourcesCacheTime c;
     cacheTTL := cacheTTL c;
     namespaceCaches := namespaceCaches c;
     namespaceCacheTimes := <[ns := t]> (namespaceCacheTimes c) |}.

(** What [NewClient] returns when it succeeds: all three handles set, a
    five minute TTL, both namespace maps empty, the catalog cache at its
    zero value. *)
Definition NewClient : Client :=
  {| clientset := true; dynamicClient := true; discoveryClient := true;
     resourcesCache := []; resourcesCacheTime := zeroTime;
     cacheTTL := 5 * minute;
     namespaceCaches := ∅; namespaceCacheTimes := ∅ |}.

(** ** The platform: cluster, clock and environment *)

(** A remote call, with what it was asked and what came back. *)
Inductive RemoteCall : Type :=
| CallDiscovery (response : list metav1.APIResourceList * option error)
| CallList (ctxTimeout : Z) (namespace : string)
           (gvr : schema.GroupVersionResource) (opts : metav1.ListOptions)
           (response : unstructured.UnstructuredList + error).

Class Platform : Type := {
  World : Type;
  (** time elapsed on the monotonic clock since it was last read *)
  elapse : World → N * World;
  (** [discovery.ServerPreferredNamespacedResources]: lists and error are
      both meaningful on a partial failure *)
  ServerPreferredNamespacedResources :
    World → (list metav1.APIResourceList * option error) * World;
  (** [dynamic ... Resource(gvr).Namespace(ns).List(ctx, opts)] *)
  ResourceList :
    Z → string → schema.GroupVersionResource → metav1.ListOptions →
    World → (unstructured.UnstructuredList + error) * World;
  (** [os.Getenv] *)
  Getenv : World → string → string;
  (** [schema.ParseGroupVersion] *)
  ParseGroupVersion : string → schema.GroupVersion + error;
  (** [strings.ToLower] *)
  ToLower : string → string;
  (** [sort.Slice] with the given [less]; the order among ties is the
      library's *)
  SortSlice : ∀ A : Type, (A → A → bool) → list A → list A
}.

Section Model.
Context `{P : Platform}.

(** Process state next to the client. *)
Record Proc : Type := {
  world : World;
  clock : Z;                       (* last reading of the monotonic clock *)
  calls : list RemoteCall;         (* remote calls, oldest first *)
  logs : list Formatted;           (* log.Printf lines, oldest first *)
  callbacks : list Formatted;      (* messages handed to a debugCallback *)
  stdout : list Formatted          (* fmt.Printf / fmt.Println lines *)
}.

Definition St : Type := Client * Proc.

(** The state monad of the client's methods. *)
Definition M (A : Type) : Type := St → A * St.

Definition ret {A} (a : A) : M A := λ s, (a, s).
Definition bind {A B} (m : M A) (k : A → M B) : M B :=
  λ s, let '(a, s') := m s in k a s'.

Notation "'let*' x := m 'in' k" := (bind m (λ x, k))
  (at level 10, x name, m at level 100, k at level 200).
Notation "'let*' ' p := m 'in' k" := (bind m (λ x, let 'p := x in k))
  (at level 10, p pattern, m at level 100, k at level 200).
Notation "m ;; k" := (bind m (λ _, k))
  (at level 100, k at level 200, right associativity).

Definition getClient : M Client := λ s, (s.1, s).
Definition modifyClient (f : Client → Client) : M unit := λ s, (tt, (f s.1, s.2)).
Definition getWorld : M World := λ s, (world s.2, s).

(** A call to the cluster: the world answers and moves on, the call is
    appended to the trace. *)
Definition remote {A} (f : World → A * World) (record : A → RemoteCall) : M A :=
  λ s, let '(a, w) := f (world s.2) in
       (a, (s.1, {| world := w; clock := clock s.2;
                    calls := calls s.2 ++ [record a];
                    logs := logs s.2; callbacks := callbacks s.2;
                    stdout := stdout s.2 |})).

(** [time.Now()] *)
Definition timeNow : M Z :=
  λ s, let '(d, w) := elapse (world s.2) in
       let t := clock s.2 + Z.of_N d in
       (t, (s.1, {| world := w; clock := t; calls := calls s.2;
                    logs := logs s.2; callbacks := callbacks s.2;
                    stdout := stdout s.2 |})).

(** [time.Since(t)] *)
Definition timeSince (t : Z) : M Z := let* now := timeNow in ret (Sub now t).

(** [log.Printf] *)
Definition logPrintf (fmt : string) (a : list Arg) : M unit :=
  λ s, (tt, (s.1, {| world := world s.2; clock := clock s.2; calls := calls s.2;
                     logs := logs s.2 ++ [Printf fmt a];
                     callbacks := callbacks s.2; stdout := stdout s.2 |})).

(** [fmt.Printf] *)
Definition fmtPrintf (fmt : string) (a : list Arg) : M unit :=
  λ s, (tt, (s.1, {| world := world s.2; clock := clock s.2; calls := calls s.2;
                     logs := logs s.2; callbacks := callbacks s.2;
                     stdout := stdout s.2 ++ [Printf fmt a] |})).

(** [fmt.Println] of one string *)
Definition fmtPrintln (line : string) : M unit := fmtPrintf (line +:+ nl) [].

(** [debugCallback(fmt.Sprintf(...))] for a non-nil callback *)
Definition callDebugCallback (fmt : string) (a : list Arg) : M unit :=
  λ s, (tt, (s.1, {| world := world s.2; clock := clock s.2; calls := calls s.2;
                     logs := logs s.2;
                     callbacks := callbacks s.2 ++ [Printf fmt a];
                     stdout := stdout s.2 |})).

Definition when (b : bool) (m : M unit) : M unit := if b then m else ret tt.

(** [len] of a slice *)
Definition len {A} (l : list A) : Z := Z.of_nat (length l).

(** *** Resource Catalog: [Client.GetAPIResources] *)

(** The minimal set returned when no group could be discovered. *)
Definition coreResources : list ResourceInfo :=
  [ {| Name := "pods"; FullName := "pods"; DisplayName := "pods"; Kind := "Pod";
       ShortName := "po"; APIGroup := ""; APIVersion := "v1"; Namespaced := true;
       Count := 0 |};
    {| Name := "services"; FullName := "services"; DisplayName := "services";
       Kind := "Service"; ShortName := "svc"; APIGroup := ""; APIVersion := "v1";
       Namespaced := true; Count := 0 |};
    {| Name := "configmaps"; FullName := "configmaps"; DisplayName := "configmaps";
       Kind := "ConfigMap"; ShortName := "cm"; APIGroup := ""; APIVersion := "v1";
       Namespaced := true; Count := 0 |};
    {| Name := "secrets"; FullName := "secrets"; DisplayName := "secrets";
       Kind := "Secret"; ShortName := ""; APIGroup := ""; APIVersion := "v1";
       Namespaced := true; Count := 0 |};
    {| Name := "deployments"; FullName := "deployments.apps";
       DisplayName := "deployments (apps)"; Kind := "Deployment";
       ShortName := "deploy"; APIGroup := "apps"; APIVersion := "v1";
       Namespaced := true; Count := 0 |} ].

(** Body of the inner loop: one discovered resource of group/version [gv]. *)
Definition toResourceInfo (gv : schema.GroupVersion) (resource : metav1.APIResource)
  : ResourceInfo :=
  let shortName :=
    match metav1.ShortNames resource with
    | s :: _ => s
    | [] => ""
    end in
  let '(fullName, displayName) :=
    if negb (String.eqb (schema.Group gv) "")
    then (metav1.Name resource +:+ "." +:+ schema.Group gv,
          metav1.Name resource +:+ " (" +:+ schema.Group gv +:+ ")")
    else (metav1.Name resource, metav1.Name resource) in
  {| Name := metav1.Name resource;
     FullName := fullName;
     DisplayName := displayName;
     Kind := metav1.Kind resource;
     ShortName := shortName;
     APIGroup := schema.Group gv;
     APIVersion := schema.Version gv;
     Namespaced := metav1.Namespaced resource;
     Count := 0 |}.

(** Inner loop: subresources (a name with a slash) are skipped. *)
Definition appendResources (gv : schema.GroupVersion)
    (resources : list ResourceInfo) (apiResources : list metav1.APIResource)
  : list ResourceInfo :=
  fold_left
    (λ resources resource,
       if Contains (metav1.Name resource) "/" then resources
       else resources ++ [toResourceInfo gv resource])
    apiResources resources.

(** Outer loop: a list whose group/version does not parse is skipped. *)
Definition collectResources (resourceLists : list metav1.APIResourceList)
  : list ResourceInfo :=
  fold_left
    (λ resources resourceList,
       match ParseGroupVersion (metav1.GroupVersion resourceList) with
       | inr _ => resources
       | inl gv => appendResources gv resources (metav1.APIResources resourceList)
       end)
    resourceLists [].

(** The part of [GetAPIResources] after the error handling: convert,
    store in the cache, stamp, return. *)
Definition storeDiscovered (start : Z) (resourceLists : list metav1.APIResourceList)
  : M (list ResourceInfo * option error) :=
  let resources := collectResources resourceLists in
  modifyClient (λ c, setResourcesCache c resources);;
  let* now := timeNow in
  modifyClient (λ c, setResourcesCacheTime c now);;
  let* took := timeSince start in
  logPrintf "[DEBUG] API resource discovery completed in %v, cached %d resources"
            [ADuration took; AInt (len resources)];;
  ret (resources, None).

(** The cache test: the clock is read only when the cache is non-empty. *)
Definition resourcesCacheValid (c : Client) : M bool :=
  if 0 <? len (resourcesCache c)
  then let* age := timeSince (resourcesCacheTime c) in ret (age <? cacheTTL c)
  else ret false.

Definition GetAPIResources : M (list ResourceInfo * option error) :=
  let* c := getClient in
  if negb (discoveryClient c)
  then ret ([], Some (errorString "no discovery client available"))
  else
    let* valid := resourcesCacheValid c in
    if valid then
      let* age := timeSince (resourcesCacheTime c) in
      logPrintf "[DEBUG] Using cached API resources (%d resources, cached %v ago)"
                [AInt (len (resourcesCache c)); ARounded age second];;
      ret (resourcesCache c, None)
    else
      logPrintf "[DEBUG] Cache miss or expired, discovering API resources..." [];;
      let* start := timeNow in
      let* '(resourceLists, err) := remote ServerPreferredNamespacedResources
                                         CallDiscovery in
      match err with
      | Some e =>
          if IsGroupDiscoveryFailedError e then
            logPrintf "Warning: Some API groups failed discovery: %v"
                      [AInt (match e with
                             | ErrGroupDiscoveryFailed Groups _ => len Groups
                             | errorString _ => 0
                             end)];;
            if len resourceLists =? 0 then
              logPrintf "Using core resources fallback: %d resources"
                        [AInt (len coreResources)];;
              ret (coreResources, None)
            else storeDiscovered start resourceLists
          else
            ret ([], Some (Errorf "failed to discover API resources: " e))
      | None => storeDiscovered start resourceLists
      end.

(** [for _, x := range l { s = body(s, x) }] *)
Fixpoint forRange {A S} (body : S → A → M S) (l : list A) (s : S) : M S :=
  match l with
  | [] => ret s
  | x :: l' => let* s' := body s x in forRange body l' s'
  end.

(** *** Object Counter: [Client.countResourceObjects] *)

Definition limitedList : metav1.ListOptions :=
  {| metav1.Limit := 0; metav1.TimeoutSeconds := Some 3 |}.
Definition unboundedList : metav1.ListOptions :=
  {| metav1.Limit := 0; metav1.TimeoutSeconds := None |}.

Definition countResourceObjects (namespace : string) (resource : ResourceInfo)
  : M (Z * option error) :=
  let* c := getClient in
  if negb (dynamicClient c)
  then ret (0, Some (errorString "no dynamic client available"))
  else
    let gvr := schema.GVR (APIGroup resource) (APIVersion resource) (Name resource) in
    let ctx := 3 * second in
    let* list := remote (ResourceList ctx namespace gvr limitedList)
                        (CallList ctx namespace gvr limitedList) in
    match list with
    | inr err => ret (0, Some err)
    | inl list =>
        if negb (String.eqb (unstructured.Continue list) "") then
          let* fullList := remote (ResourceList ctx namespace gvr unboundedList)
                                  (CallList ctx namespace gvr unboundedList) in
          match fullList with
          | inr err => ret (0, Some err)
          | inl fullList => ret (len (unstructured.Items fullList), None)
          end
        else ret (len (unstructured.Items list), None)
    end.

(** *** Namespace Cache: [Client.GetResourcesInNamespace] *)

Definition skipResources : gmap string bool :=
  list_to_map
    [ ("bindings", true);
      ("localsubjectaccessreviews", true);
      ("selfsubjectaccessreviews", true);
      ("selfsubjectrulesreviews", true);
      ("uploadtokenrequests", true);
      ("tokenrequests", true);
      ("subjectaccessreviews", true) ].

(** [m[k]] on a [map[string]bool]: [false] for a missing key *)
Definition index (m : gmap string bool) (k : string) : bool := default false (m !! k).

(** The expected permission failures, recognised by their text. *)
Definition permissionDenied (err : error) : bool :=
  Contains (Error err) "does not allow this method" || Contains (Error err) "forbidden".

(** One iteration of the counting loop; the loop state is the counter
    [processed] and the slice, which is updated in place at index [i]. *)
Definition countStep (namespace : string) (debugMode : bool) (total : Z)
    (st : Z * list ResourceInfo) (i : nat) : M (Z * list ResourceInfo) :=
  let '(processed, namespacedResources) := st in
  let processed := processed + 1 in
  match namespacedResources !! i with
  | None => ret (processed, namespacedResources)
  | Some resource =>
      when (debugMode && (processed <=? 10))
           (logPrintf "[DEBUG] Counting objects for: %s (%s/%s)"
                      [AStr (DisplayName resource); AStr (APIGroup resource);
                       AStr (APIVersion resource)]);;
      let* '(count, err) := countResourceObjects namespace resource in
      let* namespacedResources :=
        match err with
        | Some err =>
            if permissionDenied err then
              when (debugMode && (processed <=? 10))
                   (logPrintf "[DEBUG]   → Permission denied (expected)" []);;
              ret (<[i := withCount resource 0]> namespacedResources)
            else
              logPrintf "Warning: Failed to count objects for resource %s: %v"
                        [AStr (Name resource); AErr err];;
              ret (<[i := withCount resource 0]> namespacedResources)
        | None =>
            when (debugMode && ((0 <? count) || (processed <=? 10)))
                 (logPrintf "[DEBUG]   → %d objects found" [AInt count]);;
            ret (<[i := withCount resource count]> namespacedResources)
        end in
      when (processed `rem` 20 =? 0)
           (logPrintf "Processed %d/%d resources" [AInt processed; AInt total]);;
      ret (processed, namespacedResources)
  end.

(** The filter loop of [GetResourcesInNamespace]: namespaced resources
    that are not on the skip list, in order. *)
Definition keepCountable (resources : list ResourceInfo) : list ResourceInfo :=
  fold_left
    (λ namespacedResources resource,
       if Namespaced resource && negb (index skipResources (Name resource))
       then namespacedResources ++ [resource]
       else namespacedResources)
    resources [].

Definition debugEnv : M bool :=
  let* w := getWorld in
  ret (String.eqb (Getenv w "DEBUG") "true" || String.eqb (Getenv w "DEBUG") "1").

Definition storeNamespace (namespace : string) (namespacedResources : list ResourceInfo)
  : M (list ResourceInfo * option error) :=
  modifyClient (λ c, setNamespaceCache c namespace namespacedResources);;
  let* now := timeNow in
  modifyClient (λ c, setNamespaceCacheTime c namespace now);;
  logPrintf "[DEBUG] Cached %d resources for namespace '%s'"
            [AInt (len namespacedResources); AStr namespace];;
  ret (namespacedResources, None).

(** "Check namespace cache first": the cached slice when the entry
    exists and is younger than the TTL. *)
Definition checkNamespaceCache (namespace : string) : M (option (list ResourceInfo)) :=
  let* c := getClient in
  match namespaceCaches c !! namespace with
  | Some cachedResources =>
      match namespaceCacheTimes c !! namespace with
      | Some cacheTime =>
          let* age := timeSince cacheTime in
          if age <? cacheTTL c then
            let* age := timeSince cacheTime in
            logPrintf "[DEBUG] Using cached namespace data for '%s' (%d resources, cached %v ago)"
                      [AStr namespace; AInt (len cachedResources); ARounded age second];;
            ret (Some cachedResources)
          else
            logPrintf "[DEBUG] Cache expired for namespace '%s', refreshing..."
                      [AStr namespace];;
            ret None
      | None => ret None
      end
  | None =>
      logPrintf "[DEBUG] No cache found for namespace '%s', counting objects..."
                [AStr namespace];;
      ret None
  end.

(** "Count objects with progress reporting": the loop over the indices
    of the slice. *)
Definition countObjects (namespace : string) (namespacedResources : list ResourceInfo)
  : M (list ResourceInfo) :=
  let* debugMode := debugEnv in
  let* '(processed, namespacedResources) :=
    forRange (countStep namespace debugMode (len namespacedResources))
             (seq 0 (length namespacedResources))
             (0, namespacedResources) in
  ret namespacedResources.

Definition GetResourcesInNamespace (namespace : string)
  : M (list ResourceInfo * option error) :=
  let* cached := checkNamespaceCache namespace in
  match cached with
  | Some cachedResources => ret (cachedResources, None)
  | None =>
      let* '(resources, err) := GetAPIResources in
      match err with
      | Some err => ret ([], Some err)
      | None =>
          let namespacedResources := keepCountable resources in
          logPrintf "Counting objects for %d namespaced resources in namespace '%s'"
                    [AInt (len namespacedResources); AStr namespace];;
          let* namespacedResources := countObjects namespace namespacedResources in
          logPrintf "Completed: Found %d namespaced resources in '%s'"
                    [AInt (len namespacedResources); AStr namespace];;
          storeNamespace namespace namespacedResources
      end
  end.

(** *** [Client.GetResourcesInNamespaceWithCallback]

    [debugCallback] says whether the callback is non-nil; the messages it
    is called with are recorded in [callbacks]. *)

(** The filter loop of this entry point. *)
Definition keepNamespaced (resources : list ResourceInfo) : list ResourceInfo :=
  fold_left
    (λ namespacedResources resource,
       if Namespaced resource
       then namespacedResources ++ [resource]
       else namespacedResources)
    resources [].

Definition countStepWithCallback (namespace : string) (debugCallback debugMode : bool)
    (total : Z) (st : Z * list ResourceInfo) (i : nat) : M (Z * list ResourceInfo) :=
  let '(processed, namespacedResources) := st in
  match namespacedResources !! i with
  | None => ret (processed + 1, namespacedResources)
  | Some resource =>
      let processed := processed + 1 in
      when (debugCallback && debugMode && (processed <=? 15))
           (callDebugCallback "🔍 Counting objects for: %s (%s/%s)"
                              [AStr (DisplayName resource); AStr (APIGroup resource);
                               AStr (APIVersion resource)]);;
      when (debugMode && (processed <=? 10))
           (logPrintf "[DEBUG] Counting objects for: %s (%s/%s)"
                      [AStr (DisplayName resource); AStr (APIGroup resource);
                       AStr (APIVersion resource)]);;
      let* '(count, err) := countResourceObjects namespace resource in
      let* namespacedResources :=
        match err with
        | Some err =>
            if permissionDenied err then
              when (debugCallback && debugMode && (processed <=? 15))
                   (callDebugCallback "  ⚠️ Permission denied (expected)" []);;
              ret (<[i := withCount resource 0]> namespacedResources)
            else
              logPrintf "Warning: Failed to count objects for resource %s: %v"
                        [AStr (Name resource); AErr err];;
              ret (<[i := withCount resource 0]> namespacedResources)
        | None =>
            when (debugCallback && (0 <? count))
                 (callDebugCallback "  ✅ %s: %d objects found"
                                    [AStr (DisplayName resource); AInt count]);;
            when (debugMode && ((0 <? count) || (processed <=? 10)))
                 (logPrintf "[DEBUG]   → %d objects found" [AInt count]);;
            ret (<[i := withCount resource count]> namespacedResources)
        end in
      when (debugCallback && ((processed `rem` 10 =? 0) || (processed =? total)))
           (callDebugCallback "📈 Progress: %d%% (%d/%d resources)"
                              [APercent processed total; AInt processed; AInt total]);;
      when (processed `rem` 20 =? 0)
           (logPrintf "Processed %d/%d resources" [AInt processed; AInt total]);;
      ret (processed, namespacedResources)
  end.

Definition GetResourcesInNamespaceWithCallback (namespace : string) (debugCallback : bool)
  : M (list ResourceInfo * option error) :=
  let* c := getClient in
  let* cached :=
    match namespaceCaches c !! namespace with
    | Some cachedResources =>
        match namespaceCacheTimes c !! namespace with
        | Some cacheTime =>
            let* age := timeSince cacheTime in
            if age <? cacheTTL c then
              (if debugCallback then
                 let* age := timeSince cacheTime in
                 callDebugCallback "⚡ Using cached data for '%s' (%d resources, cached %v ago)"
                                   [AStr namespace; AInt (len cachedResources);
                                    ARounded age second]
               else ret tt);;
              ret (Some cachedResources)
            else ret None
        | None => ret None
        end
    | None => ret None
    end in
  match cached with
  | Some cachedResources => ret (cachedResources, None)
  | None =>
      when debugCallback
           (callDebugCallback "🔍 No cache found for namespace '%s', discovering resources..."
                              [AStr namespace]);;
      logPrintf "[DEBUG] No cache found for namespace '%s', counting objects..."
                [AStr namespace];;
      let* '(resources, err) := GetAPIResources in
      match err with
      | Some err => ret ([], Some err)
      | None =>
          when debugCallback
               (callDebugCallback "📋 Found %d API resource types, filtering for namespace '%s'"
                                  [AInt (len resources); AStr namespace]);;
          let namespacedResources := keepNamespaced resources in
          when debugCallback
               (callDebugCallback "🔢 Counting objects for %d namespaced resources in namespace '%s'"
                                  [AInt (len namespacedResources); AStr namespace]);;
          logPrintf "Counting objects for %d namespaced resources in namespace '%s'"
                    [AInt (len namespacedResources); AStr namespace];;
          let* w := getWorld in
          let debugMode := String.eqb (ToLower (Getenv w "DEBUG")) "true" in
          let* '(processed, namespacedResources) :=
            forRange (countStepWithCallback namespace debugCallback debugMode
                                            (len namespacedResources))
                     (seq 0 (length namespacedResources))
                     (0, namespacedResources) in
          when debugCallback
               (callDebugCallback "✨ Resource discovery complete! Found %d namespaced resources"
                                  [AInt (len namespacedResources)]);;
          logPrintf "Completed: Found %d namespaced resources in '%s'"
                    [AInt (len namespacedResources); AStr namespace];;
          storeNamespace namespace namespacedResources
      end
  end.

(** *** Resource lookup of the object methods

    [Client.GetResourceObjects], [Client.GetResourceObject] and
    [Client.GetRawResourceObject] open with the same lines: the handle
    check, the catalog, the search loop that sets [targetResource] and the
    group/version/resource of the request that follows. *)

(** The search loop: the first entry that matches by [FullName] or by
    [Name] and is namespaced; [None] is the nil pointer. *)
Fixpoint targetResource (resourceIdentifier : string) (resources : list ResourceInfo)
  : option ResourceInfo :=
  match resources with
  | [] => None
  | resource :: rest =>
      if (String.eqb (FullName resource) resourceIdentifier
          || String.eqb (Name resource) resourceIdentifier)
         && Namespaced resource
      then Some resource
      else targetResource resourceIdentifier rest
  end.

(** The lines up to [gvr]; an error is what the method returns at once. *)
Definition resourceGVR (resourceIdentifier : string)
  : M (option schema.GroupVersionResource * option error) :=
  let* c := getClient in
  if negb (dynamicClient c)
  then ret (None, Some (errorString "no dynamic client available"))
  else
    let* '(resources, err) := GetAPIResources in
    match err with
    | Some err => ret (None, Some err)
    | None =>
        match targetResource resourceIdentifier resources with
        | None =>
            ret (None, Some (errorString ("resource " +:+ resourceIdentifier
                                          +:+ " not found or not namespaced")))
        | Some targetResource =>
            ret (Some (schema.GVR (APIGroup targetResource) (APIVersion targetResource)
                                  (Name targetResource)), None)
        end
    end.

(** ** The HTTP handlers of [cmd/main.go] *)

Record Server : Type := {
  k8sClient : option Client;       (* nil when NewClient failed at start *)
  debug : bool
}.

(** A request: the route variables and the query parameters
    ([r.URL.Query().Get], empty for an absent key). *)
Record Request : Type := {
  vars : string → string;
  query : string → string
}.

(** The [kv] entries of the debug diagnostics. *)
Record kv : Type := {
  kvName : string; kvGroup : string; kvVersion : string; kvCount : Z
}.

Record DebugFields : Type := {
  debugInfo : list kv;
  totalDiscovered : Z;
  processingTime : Z;              (* the duration, before [String()] *)
  cacheStatus : string;
  filterPopulatedOnly : bool;
  filterSearch : string;
  filterApiGroup : string
}.

Inductive Response : Type :=
| httpError (msg : string) (code : Z)
| jsonResources (resources : list ResourceInfo) (count totalObjects : Z)
                (namespace : string) (debugFlag : bool)
                (debugFields : option DebugFields)
| jsonStatus (status : string).

(** State of a handler: the server's client pointer and the process. *)
Definition H (A : Type) : Type := Server * Proc → A * (Server * Proc).

(** Run a method on the server's (non-nil) client. *)
Definition onClient {A} (c : Client) (m : M A) : H A :=
  λ s, let '(a, (c', p)) := m (c, s.2) in
       (a, ({| k8sClient := Some c'; debug := debug s.1 |}, p)).

(** Go [int] addition. *)
Definition wrap64 (z : Z) : Z := (z + 2 ^ 63) `mod` 2 ^ 64 - 2 ^ 63.

(** The filter loop of [getNamespaceResources]; the state is
    [(filtered, totalObjects)]. *)
Definition filterStep (search : string) (showOnlyPopulated : bool) (apiGroup : string)
    (st : list ResourceInfo * Z) (resource : ResourceInfo) : list ResourceInfo * Z :=
  let '(filtered, totalObjects) := st in
  let totalObjects := wrap64 (totalObjects + Count resource) in
  if showOnlyPopulated && (Count resource =? 0) then (filtered, totalObjects)
  else if negb (String.eqb apiGroup "") && negb (String.eqb (APIVersion resource) apiGroup)
  then (filtered, totalObjects)
  else if negb (String.eqb search "")
          && (negb (Contains (ToLower (Name resource)) search)
              && negb (Contains (ToLower (Kind resource)) search))
  then (filtered, totalObjects)
  else (filtered ++ [resource], totalObjects).

Definition filterResources (search : string) (showOnlyPopulated : bool) (apiGroup : string)
    (resources : list ResourceInfo) : list ResourceInfo * Z :=
  fold_left (filterStep search showOnlyPopulated apiGroup) resources ([], 0).

(** The [top] slice of the debug diagnostics: one [kv] per filtered
    resource, sorted by count, largest first. *)
Definition topByCount (filtered : list ResourceInfo) : list kv :=
  SortSlice kv (λ a b, kvCount b <? kvCount a)
    (map (λ rinfo,
            {| kvName := Name rinfo;
               kvGroup := if String.eqb (APIGroup rinfo) "" then "core" else APIGroup rinfo;
               kvVersion := APIVersion rinfo;
               kvCount := Count rinfo |})
         filtered).

Definition getNamespaceResources (r : Request) : H Response :=
  λ s,
  match k8sClient s.1 with
  | None => (httpError "No Kubernetes connection" 503, s)
  | Some c =>
      let namespace := vars r "namespace" in
      let debug := debug s.1 in
      onClient c (
        fmtPrintf ("Loading resources for namespace: %s" +:+ nl) [AStr namespace];;
        let* '(resources, err) := GetResourcesInNamespace namespace in
        match err with
        | Some err => ret (httpError (Error err) 500)
        | None =>
            let search := ToLower (query r "search") in
            let showOnlyPopulated := String.eqb (query r "populated") "true" in
            let apiGroup := query r "apiGroup" in
            let* start := timeNow in
            when debug
                 (logPrintf "[DEBUG] Namespace=%s resources discovered: %d"
                            [AStr namespace; AInt (len resources)]);;
            let '(filtered, totalObjects) :=
              filterResources search showOnlyPopulated apiGroup resources in
            (if debug then
               let top := take 10 (topByCount filtered) in
               logPrintf ("[DEBUG] Filtered resources: %d (populatedOnly=%t search="
                            +:+ dq +:+ "%s" +:+ dq +:+ " apiGroup=" +:+ dq +:+ "%s"
                            +:+ dq +:+ ")")
                         [AInt (len filtered); ABool showOnlyPopulated; AStr search;
                          AStr apiGroup];;
               forRange (λ _ t,
                           logPrintf "[DEBUG]   %s (%s/%s) -> %d objects"
                                     [AStr (kvName t); AStr (kvGroup t);
                                      AStr (kvVersion t); AInt (kvCount t)])
                        top tt;;
               let* took := timeSince start in
               logPrintf "[DEBUG] Completed in %s" [ADuration took]
             else ret tt);;
            fmtPrintf ("Found %d resources (%d total objects) in namespace %s" +:+ nl)
                      [AInt (len filtered); AInt totalObjects; AStr namespace];;
            let* debugFields :=
              if debug then
                let debugInfo := take 15 (topByCount filtered) in
                let* processingTime := timeSince start in
                let* cacheStatus :=
                  if 0 <? len resources then
                    let* since := timeSince start in
                    ret (if since `quot` 1000000 <? 1000
                         then "Cache hit - using stored object counts"
                         else "Fresh data - object counts calculated")
                  else ret "Fresh data - object counts calculated" in
                ret (Some {| debugInfo := debugInfo;
                             totalDiscovered := len resources;
                             processingTime := processingTime;
                             cacheStatus := cacheStatus;
                             filterPopulatedOnly := showOnlyPopulated;
                             filterSearch := search;
                             filterApiGroup := apiGroup |})
              else ret None in
            ret (jsonResources filtered (len filtered) totalObjects namespace
                               debug debugFields)
        end) s
  end.

(** [Server.clearCache] *)
Definition clearCache (r : Request) : H Response :=
  λ s,
  match k8sClient s.1 with
  | Some c =>
      (* Clear both API resources cache and namespace caches *)
      (* We'll need to add methods to the k8s client for this *)
      onClient c (fmtPrintln "🗑️ Cache cleared by user request";;
                  ret (jsonStatus "cache cleared")) s
  | None => (jsonStatus "cache cleared", s)
  end.

(** [Server.exportResourcesCSV]: the answer is an error or the
    Content-Disposition header with the lines written to the body. *)
Inductive Download : Type :=
| downloadError (msg : string) (code : Z)
| csvFile (contentDisposition : string) (body : list Formatted).

Definition csvHeader : Formatted :=
  Printf ("Resource Name,Kind,API Group,API Version,Namespaced,Count" +:+ nl) [].

Definition csvRow (resource : ResourceInfo) : Formatted :=
  let apiGroup := APIGroup resource in
  let apiGroup := if String.eqb apiGroup "" then "core" else apiGroup in
  Printf (dq +:+ "%s" +:+ dq +:+ "," +:+ dq +:+ "%s" +:+ dq +:+ ","
             +:+ dq +:+ "%s" +:+ dq +:+ "," +:+ dq +:+ "%s" +:+ dq +:+ ",%t,%d" +:+ nl)
         [AStr (Name resource); AStr (Kind resource); AStr apiGroup;
          AStr (APIVersion resource); ABool (Namespaced resource);
          AInt (Count resource)].

Definition exportResourcesCSV (r : Request) : H Download :=
  λ s,
  match k8sClient s.1 with
  | None => (downloadError "No Kubernetes connection" 503, s)
  | Some c =>
      let namespace := vars r "namespace" in
      onClient c (
        fmtPrintf ("Exporting resources for namespace: %s" +:+ nl) [AStr namespace];;
        let* '(resources, err) := GetResourcesInNamespace namespace in
        match err with
        | Some err => ret (downloadError (Error err) 500)
        | None =>
            let body := [csvHeader] in
            let body := fold_left (λ body resource, body ++ [csvRow resource])
                                  resources body in
            fmtPrintf ("Exported %d resources for namespace %s" +:+ nl)
                      [AInt (len resources); AStr namespace];;
            ret (csvFile ("attachment; filename=" +:+ dq +:+ "k8s-resources-"
                            +:+ namespace +:+ ".csv" +:+ dq)
                         body)
        end) s
  end.

End Model.

(** ** A scripted platform

    A cluster that answers every discovery with the same response, every
    list request by a table, and lets a fixed time pass between two
    readings of the clock.  It serves to run the model on concrete inputs. *)

Module Sim.

Record Cluster : Type := {
  discovery : list metav1.APIResourceList * option error;
  objects : string → schema.GroupVersionResource → metav1.ListOptions →
            unstructured.UnstructuredList + error;
  tick : N;
  environ : string → string
}.

Fixpoint splitSlash (s : string) : list string :=
  match s with
  | EmptyString => [EmptyString]
  | String c s' =>
      if Ascii.eqb c "/" then EmptyString :: splitSlash s'
      else match splitSlash s' with
           | x :: xs => String c x :: xs
           | [] => [String c EmptyString]
           end
  end.

(** [schema.ParseGroupVersion] of apimachinery: empty and ["/"] give the
    empty group/version, no slash gives a core version, one slash splits
    group from version, more is an error. *)
Definition parseGroupVersion (gv : string) : schema.GroupVersion + error :=
  if String.eqb gv "" || String.eqb gv "/"
  then inl {| schema.Group := ""; schema.Version := "" |}
  else match splitSlash gv with
       | [v] => inl {| schema.Group := ""; schema.Version := v |}
       | [g; v] => inl {| schema.Group := g; schema.Version := v |}
       | _ => inr (errorString ("unexpected GroupVersion string: " +:+ gv))
       end.

(** [strings.ToLower] on ASCII text; letters outside ASCII, which the
    library also maps, are left as they are. *)
Definition lowerAscii (c : ascii) : ascii :=
  let n := nat_of_ascii c in
  if (65 <=? n)%nat && (n <=? 90)%nat then ascii_of_nat (n + 32) else c.

Fixpoint toLower (s : string) : string :=
  match s with
  | EmptyString => EmptyString
  | String c s' => String (lowerAscii c) (toLower s')
  end.

(** An insertion sort for [sort.Slice]; it keeps ties in their order,
    where the library promises no order among them. *)
Fixpoint insertBy {A} (less : A → A → bool) (x : A) (l : list A) : list A :=
  match l with
  | [] => [x]
  | y :: l' => if less y x then y :: insertBy less x l' else x :: l
  end.

Definition sortSlice (A : Type) (less : A → A → bool) (l : list A) : list A :=
  fold_right (insertBy less) [] l.

Definition platform : Platform :=
  {| World := Cluster;
     elapse := λ w, (tick w, w);
     ServerPreferredNamespacedResources := λ w, (discovery w, w);
     ResourceList := λ _ ns gvr opts w, (objects w ns gvr opts, w);
     Getenv := environ;
     ParseGroupVersion := parseGroupVersion;
     ToLower := toLower;
     SortSlice := sortSlice |}.

(** The process at start: clock at 0, nothing called or written yet. *)
Definition boot (w : Cluster) : Proc (P := platform) :=
  {| world := (w : @World platform); clock := 0; calls := []; logs := [];
     callbacks := []; stdout := [] |}.

Definition noObjects : unstructured.UnstructuredList :=
  {| unstructured.Continue := ""; unstructured.Items := [] |}.

Definition items (n : nat) (continue : string) : unstructured.UnstructuredList :=
  {| unstructured.Continue := continue;
     unstructured.Items := repeat {| unstructured.objectName := "obj" |} n |}.

(** *** Scenarios *)

Definition apiResource (name kind : string) (short : list string) : metav1.APIResource :=
  {| metav1.Name := name; metav1.Kind := kind; metav1.ShortNames := short;
     metav1.Namespaced := true |}.

(** A small healthy cluster.  Its discovery also lists a subresource
    and the deny-listed tokenrequests. *)
Definition smallLists : list metav1.APIResourceList :=
  [ {| metav1.GroupVersion := "v1";
       metav1.APIResources :=
         [ apiResource "pods" "Pod" ["po"];
           apiResource "pods/log" "Pod" [];
           apiResource "services" "Service" ["svc"];
           apiResource "configmaps" "ConfigMap" ["cm"] ] |};
    {| metav1.GroupVersion := "apps/v1";
       metav1.APIResources := [ apiResource "deployments" "Deployment" ["deploy"] ] |};
    {| metav1.GroupVersion := "authentication.k8s.io/v1";
       metav1.APIResources := [ apiResource "tokenrequests" "TokenRequest" [] ] |} ].

(** Three pods; services are forbidden; configmaps hit a network error;
    deployments come back truncated (one item and a continuation token)
    and number five in full; tokenrequests cannot be listed. *)
Definition smallObjects (ns : string) (gvr : schema.GroupVersionResource)
    (opts : metav1.ListOptions) : unstructured.UnstructuredList + error :=
  let resource := schema.gvrResource gvr in
  if String.eqb resource "pods" then inl (items 3 "")
  else if String.eqb resource "services" then
    inr (errorString "services is forbidden: User cannot list resource")
  else if String.eqb resource "configmaps" then
    inr (errorString "dial tcp 10.0.0.1:443: connect: connection refused")
  else if String.eqb resource "deployments" then
    match metav1.TimeoutSeconds opts with
    | Some _ => inl (items 1 "next")
    | None => inl (items 5 "")
    end
  else inr (errorString "the server does not allow this method on the requested resource").

Definition small : Cluster :=
  {| discovery := (smallLists, None);
     objects := smallObjects;
     tick := 1000000000;
     environ := λ _, "" |}.

(** A cluster on which every group fails discovery. *)
Definition allFailed : error :=
  ErrGroupDiscoveryFailed
    [ "metrics.k8s.io/v1beta1"; "custom.metrics.k8s.io/v1beta1" ]
    "unable to retrieve the complete list of server APIs".

Definition broken : Cluster :=
  {| discovery := ([], Some allFailed);
     objects := smallObjects;
     tick := 1000000000;
     environ := λ _, "" |}.



(** A cluster that cannot be reached: discovery fails as a whole. *)
Definition refused : error :=
  errorString "Get https://10.0.0.1:443/api: dial tcp 10.0.0.1:443: connect: connection refused".

Definition unreachable : Cluster :=
  {| discovery := ([], Some refused);
     objects := smallObjects;
     tick := 1000000000;
     environ := λ _, "" |}.

(** A cluster whose discovery works and whose list requests all fail on
    the network; the error names the URL of the request, as the errors
    of the client do. *)
Definition listURL (ns : string) (gvr : schema.GroupVersionResource) : string :=
  "https://10.0.0.1:443"
  +:+ (if String.eqb (schema.gvrGroup gvr) "" then "/api/"
       else "/apis/" +:+ schema.gvrGroup gvr +:+ "/")
  +:+ schema.gvrVersion gvr +:+ "/namespaces/" +:+ ns +:+ "/" +:+ schema.gvrResource gvr.

Definition connectionRefused (ns : string) (gvr : schema.GroupVersionResource) : error :=
  errorString ("Get " +:+ dq +:+ listURL ns gvr +:+ dq
               +:+ ": dial tcp 10.0.0.1:443: connect: connection refused").

Definition offline : Cluster :=
  {| discovery := (smallLists, None);
     objects := λ ns gvr _, inr (connectionRefused ns gvr);
     tick := 1000000000;
     environ := λ _, "" |}.


Definition start (w : Cluster) : St (P := platform) := (NewClient, boot w).

(** A server with a client, and a request for a namespace with the
    three filter parameters. *)
Definition server (debugFlag : bool) : Server :=
  {| k8sClient := Some NewClient; debug := debugFlag |}.

Definition request (ns search populated apiGroup : string) : Request :=
  {| vars := λ k, if String.eqb k "namespace" then ns else "";
     query := λ k, if String.eqb k "search" then search
                   else if String.eqb k "populated" then populated
                   else if String.eqb k "apiGroup" then apiGroup
                   else "" |}.

(** Whether a remote call lists the resource of that name. *)
Definition listsResource (name : string) (call : RemoteCall) : bool :=
  match call with
  | CallList _ _ gvr _ _ => String.eqb (schema.gvrResource gvr) name
  | CallDiscovery _ => false
  end.

(** The deployments entry of the catalog. *)
Definition deployments : ResourceInfo :=
  toResourceInfo {| schema.Group := "apps"; schema.Version := "v1" |}
                 (apiResource "deployments" "Deployment" ["deploy"]).

End Sim.

(** ** Vocabulary of the properties *)

Section Vocabulary.
Context `{P : Platform}.

(** One resource list as the catalog sees it: nothing when its
    group/version does not parse, else its resources without the
    subresources. *)
Definition listed (resourceList : metav1.APIResourceList) : list ResourceInfo :=
  match ParseGroupVersion (metav1.GroupVersion resourceList) with
  | inr _ => []
  | inl gv =>
      flat_map (λ resource,
                  if Contains (metav1.Name resource) "/" then []
                  else [toResourceInfo gv resource])
               (metav1.APIResources resourceList)
  end.


(** The catalog cache cannot be served at clock reading [t]. *)
Definition catalogStale (c : Client) (t : Z) : Prop :=
  resourcesCache c = [] ∨ cacheTTL c ≤ Sub t (resourcesCacheTime c).

(** The discovered resources were stored in the catalog cache at [t]. *)
Definition catalogStored (c : Client) (resources : list ResourceInfo) (t : Z) : Client :=
  setResourcesCacheTime (setResourcesCache c resources) t.

(** The ways one call of [GetAPIResources] can go, from state [s] with
    result [r] to state [s']. *)
Inductive CatalogRun (s : St) (r : list ResourceInfo * option error) (s' : St) : Prop :=
| RunNoClient :
    discoveryClient s.1 = false →
    r = ([], Some (errorString "no discovery client available")) →
    s' = s →
    CatalogRun s r s'
| RunCached (t : Z) :
    discoveryClient s.1 = true →
    resourcesCache s.1 ≠ [] →
    clock s.2 ≤ t ≤ clock s'.2 →
    Sub t (resourcesCacheTime s.1) < cacheTTL s.1 →
    r = (resourcesCache s.1, None) →
    s'.1 = s.1 →
    calls s'.2 = calls s.2 →
    CatalogRun s r s'
| RunDiscovery (t : Z) (resourceLists : list metav1.APIResourceList) (err : option error) :
    discoveryClient s.1 = true →
    clock s.2 ≤ t ≤ clock s'.2 →
    catalogStale s.1 t →
    calls s'.2 = calls s.2 ++ [CallDiscovery (resourceLists, err)] →
    match err with
    | Some e =>
        if IsGroupDiscoveryFailedError e then
          if decide (resourceLists = []) then
            r = (coreResources, None) ∧ s'.1 = s.1
          else
            r = (collectResources resourceLists, None)
            ∧ ∃ t', s'.1 = catalogStored s.1 (collectResources resourceLists) t'
                    ∧ t' ≤ clock s'.2
        else
          r = ([], Some (Errorf "failed to discover API resources: " e)) ∧ s'.1 = s.1
    | None =>
        r = (collectResources resourceLists, None)
        ∧ ∃ t', s'.1 = catalogStored s.1 (collectResources resourceLists) t'
                ∧ t' ≤ clock s'.2
    end →
    CatalogRun s r s'.

(** What the Object Counter answers for each resource of [rs] in turn,
    starting from state [s]. *)
Fixpoint countOutcomes (namespace : string) (rs : list ResourceInfo) (s : St)
  : list (Z * option error) :=
  match rs with
  | [] => []
  | r :: rs' =>
      let '(o, s') := countResourceObjects namespace r s in
      o :: countOutcomes namespace rs' s'
  end.

(** The entry of a resource after its count attempt: the count, or 0
    when the attempt failed. *)
Definition counted (r : ResourceInfo) (o : Z * option error) : ResourceInfo :=
  withCount r (match o.2 with Some _ => 0 | None => o.1 end).

(** The warning a count attempt leaves in the log: none when it
    succeeded or failed with an expected permission error. *)
Definition warningFor (r : ResourceInfo) (o : Z * option error) : list Formatted :=
  match o.2 with
  | Some e =>
      if permissionDenied e then []
      else [Printf "Warning: Failed to count objects for resource %s: %v"
                   [AStr (Name r); AErr e]]
  | None => []
  end.

Definition isCallList (call : RemoteCall) : bool :=
  match call with
  | CallList _ _ _ _ _ => true
  | CallDiscovery _ => false
  end.

(** The reading the next [time.Now()] gives in process state [p]. *)
Definition nextReading (p : Proc) : Z := clock p + Z.of_N (elapse (world p)).1.

(** The namespace cache holds [cached] for [namespace], stamped [t]. *)
Definition namespaceEntry (c : Client) (namespace : string)
    (cached : list ResourceInfo) (t : Z) : Prop :=
  namespaceCaches c !! namespace = Some cached
  ∧ namespaceCacheTimes c !! namespace = Some t.

(** The namespace cache has nothing to serve for [namespace] when the
    test reads the clock as [now]. *)
Definition namespaceMiss (c : Client) (namespace : string) (now : Z) : Prop :=
  namespaceCaches c !! namespace = None
  ∨ namespaceCacheTimes c !! namespace = None
  ∨ ∃ t, namespaceCacheTimes c !! namespace = Some t ∧ cacheTTL c ≤ Sub now t.

(** The two ways one call of [GetResourcesInNamespace] can go: served
    from the cache, or a scan that asks the catalog in state [mid1],
    gets [catalog] in state [mid2], counts and stores. *)
Inductive NamespaceRun (namespace : string) (s : St)
    (r : list ResourceInfo * option error) (s' : St) : Prop :=
| RunNamespaceCached (cached : list ResourceInfo) (t : Z) :
    namespaceEntry s.1 namespace cached t →
    Sub (nextReading s.2) t < cacheTTL s.1 →
    r = (cached, None) →
    s'.1 = s.1 →
    calls s'.2 = calls s.2 →
    clock s.2 ≤ clock s'.2 →
    NamespaceRun namespace s r s'
| RunNamespaceScan (mid1 mid2 : St) (catalog : list ResourceInfo * option error) :
    namespaceMiss s.1 namespace (nextReading s.2) →
    mid1.1 = s.1 →
    calls mid1.2 = calls s.2 →
    clock s.2 ≤ clock mid1.2 →
    (is_Some (namespaceCaches s.1 !! namespace) →
     is_Some (namespaceCacheTimes s.1 !! namespace) →
     nextReading s.2 ≤ clock mid1.2) →
    GetAPIResources mid1 = (catalog, mid2) →
    match catalog.2 with
    | Some e => r = ([], Some e) ∧ s' = mid2
    | None =>
        let rs := keepCountable catalog.1 in
        let outcomes := countOutcomes namespace rs mid2 in
        r = (zip_with counted rs outcomes, None)
        ∧ (∃ t, s'.1 = setNamespaceCacheTime
                         (setNamespaceCache mid2.1 namespace r.1) namespace t
                ∧ clock mid2.2 ≤ t ≤ clock s'.2)
        ∧ (∃ cs, calls s'.2 = calls mid2.2 ++ cs
                 ∧ Forall (λ call, isCallList call = true) cs)
        ∧ ∃ new, logs s'.2 = logs mid2.2 ++ new
                 ∧ List.filter isWarning new = concat (zip_with warningFor rs outcomes)
    end →
    NamespaceRun namespace s r s'.

(** A catalog entry names no subresource and carries no count. *)
Definition plainEntry (r : ResourceInfo) : Prop :=
  Contains (Name r) "/" = false ∧ Count r = 0.

(** What a stretch of a scan does to the state from [s] to [s']: the
    client and the clock stay, the world ends as [w], the trace grows by
    [cs], the log by lines whose warnings are [warnings], and the callback
    is called only when there is one. *)
Definition effect (cb : bool) (w : World) (cs : list RemoteCall) (warnings : list Formatted)
    (s s' : St) : Prop :=
  s'.1 = s.1
  ∧ world s'.2 = w
  ∧ clock s'.2 = clock s.2
  ∧ calls s'.2 = calls s.2 ++ cs
  ∧ (∃ new, logs s'.2 = logs s.2 ++ new ∧ List.filter isWarning new = warnings)
  ∧ ∃ said, callbacks s'.2 = callbacks s.2 ++ said ∧ (cb = false → said = []).

Definition countsNonneg (c : Client) : Prop :=
  ∀ namespace rs, namespaceCaches c !! namespace = Some rs → Forall (λ x, 0 ≤ Count x) rs.

Definition shown (search : string) (showOnlyPopulated : bool) (apiGroup : string)
    (resource : ResourceInfo) : bool :=
  negb (showOnlyPopulated && (Count resource =? 0))
  && (String.eqb apiGroup "" || String.eqb (APIVersion resource) apiGroup)
  && (String.eqb search ""
      || Contains (ToLower (Name resource)) search
      || Contains (ToLower (Kind resource)) search).

Definition wrappedSum (rs : list ResourceInfo) : Z :=
  fold_left (λ total r, wrap64 (total + Count r)) rs 0.

Definition plainSum (rs : list ResourceInfo) : Z :=
  foldr (λ r total, Count r + total) 0 rs.

(** The state in which a call of [GetResourcesInNamespace] that finds
    nothing to serve asks for the catalog: the cache test has read the
    clock when both maps hold the namespace, and has written its log
    line unless only the stamp is missing. *)
Definition afterMiss (namespace : string) (s : St) : St :=
  match namespaceCaches s.1 !! namespace, namespaceCacheTimes s.1 !! namespace with
  | Some _, Some _ =>
      (s.1, {| world := (elapse (world s.2)).2;
               clock := nextReading s.2;
               calls := calls s.2;
               logs := logs s.2
                       ++ [Printf "[DEBUG] Cache expired for namespace '%s', refreshing..."
                                  [AStr namespace]];
               callbacks := callbacks s.2;
               stdout := stdout s.2 |})
  | Some _, None =>
      (s.1, {| world := world s.2; clock := clock s.2; calls := calls s.2;
               logs := logs s.2; callbacks := callbacks s.2; stdout := stdout s.2 |})
  | None, _ =>
      (s.1, {| world := world s.2; clock := clock s.2; calls := calls s.2;
               logs := logs s.2
                       ++ [Printf "[DEBUG] No cache found for namespace '%s', counting objects..."
                                  [AStr namespace]];
               callbacks := callbacks s.2;
               stdout := stdout s.2 |})
  end.

(** The same for [GetResourcesInNamespaceWithCallback], which says so to
    the callback and to the log in every case. *)
Definition afterMissWithCallback (namespace : string) (debugCallback : bool) (s : St) : St :=
  let read :=
    match namespaceCaches s.1 !! namespace, namespaceCacheTimes s.1 !! namespace with
    | Some _, Some _ => true
    | _, _ => false
    end in
  (s.1, {| world := if read then (elapse (world s.2)).2 else world s.2;
           clock := if read then nextReading s.2 else clock s.2;
           calls := calls s.2;
           logs := logs s.2
                   ++ [Printf "[DEBUG] No cache found for namespace '%s', counting objects..."
                              [AStr namespace]];
           callbacks := callbacks s.2
                        ++ (if debugCallback
                            then [Printf "🔍 No cache found for namespace '%s', discovering resources..."
                                         [AStr namespace]]
                            else []);
           stdout := stdout s.2 |}).


End Vocabulary.

(** ** Properties *)

Section Properties.
Context `{P : Platform}.

Ltac run :=
  repeat (unfold bind, ret, getClient, modifyClient, getWorld, remote, timeNow,
            timeSince, logPrintf, fmtPrintf, fmtPrintln, callDebugCallback, when in *;
          cbn [fst snd world clock calls logs callbacks stdout] in *).

Ltac step :=
  match goal with
  | |- context [elapse ?w] => destruct (elapse w) as [? ?] eqn:?
  | |- context [ServerPreferredNamespacedResources ?w] =>
      destruct (ServerPreferredNamespacedResources w) as [[? ?] ?] eqn:?
  | |- context [ResourceList ?a ?b ?c ?d ?w] =>
      destruct (ResourceList a b c d w) as [[?|?] ?] eqn:?
  end; run.

Lemma Sub_mono t t' u : t ≤ t' → Sub t u ≤ Sub t' u.
Proof. unfold Sub. lia. Qed.

Lemma len_nil_iff {A} (l : list A) : (len l =? 0) = true ↔ l = [].
Proof. unfold len. destruct l; cbn; split; intros; try done; lia. Qed.

Lemma len_pos_iff {A} (l : list A) : (0 <? len l) = false ↔ l = [].
Proof. unfold len. destruct l; cbn; split; intros; try done; lia. Qed.

(** Every call of [GetAPIResources] goes one of the three ways. *)
Lemma GetAPIResources_run s r s' :
  GetAPIResources s = (r, s') → CatalogRun s r s'.
Proof.
  destruct s as [c p]. unfold GetAPIResources, resourcesCacheValid, storeDiscovered. run.
  destruct (discoveryClient c) eqn:Hd; cbn [negb].
  2:{ intros [= <- <-]. by apply RunNoClient. }
  destruct (0 <? len (resourcesCache c)) eqn:Hlen.
  - step. destruct (Sub _ _ <? cacheTTL c) eqn:Hage.
    + step. intros [= <- <-]. 
      eapply (RunCached _ _ _ (clock p + Z.of_N n)); run; try done; try lia.
      intros E. rewrite E in Hlen. done.
    + step. step. destruct o as [e|]; [destruct (IsGroupDiscoveryFailedError e) eqn:He;
        [destruct (len l =? 0) eqn:Hl|]|]; repeat step; intros [= <- <-];
      eapply (RunDiscovery _ _ _ (clock p + Z.of_N n)); run; try done; try lia;
      try (right; lia); cbn beta iota; rewrite ?He.
      * apply len_nil_iff in Hl. by rewrite decide_True.
      * rewrite decide_False.
        2:{ intros E. apply len_nil_iff in E. congruence. }
        split; [done|]. eexists. split; [reflexivity|]. lia.
      * done.
      * split; [done|]. eexists. split; [reflexivity|]. lia.
  - apply len_pos_iff in Hlen.
    step. step. destruct o as [e|]; [destruct (IsGroupDiscoveryFailedError e) eqn:He;
        [destruct (len l =? 0) eqn:Hl|]|]; repeat step; intros [= <- <-];
      eapply (RunDiscovery _ _ _ (clock p)); run; try done; try lia;
      try (by left); cbn beta iota; rewrite ?He.
      * apply len_nil_iff in Hl. by rewrite decide_True.
      * rewrite decide_False.
        2:{ intros E. apply len_nil_iff in E. congruence. }
        split; [done|]. eexists. split; [reflexivity|]. lia.
      * done.
      * split; [done|]. eexists. split; [reflexivity|]. lia.
Qed.

(** *** The conversion loops as a flat map *)

Lemma appendResources_flat gv resources apiResources :
  appendResources gv resources apiResources
  = resources ++ flat_map (λ resource,
                             if Contains (metav1.Name resource) "/" then []
                             else [toResourceInfo gv resource]) apiResources.
Proof.
  unfold appendResources. revert resources.
  induction apiResources as [|x l IH]; intros acc; cbn [fold_left flat_map].
  - by rewrite app_nil_r.
  - rewrite IH. destruct (Contains _ _); cbn [app]; [done|].
    by rewrite <- app_assoc.
Qed.

Lemma collectResources_listed resourceLists :
  collectResources resourceLists = flat_map listed resourceLists.
Proof.
  unfold collectResources.
  enough (∀ acc, fold_left
            (λ resources resourceList,
               match ParseGroupVersion (metav1.GroupVersion resourceList) with
               | inr _ => resources
               | inl gv => appendResources gv resources (metav1.APIResources resourceList)
               end) resourceLists acc = acc ++ flat_map listed resourceLists) as H
    by apply (H []).
  induction resourceLists as [|x l IH]; intros acc; cbn [fold_left flat_map].
  - by rewrite app_nil_r.
  - rewrite IH. unfold listed at 2.
    destruct (ParseGroupVersion _); [|by rewrite app_nil_l].
    by rewrite appendResources_flat, <- app_assoc.
Qed.





Lemma app_singleton_inv {A} (l : list A) (x y : A) : l ++ [x] = l ++ [y] → x = y.
Proof. intros H. apply app_inv_head in H. by injection H. Qed.

Lemma app_singleton_neq {A} (l : list A) (x : A) : l ≠ l ++ [x].
Proof.
  intros H. apply (f_equal length) in H. rewrite length_app in H. cbn in H. lia.
Qed.

(** A run whose trace grew by one discovery is a [RunDiscovery] with
    that response. *)
Lemma discovery_in_trace s r s' response :
  GetAPIResources s = (r, s') →
  calls s'.2 = calls s.2 ++ [CallDiscovery response] →
  ∃ t, discoveryClient s.1 = true ∧ clock s.2 ≤ t ≤ clock s'.2 ∧ catalogStale s.1 t
       ∧ match response.2 with
         | Some e =>
             if IsGroupDiscoveryFailedError e then
               if decide (response.1 = []) then
                 r = (coreResources, None) ∧ s'.1 = s.1
               else
                 r = (collectResources response.1, None)
                 ∧ ∃ t', s'.1 = catalogStored s.1 (collectResources response.1) t'
                         ∧ t' ≤ clock s'.2
             else
               r = ([], Some (Errorf "failed to discover API resources: " e)) ∧ s'.1 = s.1
         | None =>
             r = (collectResources response.1, None)
             ∧ ∃ t', s'.1 = catalogStored s.1 (collectResources response.1) t'
                     ∧ t' ≤ clock s'.2
         end.
Proof.
  intros Hrun Hcalls. apply GetAPIResources_run in Hrun.
  destruct Hrun as [_ _ ->|t _ _ _ _ _ _ Hc|t lists err Hd Ht Hstale Hc Hout].
  - by apply app_singleton_neq in Hcalls.
  - rewrite Hc in Hcalls. by apply app_singleton_neq in Hcalls.
  - rewrite Hc in Hcalls. apply app_singleton_inv in Hcalls.
    injection Hcalls as <-. by exists t.
Qed.

(** *** Resource Catalog *)

(** C3. When the discovery call reports failed groups and hands back no
    resource list at all, [GetAPIResources] returns no error and exactly
    the five built-in entries: pods, services, configmaps and secrets in
    the core group, deployments in group apps, all namespaced. *)
Theorem C3_fallback_when_no_group_succeeds s r s' e :
  GetAPIResources s = (r, s') →
  calls s'.2 = calls s.2 ++ [CallDiscovery ([], Some e)] →
  IsGroupDiscoveryFailedError e = true →
  r.2 = None
  ∧ r.1 = coreResources
  ∧ length r.1 = 5%nat
  ∧ map (λ x, (Name x, FullName x, APIGroup x, Namespaced x)) r.1
    = [ ("pods", "pods", "", true);
        ("services", "services", "", true);
        ("configmaps", "configmaps", "", true);
        ("secrets", "secrets", "", true);
        ("deployments", "deployments.apps", "apps", true) ].
Proof.
  intros Hrun Hcalls He.
  destruct (discovery_in_trace _ _ _ _ Hrun Hcalls) as (t & _ & _ & _ & Hout).
  cbn [fst snd] in Hout. rewrite He in Hout.
  rewrite decide_True in Hout by done. destruct Hout as [-> _].
  by repeat split.
Qed.

(** C10. On the fallback path the client is left as it was, so the
    catalog cache and its timestamp are unchanged; and as long as those
    two fields are as this call left them, every later catalog call goes
    to discovery again instead of serving anything from the cache. *)
Theorem C10_fallback_is_not_cached s r s' e :
  GetAPIResources s = (r, s') →
  calls s'.2 = calls s.2 ++ [CallDiscovery ([], Some e)] →
  IsGroupDiscoveryFailedError e = true →
  s'.1 = s.1
  ∧ resourcesCache s'.1 = resourcesCache s.1
  ∧ resourcesCacheTime s'.1 = resourcesCacheTime s.1
  ∧ ∀ (c2 : Client) (p : Proc) r2 s2,
      discoveryClient c2 = true →
      cacheTTL c2 = cacheTTL s'.1 →
      resourcesCache c2 = resourcesCache s'.1 →
      resourcesCacheTime c2 = resourcesCacheTime s'.1 →
      clock s'.2 ≤ clock p →
      GetAPIResources (c2, p) = (r2, s2) →
      ∃ response, calls s2.2 = calls p ++ [CallDiscovery response].
Proof.
  intros Hrun Hcalls He.
  destruct (discovery_in_trace _ _ _ _ Hrun Hcalls) as (t & Hd & Ht & Hstale & Hout).
  cbn [fst snd] in Hout. rewrite He in Hout.
  rewrite decide_True in Hout by done. destruct Hout as [_ Hc].
  rewrite Hc. repeat split.
  intros c2 p r2 s2 Hd2 Httl Hcache Htime Hlater Hrun2.
  apply GetAPIResources_run in Hrun2.
  destruct Hrun2 as [Hn _ _|t2 _ Hne Ht2 Hfresh _ _ _|t2 lists err _ _ _ Hc2 _];
    cbn [fst snd] in *.
  - congruence.
  - exfalso. rewrite Hcache in Hne. rewrite Httl, Htime in Hfresh.
    destruct Hstale as [Hnil|Hold]; [done|].
    pose proof (Sub_mono t t2 (resourcesCacheTime s.1)). lia.
  - eauto.
Qed.






(** *** Object Counter *)

(** C7. With a dynamic client, [countResourceObjects] puts one list
    request with the limited options (limit 0, 3 seconds) to the cluster
    in the world it is called in.  When the answer is a list without
    continuation token, the count is its number of items.  When it
    carries a token, one request with the unbounded options follows, in
    the world the first left, and the count is the number of items of
    its answer.  A failed request gives 0 with its error.  The trace
    grows by these requests with the cluster's answers and by nothing
    else, and the count is never negative. *)
Theorem C7_count_protocol namespace resource s n err s' :
  dynamicClient s.1 = true →
  countResourceObjects namespace resource s = ((n, err), s') →
  let gvr := schema.GVR (APIGroup resource) (APIVersion resource) (Name resource) in
  let ask opts w := ResourceList (3 * second) namespace gvr opts w in
  let call opts w := CallList (3 * second) namespace gvr opts (ask opts w).1 in
  let first := ask limitedList (world s.2) in
  limitedList = {| metav1.Limit := 0; metav1.TimeoutSeconds := Some 3 |}
  ∧ unboundedList = {| metav1.Limit := 0; metav1.TimeoutSeconds := None |}
  ∧ match first.1 with
    | inr e =>
        n = 0 ∧ err = Some e
        ∧ calls s'.2 = calls s.2 ++ [call limitedList (world s.2)]
        ∧ world s'.2 = first.2
    | inl list =>
        if String.eqb (unstructured.Continue list) "" then
          n = len (unstructured.Items list) ∧ err = None
          ∧ calls s'.2 = calls s.2 ++ [call limitedList (world s.2)]
          ∧ world s'.2 = first.2
        else
          let followUp := ask unboundedList first.2 in
          calls s'.2
          = calls s.2 ++ [call limitedList (world s.2); call unboundedList first.2]
          ∧ world s'.2 = followUp.2
          ∧ match followUp.1 with
            | inl fullList => n = len (unstructured.Items fullList) ∧ err = None
            | inr e => n = 0 ∧ err = Some e
            end
    end
  ∧ 0 ≤ n
  ∧ s'.1 = s.1
  ∧ clock s'.2 = clock s.2
  ∧ logs s'.2 = logs s.2.
Proof.
  destruct s as [c p]. cbn [fst snd]. intros Hdyn. cbn zeta.
  unfold countResourceObjects. run. rewrite Hdyn. cbn [negb]. intros Hrun.
  split; [done|]. split; [done|]. revert Hrun.
  step.
  - destruct (String.eqb (unstructured.Continue u) "") eqn:Hc; cbn [negb].
    + intros [= <- <- <-]. run.
      match goal with H : ResourceList _ _ _ _ _ = _ |- _ => rewrite H end.
      cbn [fst snd]. rewrite Hc. repeat split; unfold len; lia.
    + step; intros [= <- <- <-]; run;
        repeat (match goal with H : ResourceList _ _ _ _ _ = _ |- _ => rewrite H end;
                cbn [fst snd]);
        rewrite Hc; rewrite <- app_assoc; repeat split; unfold len; lia.
  - intros [= <- <- <-]. run.
    match goal with H : ResourceList _ _ _ _ _ = _ |- _ => rewrite H end.
    by repeat split.
Qed.

(** *** The counting loop *)

(** The counter reads the client's handle and the world, and writes the
    world and the trace; the rest of the state passes through. *)
Lemma countResourceObjects_frame namespace r c (w : World) :
  ∃ o w' cs,
    Forall (λ call, isCallList call = true) cs
    ∧ ∀ p, world p = w →
        countResourceObjects namespace r (c, p)
        = (o, (c, {| world := w'; clock := clock p; calls := calls p ++ cs;
                     logs := logs p; callbacks := callbacks p; stdout := stdout p |})).
Proof.
  unfold countResourceObjects. run.
  destruct (dynamicClient c); cbn [negb].
  2:{ eexists _, w, []. split; [constructor|]. intros p <-.
      rewrite app_nil_r. by destruct p. }
  set (gvr := schema.GVR _ _ _).
  destruct (ResourceList (3 * second) namespace gvr limitedList w) as [[u|e] w1] eqn:E1.
  - destruct (String.eqb (unstructured.Continue u) "") eqn:Hc.
    + eexists _, w1, _. split; cycle 1.
      { intros p Hw. run. rewrite Hw, E1. run. rewrite Hc. cbn [negb]. reflexivity. }
      by repeat constructor.
    + destruct (ResourceList (3 * second) namespace gvr unboundedList w1)
        as [[u2|e2] w2] eqn:E2.
      * eexists _, w2, [_; _]. split; cycle 1.
        { intros p Hw. run. rewrite Hw, E1. run. rewrite Hc. cbn [negb]. run. rewrite E2. run.
          rewrite <- app_assoc. reflexivity. }
        by repeat constructor.
      * eexists _, w2, [_; _]. split; cycle 1.
        { intros p Hw. run. rewrite Hw, E1. run. rewrite Hc. cbn [negb]. run. rewrite E2. run.
          rewrite <- app_assoc. reflexivity. }
        by repeat constructor.
  - eexists _, w1, _. split; cycle 1.
    { intros p Hw. run. rewrite Hw, E1. run. reflexivity. }
    by repeat constructor.
Qed.

Lemma countOutcomes_world namespace rs c p1 p2 :
  world p1 = world p2 →
  countOutcomes namespace rs (c, p1) = countOutcomes namespace rs (c, p2).
Proof.
  revert p1 p2. induction rs as [|r rs IH]; intros p1 p2 Hw; cbn [countOutcomes]; [done|].
  destruct (countResourceObjects_frame namespace r c (world p1)) as (o & w' & cs & _ & H).
  rewrite (H p1), (H p2) by done. f_equal. by apply IH.
Qed.

Lemma length_countOutcomes namespace rs s :
  length (countOutcomes namespace rs s) = length rs.
Proof.
  revert s. induction rs as [|r rs IH]; intros s; cbn [countOutcomes]; [done|].
  destruct (countResourceObjects namespace r s). cbn. by rewrite IH.
Qed.

(** One iteration, at an index that holds [x]. *)
Lemma countStep_run namespace debugMode total processed arr i x c p st' s' :
  arr !! i = Some x →
  countStep namespace debugMode total (processed, arr) i (c, p) = (st', s') →
  let o := (countResourceObjects namespace x (c, p)).1 in
  let after := (countResourceObjects namespace x (c, p)).2 in
  st'.2 = <[i := counted x o]> arr
  ∧ s'.1 = c
  ∧ world s'.2 = world after.2
  ∧ clock s'.2 = clock p
  ∧ (∃ cs, calls s'.2 = calls p ++ cs ∧ Forall (λ call, isCallList call = true) cs)
  ∧ ∃ new, logs s'.2 = logs p ++ new ∧ List.filter isWarning new = warningFor x o.
Proof.
  intros Hi. unfold countStep. rewrite Hi.
  destruct (countResourceObjects_frame namespace x c (world p)) as (o & w' & cs & Hcs & H).
  rewrite (H p) by done. cbn [fst snd world].
  destruct o as [count err].
  unfold bind at 1. unfold when at 1.
  destruct (debugMode && (processed + 1 <=? 10)) eqn:Hb; run; rewrite H by done; run;
    (destruct err as [e|]; [destruct (permissionDenied e) eqn:Hp|]);
    repeat match goal with
      | |- context [if ?b then _ else _] => destruct b eqn:?
      end; run; intros [= <- <-]; run; unfold counted, warningFor; cbn [fst snd];
    rewrite ?Hp; rewrite <- ?app_assoc;
    (repeat split; [by exists cs | eexists; split;
       [first [reflexivity | symmetry; apply app_nil_r]|reflexivity]]).
Qed.

Lemma countLoop_run namespace debugMode total post :
  ∀ pre processed c p st' s',
    forRange (countStep namespace debugMode total)
             (seq (length pre) (length post)) (processed, pre ++ post) (c, p)
    = (st', s') →
    st'.2 = pre ++ zip_with counted post (countOutcomes namespace post (c, p))
    ∧ s'.1 = c
    ∧ clock s'.2 = clock p
    ∧ (∃ cs, calls s'.2 = calls p ++ cs ∧ Forall (λ call, isCallList call = true) cs)
    ∧ ∃ new, logs s'.2 = logs p ++ new
             ∧ List.filter isWarning new
               = concat (zip_with warningFor post (countOutcomes namespace post (c, p))).
Proof.
  induction post as [|x post IH]; intros pre processed c p st' s'.
  - cbn. run. intros [= <- <-]. cbn [fst snd]. repeat split.
    + exists []. by rewrite app_nil_r.
    + exists []. by rewrite app_nil_r.
  - cbn [length seq forRange]. unfold bind at 1.
    destruct (countStep _ _ _ _ _ _) as [[k1 arr1] [c1 p1]] eqn:Hstep.
    apply countStep_run with (x := x) in Hstep; [|by apply list_lookup_middle].
    cbn [countOutcomes].
    destruct (countResourceObjects_frame namespace x c (world p)) as (o & w' & cs & _ & H).
    rewrite (H p) in * by done. cbn [fst snd world] in Hstep.
    destruct Hstep as (Harr & -> & Hw & Hclock & (cs1 & Hcalls1 & Hcs1) & new1 & Hlogs1 & Hwarn1).
    rewrite insert_app_r_alt, Nat.sub_diag in Harr by done.
    change (<[0%nat:=counted x o]> (x :: post)) with ([counted x o] ++ post) in Harr.
    rewrite app_assoc in Harr. subst arr1.
    replace (S (length pre)) with (length (pre ++ [counted x o]))
      by (rewrite length_app; cbn; lia).
    intros Hrest. apply IH in Hrest.
    destruct Hrest as (-> & -> & Hclock2 & (cs2 & Hcalls2 & Hcs2) & new2 & Hlogs2 & Hwarn2).
    rewrite (countOutcomes_world namespace post c p1
               {| world := w'; clock := clock p; calls := calls p ++ cs; logs := logs p;
                  callbacks := callbacks p; stdout := stdout p |}) in * by done.
    cbn [zip_with concat]. rewrite <- app_assoc. cbn [app].
    repeat split; try done; try congruence.
    + exists (cs1 ++ cs2). rewrite Hcalls2, Hcalls1, app_assoc. split; [done|].
      by apply Forall_app.
    + exists (new1 ++ new2). rewrite Hlogs2, Hlogs1, app_assoc. split; [done|].
      by rewrite List.filter_app, Hwarn1, Hwarn2.
Qed.

(** *** Namespace Cache *)

Lemma countObjects_run namespace rs c p rs' s' :
  countObjects namespace rs (c, p) = (rs', s') →
  rs' = zip_with counted rs (countOutcomes namespace rs (c, p))
  ∧ s'.1 = c
  ∧ clock s'.2 = clock p
  ∧ (∃ cs, calls s'.2 = calls p ++ cs ∧ Forall (λ call, isCallList call = true) cs)
  ∧ ∃ new, logs s'.2 = logs p ++ new
           ∧ List.filter isWarning new
             = concat (zip_with warningFor rs (countOutcomes namespace rs (c, p))).
Proof.
  unfold countObjects, debugEnv. run.
  destruct (forRange _ _ _ _) as [[k arr] s1] eqn:E. intros [= <- <-].
  by apply (countLoop_run _ _ _ rs [] 0) in E.
Qed.

Lemma checkNamespaceCache_run namespace c p o s' :
  checkNamespaceCache namespace (c, p) = (o, s') →
  s'.1 = c
  ∧ calls s'.2 = calls p
  ∧ clock p ≤ clock s'.2
  ∧ match o with
    | Some cached =>
        ∃ t, namespaceEntry c namespace cached t
             ∧ Sub (nextReading p) t < cacheTTL c
    | None =>
        namespaceMiss c namespace (nextReading p)
        ∧ (is_Some (namespaceCaches c !! namespace) →
           is_Some (namespaceCacheTimes c !! namespace) →
           nextReading p ≤ clock s'.2)
    end.
Proof.
  unfold checkNamespaceCache, namespaceMiss, namespaceEntry, nextReading. run.
  destruct (namespaceCaches c !! namespace) as [cached|] eqn:Hc.
  2:{ intros [= <- <-]. run. repeat split; try done; try lia; auto;
      by intros []. }
  destruct (namespaceCacheTimes c !! namespace) as [t|] eqn:Ht.
  2:{ intros [= <- <-]. run. repeat split; try done; try lia; auto;
      by intros _ []. }
  step. destruct (Sub _ _ <? cacheTTL c) eqn:Hage.
  - step. intros [= <- <-]. run. repeat split; try done; try lia.
    exists t. rewrite Heqp0. cbn [fst]. repeat split; try done. lia.
  - intros [= <- <-]. run. rewrite Heqp0. cbn [fst]. repeat split; try done; try lia.
    right. right. exists t. split; [done|]. lia.
Qed.

Lemma GetAPIResources_frame s r s' :
  GetAPIResources s = (r, s') →
  namespaceCaches s'.1 = namespaceCaches s.1
  ∧ namespaceCacheTimes s'.1 = namespaceCacheTimes s.1
  ∧ cacheTTL s'.1 = cacheTTL s.1
  ∧ clock s.2 ≤ clock s'.2
  ∧ (r.2 ≠ None → s'.1 = s.1)
  ∧ (∃ cs, calls s'.2 = calls s.2 ++ cs ∧ Forall (λ call, isCallList call = false) cs)
  ∧ dynamicClient s'.1 = dynamicClient s.1
  ∧ discoveryClient s'.1 = discoveryClient s.1.
Proof.
  intros Hrun. apply GetAPIResources_run in Hrun.
  destruct Hrun as [_ -> ->|t _ _ Ht _ -> -> Hc|t lists err _ Ht _ Hc Hout];
    cbn [fst snd].
  - repeat split; try done; try lia. exists []. by rewrite app_nil_r.
  - repeat split; try done; try lia. exists []. by rewrite app_nil_r.
  - assert (∃ cs, calls s'.2 = calls s.2 ++ cs
                  ∧ Forall (λ call, isCallList call = false) cs) as Hcs
      by (eexists; split; [done|by repeat constructor]).
    destruct err as [e|]; [destruct (IsGroupDiscoveryFailedError e);
      [destruct (decide (lists = []))|]|]; destruct Hout as [-> Hcl];
      try destruct Hcl as (t' & -> & _); cbn [fst snd]; repeat split;
      try done; try lia; by rewrite Hcl.
Qed.

(** Every call of [GetResourcesInNamespace] goes one of the two ways. *)
Lemma GetResourcesInNamespace_run namespace s r s' :
  GetResourcesInNamespace namespace s = (r, s') → NamespaceRun namespace s r s'.
Proof.
  destruct s as [c p]. unfold GetResourcesInNamespace. unfold bind at 1.
  destruct (checkNamespaceCache namespace (c, p)) as [o [c1 p1]] eqn:Hcheck.
  apply checkNamespaceCache_run in Hcheck. cbn [fst snd] in Hcheck.
  destruct Hcheck as (-> & Hcalls1 & Hclock1 & Ho).
  destruct o as [cached|].
  - destruct Ho as (t & Hentry & Hfresh). run. intros [= <- <-].
    by eapply RunNamespaceCached.
  - destruct Ho as [Hmiss Hread]. unfold bind at 1.
    destruct (GetAPIResources (c, p1)) as [[catalog err] [c2 p2]] eqn:Hcat.
    intros Hrest. eapply (RunNamespaceScan _ _ _ _ (c, p1) (c2, p2)); eauto.
    cbn [fst snd] in *. destruct err as [e|].
    + run. by injection Hrest as <- <-.
    + revert Hrest. unfold storeNamespace. run.
      match goal with |- context [countObjects ?n ?rs ?st] =>
        destruct (countObjects n rs st) as [rs' [c3 p3]] eqn:Hcount end.
      apply countObjects_run in Hcount. cbn [fst snd] in Hcount.
      destruct Hcount as (Hrs & -> & Hclock3 & (cs & Hcalls3 & Hcs) & new & Hlogs3 & Hwarn).
      rewrite (countOutcomes_world namespace _ c2 _ p2) in * by done.
      run. step. intros [= <- <-]. run. subst rs'.
      repeat split; try done.
      * eexists. split; [reflexivity|]. lia.
      * by exists cs.
      * eexists (_ :: new ++ [_; _]). split.
        -- rewrite Hlogs3. cbn [logs]. by rewrite <- !app_assoc.
        -- cbn [List.filter]. rewrite List.filter_app. cbn. by rewrite app_nil_r.
Qed.

Lemma checkNamespaceCache_miss namespace s :
  namespaceMiss s.1 namespace (nextReading s.2) →
  checkNamespaceCache namespace s = (None, afterMiss namespace s).
Proof.
  destruct s as [c p]. unfold namespaceMiss, checkNamespaceCache, afterMiss, nextReading.
  cbn [fst snd]. intros Hmiss. run.
  destruct (namespaceCaches c !! namespace) as [cached|] eqn:Hc; [|reflexivity].
  destruct (namespaceCacheTimes c !! namespace) as [t|] eqn:Ht; [|by destruct p].
  destruct Hmiss as [?|[?|(t' & [= <-] & Hold)]]; [done..|].
  run. destruct (elapse (world p)) as [d w] eqn:Hd. cbn [fst snd] in *.
  destruct (Sub (clock p + Z.of_N d) t <? cacheTTL c) eqn:Hage; [lia|]. reflexivity.
Qed.

(** A call that finds nothing to serve asks for the catalog in the state
    [afterMiss]; it fails when the catalog does, and else counts and
    stores. *)
Lemma GetResourcesInNamespace_scan namespace s r s' :
  GetResourcesInNamespace namespace s = (r, s') →
  namespaceMiss s.1 namespace (nextReading s.2) →
  ∃ catalog mid,
    GetAPIResources (afterMiss namespace s) = (catalog, mid)
    ∧ match catalog.2 with
      | Some e => r = ([], Some e) ∧ s' = mid
      | None =>
          let rs := keepCountable catalog.1 in
          let outcomes := countOutcomes namespace rs mid in
          r = (zip_with counted rs outcomes, None)
          ∧ (∃ t, s'.1 = setNamespaceCacheTime
                           (setNamespaceCache mid.1 namespace r.1) namespace t
                  ∧ clock mid.2 ≤ t ≤ clock s'.2)
          ∧ (∃ cs, calls s'.2 = calls mid.2 ++ cs
                   ∧ Forall (λ call, isCallList call = true) cs)
          ∧ ∃ new, logs s'.2 = logs mid.2 ++ new
                   ∧ List.filter isWarning new = concat (zip_with warningFor rs outcomes)
      end.
Proof.
  intros Hrun Hmiss. revert Hrun. unfold GetResourcesInNamespace. unfold bind at 1.
  rewrite (checkNamespaceCache_miss _ _ Hmiss). unfold bind at 1.
  destruct (GetAPIResources (afterMiss namespace s)) as [[catalog err] [c2 p2]] eqn:Hcat.
  intros Hrest. exists (catalog, err), (c2, p2). split; [done|]. cbn [fst snd].
  destruct err as [e|].
  - run. by injection Hrest as <- <-.
  - revert Hrest. unfold storeNamespace. run.
    match goal with |- context [countObjects ?n ?rs ?st] =>
      destruct (countObjects n rs st) as [rs' [c3 p3]] eqn:Hcount end.
    apply countObjects_run in Hcount. cbn [fst snd] in Hcount.
    destruct Hcount as (Hrs & -> & Hclock3 & (cs & Hcalls3 & Hcs) & new & Hlogs3 & Hwarn).
    rewrite (countOutcomes_world namespace _ c2 _ p2) in * by done.
    run. step. intros [= <- <-]. run. subst rs'.
    repeat split; try done.
    * eexists. split; [reflexivity|]. lia.
    * by exists cs.
    * eexists (_ :: new ++ [_; _]). split.
      -- rewrite Hlogs3. cbn [logs]. by rewrite <- !app_assoc.
      -- cbn [List.filter]. rewrite List.filter_app. cbn. by rewrite app_nil_r.
Qed.

(** A fresh entry is served as it is, without a remote call. *)
Lemma namespace_hit namespace c p cached t :
  namespaceEntry c namespace cached t →
  Sub (nextReading p) t < cacheTTL c →
  ∃ p', GetResourcesInNamespace namespace (c, p) = ((cached, None), (c, p'))
        ∧ calls p' = calls p.
Proof.
  intros [Hc Ht] Hfresh.
  destruct (GetResourcesInNamespace namespace (c, p)) as [r [c' p']] eqn:Hrun.
  apply GetResourcesInNamespace_run in Hrun.
  destruct Hrun as [cached' t' [Hc' Ht'] _ -> Hcl Hcalls _|mid1 mid2 catalog Hmiss _ _ _ _ _ _];
    cbn [fst snd] in *.
  - subst c'. exists p'. split; [|done]. by simplify_eq.
  - exfalso. destruct Hmiss as [Hn|[Hn|(t' & Ht' & Hold)]]; simplify_eq. lia.
Qed.

(** C5. After any call of [GetResourcesInNamespace] for a namespace, a
    second call at a later time that still finds the entry the first
    call left for that namespace, younger than the TTL, returns what the
    first call returned, which is that entry itself; it adds no remote
    call to the trace and leaves the client as it was. *)
Theorem C5_second_call_within_ttl namespace s r s' (c2 : Client) (p : Proc) cached t :
  GetResourcesInNamespace namespace s = (r, s') →
  namespaceEntry s'.1 namespace cached t →
  namespaceEntry c2 namespace cached t →
  cacheTTL c2 = cacheTTL s'.1 →
  clock s'.2 ≤ clock p →
  Sub (nextReading p) t < cacheTTL c2 →
  ∃ p', GetResourcesInNamespace namespace (c2, p) = (r, (c2, p'))
        ∧ r = (cached, None)
        ∧ calls p' = calls p.
Proof.
  intros Hrun Hentry Hentry2 Httl2 Hlater Hfresh.
  destruct (namespace_hit namespace c2 p cached t Hentry2 Hfresh) as (p' & Hsecond & Hcalls).
  exists p'. rewrite Hsecond. enough (r = (cached, None)) as -> by done.
  rewrite Httl2 in Hfresh. clear Hentry2 Hsecond Httl2.
  apply GetResourcesInNamespace_run in Hrun. destruct Hentry as [Hc Ht].
  destruct Hrun as [cached' t' [Hc' Ht'] _ -> Hcl _ _
                   |mid1 mid2 catalog Hmiss Hm1 _ Hclock1 Hread Hcat Hout].
  - rewrite Hcl in Hc. by simplify_eq.
  - pose proof (GetAPIResources_frame _ _ _ Hcat)
      as (Hcaches & Htimes & Httl & Hclock2 & Hclient & _ & _ & _).
    destruct (catalog.2) as [e|] eqn:Hcaterr.
    + exfalso. destruct Hout as [_ ->]. rewrite Hclient in * by done.
      rewrite Hm1 in *.
      specialize (Hread (mk_is_Some _ _ Hc) (mk_is_Some _ _ Ht)).
      assert (nextReading s.2 ≤ nextReading p) as Hle
        by (unfold nextReading at 2; lia).
      destruct Hmiss as [Hn|[Hn|(t' & Ht' & Hold)]]; simplify_eq.
      match goal with
      | H : cacheTTL _ ≤ Sub _ ?u |- _ => pose proof (Sub_mono _ _ u Hle)
      end. lia.
    + cbn zeta in Hout. destruct Hout as (-> & (t0 & Hcl & _) & _).
      rewrite Hcl in Hc. cbn in Hc. rewrite lookup_insert_eq in Hc. by simplify_eq.
Qed.

(** The client's handles and its TTL are never changed by a call. *)
Lemma GetResourcesInNamespace_handles namespace s r s' :
  GetResourcesInNamespace namespace s = (r, s') →
  dynamicClient s'.1 = dynamicClient s.1
  ∧ discoveryClient s'.1 = discoveryClient s.1
  ∧ cacheTTL s'.1 = cacheTTL s.1.
Proof.
  intros Hrun. apply GetResourcesInNamespace_run in Hrun.
  destruct Hrun as [cached t _ _ _ -> _ _|mid1 mid2 catalog _ Hm1 _ _ _ Hcat Hout]; [done|].
  apply GetAPIResources_frame in Hcat as (_ & _ & Httl & _ & _ & _ & Hdyn & Hdisc).
  rewrite Hm1 in *.
  destruct (catalog.2); [by destruct Hout as [_ ->]|].
  cbn zeta in Hout. destruct Hout as (_ & (t0 & -> & _) & _). done.
Qed.

(** *** Supporting facts for the departures *)

(** [clearCache] leaves the server's client and the trace as they are. *)
Lemma clearCache_keeps_client r (srv : Server) (p : Proc) :
  let after := (clearCache r (srv, p)).2 in
  k8sClient after.1 = k8sClient srv
  ∧ debug after.1 = debug srv
  ∧ world after.2 = world p
  ∧ clock after.2 = clock p
  ∧ calls after.2 = calls p.
Proof.
  unfold clearCache, onClient. cbn [fst snd].
  destruct (k8sClient srv) as [c|] eqn:Hc; run; by rewrite ?Hc.
Qed.

(** The filter loop of [GetResourcesInNamespace] keeps the namespaced
    resources whose name is not on the skip list. *)
Lemma keepCountable_filter resources :
  keepCountable resources
  = List.filter (λ r, Namespaced r && negb (index skipResources (Name r))) resources.
Proof.
  unfold keepCountable.
  enough (∀ acc, fold_left
            (λ namespacedResources resource,
               if Namespaced resource && negb (index skipResources (Name resource))
               then namespacedResources ++ [resource] else namespacedResources)
            resources acc
          = acc ++ List.filter
                     (λ r, Namespaced r && negb (index skipResources (Name r)))
                     resources) as H by apply (H []).
  induction resources as [|x l IH]; intros acc; cbn [fold_left List.filter].
  - by rewrite app_nil_r.
  - rewrite IH. destruct (Namespaced x && _); [|done].
    by rewrite <- app_assoc.
Qed.

Lemma keepCountable_skips resources x :
  x ∈ keepCountable resources →
  Namespaced x = true ∧ index skipResources (Name x) = false.
Proof.
  rewrite keepCountable_filter. intros Hx.
  apply list_elem_of_In, filter_In in Hx as [_ Hx].
  apply andb_true_iff in Hx as [? Hx]. by apply negb_true_iff in Hx.
Qed.

(** A scan by [GetResourcesInNamespace] never lists a resource of the
    skip list: its result has one entry per kept resource, under the
    same name. *)
Lemma scan_respects_skipResources namespace rs s x :
  x ∈ zip_with counted (keepCountable rs) (countOutcomes namespace (keepCountable rs) s) →
  index skipResources (Name x) = false.
Proof.
  intros Hx. apply list_elem_of_lookup in Hx as [i Hi].
  apply lookup_zip_with_Some in Hi as (y & o & -> & Hy & _).
  apply list_elem_of_lookup_2, keepCountable_skips in Hy as [_ Hy]. done.
Qed.

(** What the filter loop of the handler does with its apiGroup value:
    every entry it keeps has that value as its API version. *)
Lemma filterResources_keeps_version search showOnlyPopulated apiGroup resources x :
  apiGroup ≠ "" →
  x ∈ (filterResources search showOnlyPopulated apiGroup resources).1 →
  APIVersion x = apiGroup.
Proof.
  intros Hne. unfold filterResources.
  enough (∀ st, (∀ y, y ∈ st.1 → APIVersion y = apiGroup) →
            x ∈ (fold_left (filterStep search showOnlyPopulated apiGroup) resources st).1 →
            APIVersion x = apiGroup) as H.
  { apply H. cbn. intros y Hy. by apply elem_of_nil in Hy. }
  induction resources as [|r l IH]; intros [filtered total] Hst; cbn [fold_left].
  - apply Hst.
  - apply IH. unfold filterStep.
    destruct (showOnlyPopulated && _); [done|].
    destruct (String.eqb apiGroup "") eqn:Hg; [by apply String.eqb_eq in Hg|].
    cbn [negb andb].
    destruct (String.eqb (APIVersion r) apiGroup) eqn:Hv; cbn [negb]; [|done].
    destruct (negb _ && _); [done|]. cbn [fst]. intros y Hy.
    apply elem_of_app in Hy as [Hy|Hy]; [by apply Hst|].
    apply list_elem_of_singleton in Hy as ->. by apply String.eqb_eq.
Qed.

(** *** More on the Resource Catalog *)

(** A non-empty catalog cache younger than the TTL is served as it is. *)
Lemma catalog_hit c p :
  discoveryClient c = true →
  resourcesCache c ≠ [] →
  Sub (nextReading p) (resourcesCacheTime c) < cacheTTL c →
  ∃ p', GetAPIResources (c, p) = ((resourcesCache c, None), (c, p'))
        ∧ calls p' = calls p
        ∧ clock p ≤ clock p'.
Proof.
  intros Hd Hne Hfresh. unfold GetAPIResources, resourcesCacheValid, nextReading in *. run.
  rewrite Hd. cbn [negb].
  destruct (0 <? len (resourcesCache c)) eqn:Hlen; [|by apply len_pos_iff in Hlen].
  step. rewrite Heqp0 in Hfresh. cbn [fst] in Hfresh.
  destruct (Sub (clock p + Z.of_N n) (resourcesCacheTime c) <? cacheTTL c) eqn:Hage; [|lia].
  step. eexists. split; [reflexivity|]. run. split; [done|lia].
Qed.

(** X1. A catalog cache that is non-empty and younger than the TTL at
    the next clock reading is returned as it is: no error, the client
    unchanged and no remote call. *)
Theorem X1_catalog_cache_hit c p :
  discoveryClient c = true →
  resourcesCache c ≠ [] →
  Sub (nextReading p) (resourcesCacheTime c) < cacheTTL c →
  ∃ p', GetAPIResources (c, p) = ((resourcesCache c, None), (c, p'))
        ∧ calls p' = calls p.
Proof.
  intros Hd Hne Hfresh. destruct (catalog_hit c p Hd Hne Hfresh) as (p' & H1 & H2 & _).
  by exists p'.
Qed.

(** X2. An empty catalog cache is never served, whatever its age: with
    a discovery client, the call goes to the cluster. *)
Theorem X2_empty_catalog_is_rediscovered c p r s' :
  discoveryClient c = true →
  resourcesCache c = [] →
  GetAPIResources (c, p) = (r, s') →
  ∃ response, calls s'.2 = calls p ++ [CallDiscovery response].
Proof.
  intros Hd Hnil Hrun. apply GetAPIResources_run in Hrun.
  destruct Hrun as [Hn _ _|t _ Hne _ _ _ _ _|t lists err _ _ _ Hc _]; cbn [fst snd] in *.
  - congruence.
  - done.
  - eauto.
Qed.

(** X3. A discovery error that is not a group-discovery failure is
    returned, wrapped as "failed to discover API resources: ...", with a
    nil list; the client, and so its cache, is left as it was. *)
Theorem X3_discovery_error_is_returned s r s' resourceLists e :
  GetAPIResources s = (r, s') →
  calls s'.2 = calls s.2 ++ [CallDiscovery (resourceLists, Some e)] →
  IsGroupDiscoveryFailedError e = false →
  r = ([], Some (errorString ("failed to discover API resources: " +:+ Error e)))
  ∧ s'.1 = s.1.
Proof.
  intros Hrun Hcalls He.
  destruct (discovery_in_trace _ _ _ _ Hrun Hcalls) as (t & _ & _ & _ & Hout).
  cbn [fst snd] in Hout. by rewrite He in Hout.
Qed.

Lemma toResourceInfo_plain gv resource :
  Name (toResourceInfo gv resource) = metav1.Name resource
  ∧ Count (toResourceInfo gv resource) = 0
  ∧ Namespaced (toResourceInfo gv resource) = metav1.Namespaced resource
  ∧ APIGroup (toResourceInfo gv resource) = schema.Group gv
  ∧ APIVersion (toResourceInfo gv resource) = schema.Version gv
  ∧ Kind (toResourceInfo gv resource) = metav1.Kind resource.
Proof. unfold toResourceInfo. by destruct (negb _). Qed.

Lemma listed_plain resourceList : Forall plainEntry (listed resourceList).
Proof.
  unfold listed. destruct (ParseGroupVersion _); [|constructor].
  induction (metav1.APIResources resourceList) as [|x l IH]; cbn; [constructor|].
  destruct (Contains (metav1.Name x) "/") eqn:Hx; cbn [app]; [exact IH|].
  constructor; [|exact IH].
  destruct (toResourceInfo_plain g x) as (Hn & Hc & _). split; [by rewrite Hn|done].
Qed.

Lemma collectResources_plain resourceLists :
  Forall plainEntry (collectResources resourceLists).
Proof.
  rewrite collectResources_listed.
  induction resourceLists as [|x l IH]; cbn; [constructor|].
  apply Forall_app. split; [apply listed_plain|done].
Qed.

Lemma coreResources_plain : Forall plainEntry coreResources.
Proof. by repeat constructor. Qed.

(** X4. No entry of the catalog is a subresource, and every entry has
    count 0: if this holds of the cache before a call, it holds of the
    result and of the cache after it. *)
Theorem X4_catalog_has_no_subresources s r s' :
  Forall plainEntry (resourcesCache s.1) →
  GetAPIResources s = (r, s') →
  Forall plainEntry r.1 ∧ Forall plainEntry (resourcesCache s'.1).
Proof.
  intros Hinv Hrun. apply GetAPIResources_run in Hrun.
  destruct Hrun as [_ -> ->|t _ _ _ _ -> -> _|t lists err _ _ _ _ Hout]; cbn [fst snd].
  - by split.
  - by split.
  - destruct err as [e|]; [destruct (IsGroupDiscoveryFailedError e);
      [destruct (decide (lists = []))|]|]; destruct Hout as [-> Hc]; cbn [fst].
    + rewrite Hc. split; [apply coreResources_plain|done].
    + destruct Hc as (t' & -> & _). split; apply collectResources_plain.
    + rewrite Hc. by split.
    + destruct Hc as (t' & -> & _). split; apply collectResources_plain.
Qed.

(** X5. A catalog that a discovery request just produced (no error, not
    empty) is the cache afterwards, stamped no later than the clock, and
    any later call within the TTL returns the same result without a
    remote call. *)
Theorem X5_discovered_catalog_is_served_next s r s' resourceLists err :
  GetAPIResources s = (r, s') →
  calls s'.2 = calls s.2 ++ [CallDiscovery (resourceLists, err)] →
  resourceLists ≠ [] →
  r.2 = None →
  r.1 ≠ [] →
  resourcesCache s'.1 = r.1
  ∧ resourcesCacheTime s'.1 ≤ clock s'.2
  ∧ ∀ p : Proc,
      Sub (nextReading p) (resourcesCacheTime s'.1) < cacheTTL s'.1 →
      ∃ p', GetAPIResources (s'.1, p) = (r, (s'.1, p')) ∧ calls p' = calls p.
Proof.
  intros Hrun Hcalls Hlists Hok Hne.
  destruct (discovery_in_trace _ _ _ _ Hrun Hcalls) as (t & Hd & _ & _ & Hout).
  cbn [fst snd] in Hout.
  assert (r = (collectResources resourceLists, None)
          ∧ ∃ t', s'.1 = catalogStored s.1 (collectResources resourceLists) t'
                  ∧ t' ≤ clock s'.2) as (-> & t' & Hc & Ht').
  { destruct err as [e|]; [|done].
    destruct (IsGroupDiscoveryFailedError e).
    - by rewrite decide_False in Hout.
    - destruct Hout as [-> _]. done. }
  cbn [fst snd] in *. rewrite Hc.
  split; [done|]. split; [exact Ht'|].
  intros p Hfresh.
  destruct (catalog_hit (catalogStored s.1 (collectResources resourceLists) t') p)
    as (p' & Hhit & Hcalls' & _); [done..|].
  exists p'. split; [exact Hhit|exact Hcalls'].
Qed.

(** *** More on the Namespace Cache *)

Lemma countResourceObjects_nonneg namespace r s :
  0 ≤ (countResourceObjects namespace r s).1.1.
Proof.
  destruct s as [c p]. unfold countResourceObjects. run.
  destruct (dynamicClient c); cbn [negb]; run; [|done].
  step; [|done].
  destruct (negb _); run; [|unfold len; lia].
  step; [unfold len; lia|done].
Qed.

Lemma countOutcomes_nonneg namespace rs s :
  Forall (λ o, 0 ≤ o.1) (countOutcomes namespace rs s).
Proof.
  revert s. induction rs as [|r rs IH]; intros s; cbn [countOutcomes]; [constructor|].
  pose proof (countResourceObjects_nonneg namespace r s) as Hn.
  destruct (countResourceObjects namespace r s) as [o s1]. constructor; [done|apply IH].
Qed.

Lemma counted_fields x o :
  withCount (counted x o) 0 = withCount x 0
  ∧ Name (counted x o) = Name x
  ∧ Namespaced (counted x o) = Namespaced x
  ∧ Count (counted x o) = match o.2 with Some _ => 0 | None => o.1 end.
Proof. done. Qed.

Lemma zip_with_counted_erase rs os :
  length os = length rs →
  map (λ x, withCount x 0) (zip_with counted rs os) = map (λ x, withCount x 0) rs.
Proof.
  revert os. induction rs as [|x rs IH]; intros [|o os] Hlen; try done.
  cbn. f_equal. apply IH. by injection Hlen.
Qed.

Lemma zip_with_counted_Forall (Q Q' : ResourceInfo → Prop) rs os :
  (∀ x o, Q x → 0 ≤ o.1 → Q' (counted x o)) →
  Forall Q rs → Forall (λ o, 0 ≤ o.1) os →
  Forall Q' (zip_with counted rs os).
Proof.
  intros HQ Hrs. revert os. induction Hrs as [|x rs Hx Hrs IH]; intros os Hos; [constructor|].
  destruct Hos as [|o os Ho Hos]; [constructor|]. cbn. constructor; auto.
Qed.

(** C4. A call of [GetResourcesInNamespace] that finds nothing to serve
    fails only when the catalog does, before any count.  Otherwise it
    scans: every catalog resource that is namespaced and off the skip
    list gets exactly one entry, in order, whatever its count attempt
    gave: the count when it succeeded, 0 when it failed.  A failure
    whose text contains "does not allow this method" or "forbidden"
    leaves no warning in the log; any other failure leaves one warning
    naming the resource and the error. *)
Theorem C4_count_failures_are_absorbed namespace s r s' :
  GetResourcesInNamespace namespace s = (r, s') →
  namespaceMiss s.1 namespace (nextReading s.2) →
  let asked := GetAPIResources (afterMiss namespace s) in
  match asked.1.2 with
  | Some e => r = ([], Some e) ∧ s' = asked.2
  | None =>
      let rs := List.filter (λ x, Namespaced x && negb (index skipResources (Name x)))
                            asked.1.1 in
      let outcomes := countOutcomes namespace rs asked.2 in
      let warning (x : ResourceInfo) (o : Z * option error) : list Formatted :=
        match o.2 with
        | Some e =>
            if Contains (Error e) "does not allow this method"
               || Contains (Error e) "forbidden"
            then []
            else [Printf "Warning: Failed to count objects for resource %s: %v"
                         [AStr (Name x); AErr e]]
        | None => []
        end in
      r.2 = None
      ∧ length r.1 = length rs
      ∧ length outcomes = length rs
      ∧ (∀ i x o, rs !! i = Some x → outcomes !! i = Some o →
           r.1 !! i = Some (withCount x (match o.2 with Some _ => 0 | None => o.1 end)))
      ∧ ∃ new, logs s'.2 = logs asked.2.2 ++ new
               ∧ List.filter isWarning new = concat (zip_with warning rs outcomes)
  end.
Proof.
  intros Hrun Hmiss.
  destruct (GetResourcesInNamespace_scan _ _ _ _ Hrun Hmiss) as (catalog & mid & Hcat & Hout).
  cbn zeta. rewrite Hcat. cbn [fst snd].
  destruct catalog as [catalog [e|]]; cbn [fst snd] in *; [done|].
  destruct Hout as (-> & _ & _ & new & Hlogs & Hwarn).
  rewrite keepCountable_filter in *. cbn [fst snd].
  pose proof (length_countOutcomes namespace
                (List.filter (λ x, Namespaced x && negb (index skipResources (Name x)))
                             catalog) mid) as Hlen.
  repeat split; try done.
  - rewrite length_zip_with. lia.
  - intros i x o Hx Ho. rewrite lookup_zip_with, Hx, Ho. done.
  - exists new. split; [done|]. rewrite Hwarn. reflexivity.
Qed.

(** X6. A namespace without a fresh entry is scanned: a successful call
    got the catalog in the state the cache test left, its result is the
    catalog's namespaced resources off the skip list with the outcomes
    of counting them in turn, and it leaves that result as the entry of
    the namespace, stamped between the clock readings at entry and at
    exit. *)
Theorem X6_stale_entry_is_rescanned namespace s r s' :
  GetResourcesInNamespace namespace s = (r, s') →
  namespaceMiss s.1 namespace (nextReading s.2) →
  r.2 = None →
  let asked := GetAPIResources (afterMiss namespace s) in
  let rs := List.filter (λ x, Namespaced x && negb (index skipResources (Name x)))
                        asked.1.1 in
  asked.1.2 = None
  ∧ r.1 = zip_with counted rs (countOutcomes namespace rs asked.2)
  ∧ ∃ t, namespaceEntry s'.1 namespace r.1 t ∧ clock s.2 ≤ t ≤ clock s'.2.
Proof.
  intros Hrun Hmiss Hok.
  destruct (GetResourcesInNamespace_scan _ _ _ _ Hrun Hmiss) as (catalog & mid & Hcat & Hout).
  cbn zeta. rewrite Hcat. cbn [fst snd].
  destruct catalog as [catalog [e|]]; cbn [fst snd] in *.
  { destruct Hout as [-> _]. done. }
  destruct Hout as (-> & (t & Hcl & Ht) & _). rewrite keepCountable_filter in *.
  cbn [fst snd] in *. repeat split.
  apply GetAPIResources_frame in Hcat as (_ & _ & _ & Hclock2 & _).
  assert (clock s.2 ≤ clock (afterMiss namespace s).2) as Hclock1.
  { unfold afterMiss, nextReading.
    destruct (namespaceCaches s.1 !! namespace), (namespaceCacheTimes s.1 !! namespace);
      cbn [fst snd clock]; lia. }
  exists t. split; [|lia]. split; rewrite Hcl; cbn; apply lookup_insert_eq.
Qed.

(** X7. A call for one namespace leaves the cache entries and the
    stamps of every other namespace untouched. *)
Theorem X7_other_namespaces_are_untouched namespace other s r s' :
  GetResourcesInNamespace namespace s = (r, s') →
  other ≠ namespace →
  namespaceCaches s'.1 !! other = namespaceCaches s.1 !! other
  ∧ namespaceCacheTimes s'.1 !! other = namespaceCacheTimes s.1 !! other.
Proof.
  intros Hrun Hne. apply GetResourcesInNamespace_run in Hrun.
  destruct Hrun as [cached t _ _ _ -> _ _|mid1 mid2 catalog _ Hm1 _ _ _ Hcat Hout]; [done|].
  apply GetAPIResources_frame in Hcat as (Hcaches & Htimes & _). rewrite Hm1 in *.
  destruct (catalog.2).
  - destruct Hout as [_ ->]. by rewrite Hcaches, Htimes.
  - cbn zeta in Hout. destruct Hout as (_ & (t0 & -> & _) & _). cbn.
    rewrite !lookup_insert_ne by done. by rewrite Hcaches, Htimes.
Qed.

(** X8. Every entry of a scan is namespaced, is not on the skip list
    and has a count of at least 0; counts apart, the entries are the
    namespaced resources off the skip list of the catalog that the call
    got in the state the cache test left, in catalog order. *)
Theorem X8_scan_entries_are_countable namespace s r s' :
  GetResourcesInNamespace namespace s = (r, s') →
  namespaceMiss s.1 namespace (nextReading s.2) →
  r.2 = None →
  let asked := GetAPIResources (afterMiss namespace s) in
  Forall (λ x, Namespaced x = true ∧ index skipResources (Name x) = false ∧ 0 ≤ Count x) r.1
  ∧ asked.1.2 = None
  ∧ map (λ x, withCount x 0) r.1
    = map (λ x, withCount x 0)
          (List.filter (λ x, Namespaced x && negb (index skipResources (Name x)))
                       asked.1.1).
Proof.
  intros Hrun Hmiss Hok.
  destruct (GetResourcesInNamespace_scan _ _ _ _ Hrun Hmiss) as (catalog & mid & Hcat & Hout).
  cbn zeta. rewrite Hcat. cbn [fst snd].
  destruct catalog as [catalog [e|]]; cbn [fst snd] in *.
  { destruct Hout as [-> _]. done. }
  destruct Hout as (-> & _). cbn [fst snd]. repeat split.
  - apply (zip_with_counted_Forall
             (λ x, Namespaced x = true ∧ index skipResources (Name x) = false));
      [| |apply countOutcomes_nonneg].
    + intros x o (Hn & Hs) Ho. repeat split; [done..|].
      cbn. destruct (o.2); [done|lia].
    + apply Forall_forall. intros x Hx.
      by apply keepCountable_skips in Hx.
  - rewrite <- keepCountable_filter.
    apply zip_with_counted_erase, length_countOutcomes.
Qed.

(** *** The scan with a callback *)

Lemma bind_inv {A B} (m : M A) (k : A → M B) s r s' :
  bind m k s = (r, s') → ∃ a s1, m s = (a, s1) ∧ k a s1 = (r, s').
Proof. unfold bind. destruct (m s) as [a s1]. eauto. Qed.

Lemma effect_refl cb s : effect cb (world s.2) [] [] s s.
Proof.
  repeat split; [by rewrite app_nil_r| |]; exists []; by rewrite app_nil_r.
Qed.

Lemma effect_trans cb w1 w2 cs1 cs2 warn1 warn2 s s1 s2 :
  effect cb w1 cs1 warn1 s s1 → effect cb w2 cs2 warn2 s1 s2 →
  effect cb w2 (cs1 ++ cs2) (warn1 ++ warn2) s s2.
Proof.
  intros (Hc1 & Hw1 & Hk1 & Hcs1 & (n1 & Hl1 & Hf1) & (d1 & Hd1 & He1))
         (Hc2 & Hw2 & Hk2 & Hcs2 & (n2 & Hl2 & Hf2) & (d2 & Hd2 & He2)).
  repeat split; try congruence.
  - by rewrite Hcs2, Hcs1, app_assoc.
  - exists (n1 ++ n2). rewrite Hl2, Hl1, app_assoc, List.filter_app. by subst.
  - exists (d1 ++ d2). rewrite Hd2, Hd1, app_assoc. split; [done|].
    intros Hcb. by rewrite He1, He2.
Qed.

Lemma effect_quiet cb w s s1 s2 cs warn :
  effect cb w [] [] s s1 → effect cb (world s2.2) cs warn s1 s2 →
  effect cb (world s2.2) cs warn s s2.
Proof. intros H1 H2. apply (effect_trans _ _ _ _ _ _ _ _ _ _ H1 H2). Qed.

Lemma when_log_effect cb b fmt a s u s' :
  when b (logPrintf fmt a) s = (u, s') →
  effect cb (world s.2) [] (if b && isWarning (Printf fmt a) then [Printf fmt a] else []) s s'.
Proof.
  destruct s as [c p]. destruct b; run; intros [= <- <-]; run.
  - repeat split; [by rewrite app_nil_r| |].
    + eexists. split; [done|]. cbn [List.filter andb].
      by destruct (isWarning (Printf fmt a)).
    + exists []. by rewrite app_nil_r.
  - apply effect_refl.
Qed.

Lemma when_callback_effect cb b fmt a s u s' :
  (b = true → cb = true) →
  when b (callDebugCallback fmt a) s = (u, s') →
  effect cb (world s.2) [] [] s s'.
Proof.
  intros Hb. destruct s as [c p]. destruct b; run; intros [= <- <-]; run.
  - repeat split; [by rewrite app_nil_r| |].
    + exists []. by rewrite app_nil_r.
    + eexists. split; [done|]. intros Hcb. rewrite Hb in Hcb; done.
  - apply effect_refl.
Qed.

Lemma count_effect cb namespace x s :
  let run := countResourceObjects namespace x s in
  ∃ cs, effect cb (world run.2.2) cs [] s run.2
        ∧ Forall (λ call, isCallList call = true) cs.
Proof.
  destruct s as [c p]. cbn zeta.
  destruct (countResourceObjects_frame namespace x c (world p)) as (o & w' & cs & Hcs & H).
  rewrite (H p) by done. exists cs. split; [|done]. cbn [fst snd world].
  repeat split; cbn; exists []; by rewrite app_nil_r.
Qed.

(** The counter's answer depends on the client and the world only. *)
Lemma count_same_answer cb namespace x w s s1 :
  effect cb w [] [] s s1 → w = world s.2 →
  (countResourceObjects namespace x s1).1 = (countResourceObjects namespace x s).1
  ∧ world (countResourceObjects namespace x s1).2.2
    = world (countResourceObjects namespace x s).2.2.
Proof.
  destruct s as [c p], s1 as [c1 p1]. intros (Hc & Hw & _) ->. cbn [fst snd] in *. subst c1.
  destruct (countResourceObjects_frame namespace x c (world p)) as (o & w' & cs & _ & H).
  by rewrite (H p), (H p1).
Qed.

Lemma log_effect cb fmt a s u s' :
  logPrintf fmt a s = (u, s') →
  effect cb (world s.2) [] (if isWarning (Printf fmt a) then [Printf fmt a] else []) s s'.
Proof. intros H. by apply (when_log_effect cb true) in H. Qed.

Lemma callback_effect cb fmt a s u s' :
  cb = true → callDebugCallback fmt a s = (u, s') → effect cb (world s.2) [] [] s s'.
Proof. intros Hcb H. by apply (when_callback_effect cb true) in H. Qed.

Lemma ret_inv {A} (a : A) s r s' : ret a s = (r, s') → r = a ∧ s' = s.
Proof. by intros [= <- <-]. Qed.

Lemma effect_world cb w cs warn s s' : effect cb w cs warn s s' → world s'.2 = w.
Proof. by intros (_ & ? & _). Qed.

(** One iteration of the loop with a callback, at an index that holds [x]. *)
Lemma countStepWithCallback_run namespace cb debugMode total processed arr i x s st' s' :
  arr !! i = Some x →
  countStepWithCallback namespace cb debugMode total (processed, arr) i s = (st', s') →
  let o := (countResourceObjects namespace x s).1 in
  st' = (processed + 1, <[i := counted x o]> arr)
  ∧ ∃ cs, effect cb (world (countResourceObjects namespace x s).2.2) cs (warningFor x o) s s'
          ∧ Forall (λ call, isCallList call = true) cs.
Proof.
  intros Hi. unfold countStepWithCallback. rewrite Hi. intros H.
  apply bind_inv in H as (u1 & s1 & H1 & H).
  apply (when_callback_effect cb) in H1;
    [|intros Hb; by apply andb_prop in Hb as [Hb _]; apply andb_prop in Hb as [Hb _]].
  apply bind_inv in H as (u2 & s2 & H2 & H).
  apply (when_log_effect cb) in H2. rewrite andb_false_r in H2.
  pose proof (effect_trans _ _ _ _ _ _ _ _ _ _ H1 H2) as H12. cbn [app] in H12.
  rewrite (effect_world _ _ _ _ _ _ H1) in H12. clear H1 H2 u1 u2 s1.
  apply bind_inv in H as ([count err] & s3 & H3 & H).
  destruct (count_same_answer cb namespace x _ _ _ H12 eq_refl) as [Hans Hworld].
  destruct (count_effect cb namespace x s2) as (cs & Hcount & Hcs).
  rewrite H3 in Hans, Hworld, Hcount. cbn [fst snd] in Hans, Hworld, Hcount.
  rewrite Hworld in Hcount.
  pose proof (effect_trans _ _ _ _ _ _ _ _ _ _ H12 Hcount) as H123. cbn [app] in H123.
  clear H12 Hcount H3 Hworld s2.
  cbn zeta. rewrite <- Hans. clear Hans.
  set (w' := world (countResourceObjects namespace x s).2.2) in *.
  apply bind_inv in H as (arr' & s4 & H4 & H).
  assert (arr' = <[i := counted x (count, err)]> arr
          ∧ effect cb w' cs (warningFor x (count, err)) s s4) as [-> H1234].
  { unfold warningFor, counted. cbn [fst snd].
    destruct err as [e|]; [destruct (permissionDenied e)|].
    - apply bind_inv in H4 as (u & s5 & H5 & H4). apply ret_inv in H4 as [-> ->].
      apply (when_callback_effect cb) in H5;
        [|intros Hb; by apply andb_prop in Hb as [Hb _]; apply andb_prop in Hb as [Hb _]].
      split; [done|].
      rewrite (effect_world _ _ _ _ _ _ H123) in H5.
      pose proof (effect_trans _ _ _ _ _ _ _ _ _ _ H123 H5) as Ht.
      by rewrite !app_nil_r in Ht.
    - apply bind_inv in H4 as (u & s5 & H5 & H4). apply ret_inv in H4 as [-> ->].
      apply (log_effect cb) in H5. split; [done|].
      rewrite (effect_world _ _ _ _ _ _ H123) in H5.
      pose proof (effect_trans _ _ _ _ _ _ _ _ _ _ H123 H5) as Ht.
      by rewrite !app_nil_r in Ht.
    - apply bind_inv in H4 as (u & s5 & H5 & H4).
      apply bind_inv in H4 as (u' & s6 & H6 & H4). apply ret_inv in H4 as [-> ->].
      apply (when_callback_effect cb) in H5;
        [|intros Hb; by apply andb_prop in Hb as [Hb _]].
      apply (when_log_effect cb) in H6. rewrite andb_false_r in H6.
      split; [done|].
      rewrite (effect_world _ _ _ _ _ _ H123) in H5.
      rewrite (effect_world _ _ _ _ _ _ H5) in H6.
      pose proof (effect_trans _ _ _ _ _ _ _ _ _ _ H123
                    (effect_trans _ _ _ _ _ _ _ _ _ _ H5 H6)) as Ht.
      by rewrite !app_nil_r in Ht. }
  apply bind_inv in H as (u5 & s5 & H5 & H).
  apply bind_inv in H as (u6 & s6 & H6 & H). apply ret_inv in H as [-> ->].
  apply (when_callback_effect cb) in H5; [|intros Hb; by apply andb_prop in Hb as [Hb _]].
  apply (when_log_effect cb) in H6. rewrite andb_false_r in H6.
  rewrite (effect_world _ _ _ _ _ _ H1234) in H5.
  rewrite (effect_world _ _ _ _ _ _ H5) in H6.
  pose proof (effect_trans _ _ _ _ _ _ _ _ _ _ H1234
                (effect_trans _ _ _ _ _ _ _ _ _ _ H5 H6)) as Ht.
  rewrite !app_nil_r in Ht. split; [done|]. by exists cs.
Qed.

Lemma countLoopWithCallback_run namespace cb debugMode total post :
  ∀ pre processed s st' s',
    forRange (countStepWithCallback namespace cb debugMode total)
             (seq (length pre) (length post)) (processed, pre ++ post) s
    = (st', s') →
    st'.2 = pre ++ zip_with counted post (countOutcomes namespace post s)
    ∧ ∃ cs w, effect cb w cs
                (concat (zip_with warningFor post (countOutcomes namespace post s))) s s'
              ∧ Forall (λ call, isCallList call = true) cs.
Proof.
  induction post as [|x post IH]; intros pre processed s st' s'.
  - cbn. intros [= <- <-]. cbn [snd]. split; [done|].
    exists [], (world s.2). split; [apply effect_refl|constructor].
  - cbn [length seq forRange]. intros H.
    apply bind_inv in H as ([k1 arr1] & s1 & Hstep & Hrest).
    apply countStepWithCallback_run with (x := x) in Hstep; [|by apply list_lookup_middle].
    cbn zeta in Hstep. destruct Hstep as ([= -> ->] & cs1 & Heff1 & Hcs1).
    rewrite insert_app_r_alt, Nat.sub_diag in Hrest by done.
    set (o := (countResourceObjects namespace x s).1) in *.
    change (<[0%nat:=counted x o]> (x :: post)) with ([counted x o] ++ post) in Hrest.
    rewrite app_assoc in Hrest.
    replace (S (length pre)) with (length (pre ++ [counted x o])) in Hrest
      by (rewrite length_app; cbn; lia).
    apply IH in Hrest as (Harr & cs2 & w & Heff2 & Hcs2).
    cbn [countOutcomes]. fold o.
    destruct (countResourceObjects namespace x s) as [o' [c2 p2]] eqn:Hcount.
    subst o. cbn [fst snd] in *.
    assert (countOutcomes namespace post s1 = countOutcomes namespace post (c2, p2)) as Hsame.
    { destruct s1 as [c1 p1]. destruct Heff1 as (Hc1 & Hw1 & _). cbn [fst snd] in *.
      pose proof (countResourceObjects_frame namespace x s.1 (world s.2))
        as (o & w' & cs & _ & Hf).
      destruct s as [c p]. cbn [fst snd] in *. rewrite (Hf p) in Hcount by done.
      injection Hcount as <- <- <-. subst c1. by apply countOutcomes_world. }
    rewrite Hsame in *. cbn [zip_with concat]. split.
    + rewrite Harr, <- app_assoc. done.
    + exists (cs1 ++ cs2), w. split; [|by apply Forall_app].
      by apply (effect_trans _ _ _ _ _ _ _ _ _ _ Heff1 Heff2).
Qed.

Lemma GetAPIResources_quiet s r s' :
  GetAPIResources s = (r, s') → callbacks s'.2 = callbacks s.2 ∧ stdout s'.2 = stdout s.2.
Proof.
  destruct s as [c p]. unfold GetAPIResources, resourcesCacheValid, storeDiscovered. run.
  destruct (discoveryClient c); cbn [negb]; [|by intros [= <- <-]].
  destruct (0 <? len (resourcesCache c)).
  - step. destruct (Sub _ _ <? cacheTTL c).
    + step. by intros [= <- <-].
    + step. step. destruct o as [e|]; [destruct (IsGroupDiscoveryFailedError e);
        [destruct (len l =? 0)|]|]; repeat step; by intros [= <- <-].
  - step. step. destruct o as [e|]; [destruct (IsGroupDiscoveryFailedError e);
        [destruct (len l =? 0)|]|]; repeat step; by intros [= <- <-].
Qed.

Lemma getClient_inv s c s' : getClient s = (c, s') → c = s.1 ∧ s' = s.
Proof. by intros [= <- <-]. Qed.

Lemma getWorld_inv s w s' : getWorld s = (w, s') → w = world s.2 ∧ s' = s.
Proof. by intros [= <- <-]. Qed.

Lemma storeNamespace_run namespace rs s r s' :
  storeNamespace namespace rs s = (r, s') →
  r = (rs, None)
  ∧ (∃ t, s'.1 = setNamespaceCacheTime (setNamespaceCache s.1 namespace rs) namespace t
          ∧ clock s.2 ≤ t ≤ clock s'.2)
  ∧ calls s'.2 = calls s.2
  ∧ callbacks s'.2 = callbacks s.2
  ∧ ∃ new, logs s'.2 = logs s.2 ++ new ∧ List.filter isWarning new = [].
Proof.
  destruct s as [c p]. unfold storeNamespace. run. step. intros [= <- <-]. run.
  repeat split; [|done..|by eexists].
  eexists. split; [done|]. lia.
Qed.

(** The ways one call of [GetResourcesInNamespaceWithCallback] can go. *)
Lemma WithCallback_run namespace cb s r s' :
  GetResourcesInNamespaceWithCallback namespace cb s = (r, s') →
  (∃ cached t age,
      namespaceEntry s.1 namespace cached t
      ∧ Sub (nextReading s.2) t < cacheTTL s.1
      ∧ r = (cached, None)
      ∧ s'.1 = s.1
      ∧ calls s'.2 = calls s.2
      ∧ logs s'.2 = logs s.2
      ∧ callbacks s'.2
        = callbacks s.2
          ++ (if cb
              then [Printf "⚡ Using cached data for '%s' (%d resources, cached %v ago)"
                           [AStr namespace; AInt (len cached); ARounded age second]]
              else []))
  ∨ (namespaceMiss s.1 namespace (nextReading s.2)
     ∧ ∃ mid1 mid2 catalog,
         mid1.1 = s.1
         ∧ calls mid1.2 = calls s.2
         ∧ clock s.2 ≤ clock mid1.2
         ∧ GetAPIResources mid1 = (catalog, mid2)
         ∧ (∃ said, callbacks s'.2 = callbacks s.2 ++ said ∧ (cb = false → said = []))
         ∧ match catalog.2 with
           | Some e => r = ([], Some e) ∧ s' = mid2
           | None =>
               let rs := keepNamespaced catalog.1 in
               let outcomes := countOutcomes namespace rs mid2 in
               r = (zip_with counted rs outcomes, None)
               ∧ (∃ t, s'.1 = setNamespaceCacheTime
                                (setNamespaceCache mid2.1 namespace r.1) namespace t
                       ∧ clock mid2.2 ≤ t ≤ clock s'.2)
               ∧ (∃ cs, calls s'.2 = calls mid2.2 ++ cs
                        ∧ Forall (λ call, isCallList call = true) cs)
               ∧ ∃ new, logs s'.2 = logs mid2.2 ++ new
                        ∧ List.filter isWarning new = concat (zip_with warningFor rs outcomes)
           end).
Proof.
  destruct s as [c p]. unfold GetResourcesInNamespaceWithCallback. intros H.
  apply bind_inv in H as (c0 & s0 & H0 & H). apply getClient_inv in H0 as [-> ->].
  cbn [fst snd] in H.
  apply bind_inv in H as (cached & s1 & Hcheck & H).
  assert (s1.1 = c ∧ calls s1.2 = calls p ∧ clock p ≤ clock s1.2 ∧ logs s1.2 = logs p
          ∧ match cached with
            | Some cached =>
                ∃ t age, namespaceEntry c namespace cached t
                  ∧ Sub (nextReading p) t < cacheTTL c
                  ∧ callbacks s1.2
                    = callbacks p
                      ++ (if cb
                          then [Printf "⚡ Using cached data for '%s' (%d resources, cached %v ago)"
                                       [AStr namespace; AInt (len cached); ARounded age second]]
                          else [])
            | None => namespaceMiss c namespace (nextReading p)
                      ∧ callbacks s1.2 = callbacks p
            end) as (Hc1 & Hcalls1 & Hclock1 & Hlogs1 & Hcached).
  { revert Hcheck. unfold namespaceMiss, namespaceEntry, nextReading.
    destruct (namespaceCaches c !! namespace) as [cachedResources|] eqn:Hcache;
      [|intros [= <- <-]; repeat split; try done; try lia; by left].
    destruct (namespaceCacheTimes c !! namespace) as [t|] eqn:Htime;
      [|intros [= <- <-]; repeat split; try done; try lia; by (right; left)].
    run. step. destruct (Sub _ _ <? cacheTTL c) eqn:Hage.
    - destruct cb; run; [step|]; intros [= <- <-]; run; rewrite ?Heqp0; cbn [fst];
        (repeat split; try done; try lia); eexists t, _;
        (repeat split; try done; try lia).
      by rewrite app_nil_r.
    - intros [= <- <-]. run. rewrite ?Heqp0. cbn [fst].
      repeat split; try done; try lia.
      right. right. exists t. split; [done|]. lia. }
  destruct cached as [cached|].
  - left. apply ret_inv in H as [-> ->]. destruct Hcached as (t & age & He & Hf & Hcb).
    by exists cached, t, age.
  - right. destruct Hcached as (Hmiss & Hcb1). split; [done|].
    apply bind_inv in H as (u2 & s2 & H2 & H).
    apply (when_callback_effect cb) in H2; [|done].
    apply bind_inv in H as (u3 & s3 & H3 & H). apply (log_effect cb) in H3.
    rewrite (effect_world _ _ _ _ _ _ H2) in H3.
    pose proof (effect_trans _ _ _ _ _ _ _ _ _ _ H2 H3) as H13. cbn [app] in H13.
    clear H2 H3 u2 u3 s2.
    apply bind_inv in H as ([resources err] & s4 & Hcat & H).
    destruct H13 as (Hc3 & _ & Hclock3 & Hcalls3 & _ & (said3 & Hsaid3 & Hnil3)).
    rewrite app_nil_r in Hcalls3.
    pose proof (GetAPIResources_quiet _ _ _ Hcat) as [Hquiet _].
    exists s3, s4, (resources, err). cbn [fst snd].
    split; [congruence|]. split; [congruence|]. split; [lia|]. split; [done|].
    destruct err as [e|].
    { apply ret_inv in H as [-> ->]. split; [|done].
      exists said3. split; [by rewrite Hquiet, Hsaid3, Hcb1|done]. }
    apply bind_inv in H as (u5 & s5 & H5 & H).
    apply (when_callback_effect cb) in H5; [|done].
    apply bind_inv in H as (u6 & s6 & H6 & H).
    apply (when_callback_effect cb) in H6; [|done].
    apply bind_inv in H as (u7 & s7 & H7 & H). apply (log_effect cb) in H7.
    apply bind_inv in H as (w8 & s8 & H8 & H). apply getWorld_inv in H8 as [-> ->].
    apply bind_inv in H as ([processed counted'] & s9 & Hloop & H).
    apply (countLoopWithCallback_run _ _ _ _ _ []) in Hloop as (Harr & cs & w9 & H9 & Hcs).
    apply bind_inv in H as (u10 & s10 & H10 & H).
    apply (when_callback_effect cb) in H10; [|done].
    apply bind_inv in H as (u11 & s11 & H11 & H). apply (log_effect cb) in H11.
    apply storeNamespace_run in H as (-> & (t & Hstore & Ht) & Hcalls' & Hcb' & new' & Hlogs' & Hwarn').
    rewrite (effect_world _ _ _ _ _ _ H5) in H6.
    rewrite (effect_world _ _ _ _ _ _ H6) in H7.
    pose proof (effect_trans _ _ _ _ _ _ _ _ _ _ H5
                  (effect_trans _ _ _ _ _ _ _ _ _ _ H6 H7)) as H47. cbn [app] in H47.
    assert (countOutcomes namespace (keepNamespaced resources) s7
            = countOutcomes namespace (keepNamespaced resources) s4) as Hsame.
    { destruct s4 as [c4 p4], s7 as [c7 p7]. destruct H47 as (Hc & Hw & _).
      cbn [fst snd] in *. subst c7. by apply countOutcomes_world. }
    rewrite (effect_world _ _ _ _ _ _ H9) in H10.
    rewrite (effect_world _ _ _ _ _ _ H10) in H11.
    pose proof (effect_trans _ _ _ _ _ _ _ _ _ _ H47
                  (effect_trans _ _ _ _ _ _ _ _ _ _ H9
                     (effect_trans _ _ _ _ _ _ _ _ _ _ H10 H11))) as Hall.
    cbn [app] in Hall. rewrite !app_nil_r in Hall. rewrite Hsame in Hall.
    destruct Hall as (Hc11 & _ & Hclock11 & Hcalls11 & (new & Hlogs11 & Hwarn11)
                      & (said & Hsaid & Hnil)).
    cbn [snd app] in Harr. rewrite Hsame in Harr. subst counted'.
    cbn zeta. cbn [fst snd]. split; [|repeat split].
    + exists (said3 ++ said). split.
      2:{ intros Hcb. by rewrite (Hnil3 Hcb), (Hnil Hcb). }
      rewrite Hcb', Hsaid, Hquiet, Hsaid3, Hcb1. by rewrite <- app_assoc.
    + exists t. split; [by rewrite Hstore, Hc11|lia].
    + exists cs. split; [congruence|done].
    + exists (new ++ new'). split; [by rewrite Hlogs', Hlogs11, app_assoc|].
      by rewrite List.filter_app, Hwarn11, Hwarn', app_nil_r.
  Unshelve. all: exact 0.
Qed.

(** A call of [GetResourcesInNamespaceWithCallback] that finds nothing
    to serve asks for the catalog in the state [afterMissWithCallback];
    it fails when the catalog does, and else counts and stores. *)
Lemma WithCallback_scan namespace cb s r s' :
  GetResourcesInNamespaceWithCallback namespace cb s = (r, s') →
  namespaceMiss s.1 namespace (nextReading s.2) →
  ∃ catalog mid,
    GetAPIResources (afterMissWithCallback namespace cb s) = (catalog, mid)
    ∧ match catalog.2 with
      | Some e => r = ([], Some e) ∧ s' = mid
      | None =>
          let rs := keepNamespaced catalog.1 in
          let outcomes := countOutcomes namespace rs mid in
          r = (zip_with counted rs outcomes, None)
          ∧ (∃ t, s'.1 = setNamespaceCacheTime
                           (setNamespaceCache mid.1 namespace r.1) namespace t
                  ∧ clock mid.2 ≤ t ≤ clock s'.2)
          ∧ (∃ cs, calls s'.2 = calls mid.2 ++ cs
                   ∧ Forall (λ call, isCallList call = true) cs)
          ∧ ∃ new, logs s'.2 = logs mid.2 ++ new
                   ∧ List.filter isWarning new = concat (zip_with warningFor rs outcomes)
      end.
Proof.
  destruct s as [c p]. unfold GetResourcesInNamespaceWithCallback. cbn [fst snd].
  intros H Hmiss.
  apply bind_inv in H as (c0 & s0 & H0 & H). apply getClient_inv in H0 as [-> ->].
  cbn [fst snd] in H.
  apply bind_inv in H as (cached & s1 & Hcheck & H).
  assert (cached = None
          ∧ s1 = (c, {| world := world (afterMissWithCallback namespace cb (c, p)).2;
                        clock := clock (afterMissWithCallback namespace cb (c, p)).2;
                        calls := calls p; logs := logs p; callbacks := callbacks p;
                        stdout := stdout p |})) as [-> ->].
  { revert Hcheck. clear H. unfold afterMissWithCallback, namespaceMiss, nextReading in *.
    cbn [fst snd world clock] in *.
    destruct (namespaceCaches c !! namespace) as [cachedResources|] eqn:Hcache;
      [|by intros [= <- <-]; destruct p].
    destruct (namespaceCacheTimes c !! namespace) as [t|] eqn:Htime;
      [|by intros [= <- <-]; destruct p].
    destruct Hmiss as [?|[?|(t' & [= <-] & Hold)]]; [done..|].
    run. destruct (elapse (world p)) as [d w] eqn:Hd. cbn [fst snd] in *.
    destruct (Sub (clock p + Z.of_N d) t <? cacheTTL c) eqn:Hage; [lia|].
    by intros [= <- <-]. }
  apply bind_inv in H as (u2 & s2 & H2 & H).
  apply bind_inv in H as (u3 & s3 & H3 & H).
  assert (s3 = afterMissWithCallback namespace cb (c, p)) as ->.
  { revert H2 H3. clear H Hcheck Hmiss. unfold afterMissWithCallback. cbn [fst snd world clock].
    destruct cb; run; intros [= <- <-] [= <- <-]; rewrite ?app_nil_r; reflexivity. }
  clear Hcheck.
  apply bind_inv in H as ([resources err] & s4 & Hcat & H).
  exists (resources, err), s4. split; [done|]. cbn [fst snd].
  destruct err as [e|]; [by apply ret_inv in H as [-> ->]|].
  apply bind_inv in H as (u5 & s5 & H5 & H).
  apply (when_callback_effect cb) in H5; [|done].
  apply bind_inv in H as (u6 & s6 & H6 & H).
  apply (when_callback_effect cb) in H6; [|done].
  apply bind_inv in H as (u7 & s7 & H7 & H). apply (log_effect cb) in H7.
  apply bind_inv in H as (w8 & s8 & H8 & H). apply getWorld_inv in H8 as [-> ->].
  apply bind_inv in H as ([processed counted'] & s9 & Hloop & H).
  apply (countLoopWithCallback_run _ _ _ _ _ []) in Hloop as (Harr & cs & w9 & H9 & Hcs).
  apply bind_inv in H as (u10 & s10 & H10 & H).
  apply (when_callback_effect cb) in H10; [|done].
  apply bind_inv in H as (u11 & s11 & H11 & H). apply (log_effect cb) in H11.
  apply storeNamespace_run in H as (-> & (t & Hstore & Ht) & Hcalls' & Hcb' & new' & Hlogs' & Hwarn').
  rewrite (effect_world _ _ _ _ _ _ H5) in H6.
  rewrite (effect_world _ _ _ _ _ _ H6) in H7.
  pose proof (effect_trans _ _ _ _ _ _ _ _ _ _ H5
                (effect_trans _ _ _ _ _ _ _ _ _ _ H6 H7)) as H47. cbn [app] in H47.
  assert (countOutcomes namespace (keepNamespaced resources) s7
          = countOutcomes namespace (keepNamespaced resources) s4) as Hsame.
  { destruct s4 as [c4 p4], s7 as [c7 p7]. destruct H47 as (Hc & Hw & _).
    cbn [fst snd] in *. subst c7. by apply countOutcomes_world. }
  rewrite (effect_world _ _ _ _ _ _ H9) in H10.
  rewrite (effect_world _ _ _ _ _ _ H10) in H11.
  pose proof (effect_trans _ _ _ _ _ _ _ _ _ _ H47
                (effect_trans _ _ _ _ _ _ _ _ _ _ H9
                   (effect_trans _ _ _ _ _ _ _ _ _ _ H10 H11))) as Hall.
  cbn [app] in Hall. rewrite !app_nil_r in Hall. rewrite Hsame in Hall.
  destruct Hall as (Hc11 & _ & Hclock11 & Hcalls11 & (new & Hlogs11 & Hwarn11)
                    & (said & Hsaid & Hnil)).
  cbn [snd app] in Harr. rewrite Hsame in Harr. subst counted'.
  cbn zeta. cbn [fst snd]. repeat split.
  + exists t. split; [by rewrite Hstore, Hc11|lia].
  + exists cs. split; [congruence|done].
  + exists (new ++ new'). split; [by rewrite Hlogs', Hlogs11, app_assoc|].
    by rewrite List.filter_app, Hwarn11, Hwarn', app_nil_r.
Qed.



(** *** The two entry points *)

(** X10. [GetResourcesInNamespaceWithCallback] serves a fresh entry
    from the cache: no remote call, no log line, and the callback, when
    there is one, receives exactly the one cache message, with the
    namespace, the number of entries and the age of the entry at a
    second reading of the clock; without a callback the clock is read
    once. *)
Theorem X10_callback_cache_hit namespace cb c p cached t :
  namespaceEntry c namespace cached t →
  Sub (nextReading p) t < cacheTTL c →
  let test := elapse (world p) in
  let again := elapse test.2 in
  let age := Sub (clock p + Z.of_N test.1 + Z.of_N again.1) t in
  ∃ p',
    GetResourcesInNamespaceWithCallback namespace cb (c, p) = ((cached, None), (c, p'))
    ∧ calls p' = calls p
    ∧ logs p' = logs p
    ∧ callbacks p'
      = callbacks p
        ++ (if cb
            then [Printf "⚡ Using cached data for '%s' (%d resources, cached %v ago)"
                         [AStr namespace; AInt (len cached); ARounded age second]]
            else [])
    ∧ world p' = (if cb then again.2 else test.2)
    ∧ clock p' = (if cb then clock p + Z.of_N test.1 + Z.of_N again.1
                  else clock p + Z.of_N test.1).
Proof.
  intros [Hc Ht] Hfresh. unfold nextReading in Hfresh. cbn zeta.
  unfold GetResourcesInNamespaceWithCallback. run. rewrite Hc, Ht. run.
  destruct (elapse (world p)) as [d w] eqn:Hd. cbn [fst snd] in *.
  destruct (Sub (clock p + Z.of_N d) t <? cacheTTL c) eqn:Hage; [|lia].
  destruct cb; run.
  - destruct (elapse w) as [d2 w2] eqn:Hd2. cbn [fst snd]. eexists. by repeat split.
  - eexists. repeat split. cbn [callbacks]. by rewrite app_nil_r.
Qed.

(** X11. With a nil callback, [GetResourcesInNamespaceWithCallback]
    hands over no message on any path. *)
Theorem X11_no_callback_no_message namespace s r s' :
  GetResourcesInNamespaceWithCallback namespace false s = (r, s') →
  callbacks s'.2 = callbacks s.2.
Proof.
  intros Hrun. apply WithCallback_run in Hrun as
    [(cached & t & age & _ & _ & _ & _ & _ & _ & Hcb)
    |(_ & mid1 & mid2 & catalog & _ & _ & _ & _ & (said & Hsaid & Hnil) & _)].
  - by rewrite Hcb, app_nil_r.
  - by rewrite Hsaid, Hnil, app_nil_r.
Qed.

Lemma keepNamespaced_filter resources :
  keepNamespaced resources = List.filter Namespaced resources.
Proof.
  unfold keepNamespaced.
  enough (∀ acc, fold_left
            (λ namespacedResources resource,
               if Namespaced resource then namespacedResources ++ [resource]
               else namespacedResources)
            resources acc
          = acc ++ List.filter Namespaced resources) as H by apply (H []).
  induction resources as [|x l IH]; intros acc; cbn [fold_left List.filter].
  - by rewrite app_nil_r.
  - rewrite IH. destruct (Namespaced x); [|done]. by rewrite <- app_assoc.
Qed.

(** X12. A call of [GetResourcesInNamespaceWithCallback] that finds
    nothing to serve fails only when the catalog does, before any
    count.  Otherwise it returns one entry per namespaced catalog
    resource, in order, with the count or 0 where counting failed, and
    logs one warning per failure whose text contains neither "does not
    allow this method" nor "forbidden". *)
Theorem X12_callback_scan_absorbs_count_failures namespace cb s r s' :
  GetResourcesInNamespaceWithCallback namespace cb s = (r, s') →
  namespaceMiss s.1 namespace (nextReading s.2) →
  let asked := GetAPIResources (afterMissWithCallback namespace cb s) in
  match asked.1.2 with
  | Some e => r = ([], Some e) ∧ s' = asked.2
  | None =>
      let rs := List.filter Namespaced asked.1.1 in
      let outcomes := countOutcomes namespace rs asked.2 in
      let warning (x : ResourceInfo) (o : Z * option error) : list Formatted :=
        match o.2 with
        | Some e =>
            if Contains (Error e) "does not allow this method"
               || Contains (Error e) "forbidden"
            then []
            else [Printf "Warning: Failed to count objects for resource %s: %v"
                         [AStr (Name x); AErr e]]
        | None => []
        end in
      r.2 = None
      ∧ length r.1 = length rs
      ∧ (∀ i x o, rs !! i = Some x → outcomes !! i = Some o →
           r.1 !! i = Some (withCount x (match o.2 with Some _ => 0 | None => o.1 end)))
      ∧ ∃ new, logs s'.2 = logs asked.2.2 ++ new
               ∧ List.filter isWarning new = concat (zip_with warning rs outcomes)
  end.
Proof.
  intros Hrun Hmiss.
  destruct (WithCallback_scan _ _ _ _ _ Hrun Hmiss) as (catalog & mid & Hcat & Hout).
  cbn zeta. rewrite Hcat. cbn [fst snd].
  destruct catalog as [catalog [e|]]; cbn [fst snd] in *; [done|].
  destruct Hout as (-> & _ & _ & new & Hlogs & Hwarn).
  rewrite keepNamespaced_filter in *. cbn [fst snd].
  pose proof (length_countOutcomes namespace (List.filter Namespaced catalog) mid) as Hlen.
  repeat split; try done.
  - rewrite length_zip_with. lia.
  - intros i x o Hx Ho. rewrite lookup_zip_with, Hx, Ho. done.
  - exists new. split; [done|]. rewrite Hwarn. reflexivity.
Qed.

(** What the two entry points leave in the namespace cache after a call
    without error: the result, under the namespace. *)
Lemma stored_after_GetResourcesInNamespace namespace s r s' cached t :
  GetResourcesInNamespace namespace s = (r, s') →
  r.2 = None →
  namespaceEntry s'.1 namespace cached t →
  r = (cached, None).
Proof.
  intros Hrun Hok [Hc Ht]. apply GetResourcesInNamespace_run in Hrun.
  destruct Hrun as [cached' t' [Hc' Ht'] _ -> Hcl _ _|mid1 mid2 catalog _ _ _ _ _ _ Hout].
  - rewrite Hcl in Hc. by simplify_eq.
  - destruct (catalog.2); [destruct Hout as [-> _]; done|].
    cbn zeta in Hout. destruct Hout as (-> & (t0 & Hcl & _) & _).
    rewrite Hcl in Hc. cbn in Hc. rewrite lookup_insert_eq in Hc. by simplify_eq.
Qed.

Lemma stored_after_WithCallback namespace cb s r s' cached t :
  GetResourcesInNamespaceWithCallback namespace cb s = (r, s') →
  r.2 = None →
  namespaceEntry s'.1 namespace cached t →
  r = (cached, None).
Proof.
  intros Hrun Hok [Hc Ht]. apply WithCallback_run in Hrun as
    [(cached' & t' & age & [Hc' Ht'] & _ & -> & Hcl & _)
    |(_ & mid1 & mid2 & catalog & _ & _ & _ & _ & _ & Hout)].
  - rewrite Hcl in Hc. by simplify_eq.
  - destruct (catalog.2); [destruct Hout as [-> _]; done|].
    cbn zeta in Hout. destruct Hout as (-> & (t0 & Hcl & _) & _).
    rewrite Hcl in Hc. cbn in Hc. rewrite lookup_insert_eq in Hc. by simplify_eq.
Qed.

(** X13. The two entry points share the namespace cache: what either
    one stored is returned by the other, within the TTL, without a
    remote call. *)
Theorem X13_entry_points_share_the_cache namespace cb s r s' (p : Proc) cached t :
  namespaceEntry s'.1 namespace cached t →
  Sub (nextReading p) t < cacheTTL s'.1 →
  r.2 = None →
  (GetResourcesInNamespaceWithCallback namespace cb s = (r, s') →
   ∃ p', GetResourcesInNamespace namespace (s'.1, p) = (r, (s'.1, p'))
         ∧ calls p' = calls p)
  ∧ (GetResourcesInNamespace namespace s = (r, s') →
     ∃ p',
       GetResourcesInNamespaceWithCallback namespace cb (s'.1, p) = (r, (s'.1, p'))
       ∧ calls p' = calls p).
Proof.
  intros Hentry Hfresh Hok. split; intros Hrun.
  - rewrite (stored_after_WithCallback _ _ _ _ _ _ _ Hrun Hok Hentry).
    by apply namespace_hit with (t := t).
  - rewrite (stored_after_GetResourcesInNamespace _ _ _ _ _ _ Hrun Hok Hentry).
    destruct (GetResourcesInNamespaceWithCallback namespace cb (s'.1, p))
      as [r2 [c2 p2]] eqn:Hrun2.
    apply WithCallback_run in Hrun2 as
      [(cached' & t' & age & [Hc' Ht'] & _ & -> & Hcl & Hcalls & _)|[Hmiss _]];
      cbn [fst snd] in *.
    + destruct Hentry as [Hc Ht]. subst c2. simplify_eq. by exists p2.
    + exfalso. destruct Hentry as [Hc Ht].
      destruct Hmiss as [Hn|[Hn|(t' & Ht' & Hold)]]; simplify_eq. lia.
Qed.

Lemma counted_nonneg rs os :
  Forall (λ o, 0 ≤ o.1) os → Forall (λ x, 0 ≤ Count x) (zip_with counted rs os).
Proof.
  intros Hos. revert rs. induction Hos as [|o os Ho Hos IH]; intros [|x rs]; cbn;
    constructor; [|apply IH]. cbn. destruct (o.2); [done|lia].
Qed.

Lemma countsNonneg_stored c namespace rs t :
  countsNonneg c → Forall (λ x, 0 ≤ Count x) rs →
  countsNonneg (setNamespaceCacheTime (setNamespaceCache c namespace rs) namespace t).
Proof.
  intros Hinv Hrs ns' rs'. cbn. intros Hl.
  apply lookup_insert_Some in Hl as [[_ <-]|[_ Hl]]; [done|by apply (Hinv ns')].
Qed.

(** X14. Counts are never negative: if no cached entry has a negative
    count, neither has the result of either entry point, nor any
    cached entry after it. *)
Theorem X14_counts_are_never_negative namespace cb s r s' :
  countsNonneg s.1 →
  GetResourcesInNamespace namespace s = (r, s')
  ∨ GetResourcesInNamespaceWithCallback namespace cb s = (r, s') →
  Forall (λ x, 0 ≤ Count x) r.1 ∧ countsNonneg s'.1.
Proof.
  intros Hinv [Hrun|Hrun].
  - apply GetResourcesInNamespace_run in Hrun.
    destruct Hrun as [cached t [Hc _] _ -> -> _ _|mid1 mid2 catalog _ Hm1 _ _ _ Hcat Hout].
    + split; [|done]. by apply (Hinv namespace).
    + apply GetAPIResources_frame in Hcat as (Hcaches & _).
      assert (countsNonneg mid2.1) as Hinv2.
      { intros ns' rs'. rewrite Hcaches, Hm1. apply Hinv. }
      destruct (catalog.2).
      * destruct Hout as [-> ->]. split; [constructor|done].
      * cbn zeta in Hout. destruct Hout as (-> & (t0 & -> & _) & _). cbn [fst].
        pose proof (counted_nonneg (keepCountable catalog.1) _
                      (countOutcomes_nonneg namespace (keepCountable catalog.1) mid2)).
        split; [done|]. by apply countsNonneg_stored.
  - apply WithCallback_run in Hrun as
      [(cached & t & age & [Hc _] & _ & -> & -> & _)
      |(_ & mid1 & mid2 & catalog & Hm1 & _ & _ & Hcat & _ & Hout)].
    + split; [|done]. by apply (Hinv namespace).
    + apply GetAPIResources_frame in Hcat as (Hcaches & _).
      assert (countsNonneg mid2.1) as Hinv2.
      { intros ns' rs'. rewrite Hcaches, Hm1. apply Hinv. }
      destruct (catalog.2).
      * destruct Hout as [-> ->]. split; [constructor|done].
      * cbn zeta in Hout. destruct Hout as (-> & (t0 & -> & _) & _). cbn [fst].
        pose proof (counted_nonneg (keepNamespaced catalog.1) _
                      (countOutcomes_nonneg namespace (keepNamespaced catalog.1) mid2)).
        split; [done|]. by apply countsNonneg_stored.
Qed.

(** *** The filters of the handler *)

Lemma filterResources_fold search showOnlyPopulated apiGroup resources :
  ∀ filtered total,
    fold_left (filterStep search showOnlyPopulated apiGroup) resources (filtered, total)
    = (filtered ++ List.filter (shown search showOnlyPopulated apiGroup) resources,
       fold_left (λ total r, wrap64 (total + Count r)) resources total).
Proof.
  induction resources as [|x l IH]; intros filtered total; cbn [fold_left List.filter].
  - by rewrite app_nil_r.
  - unfold filterStep at 2. unfold shown at 1.
    destruct (showOnlyPopulated && (Count x =? 0)); cbn [negb andb]; [apply IH|].
    destruct (String.eqb apiGroup ""); cbn [negb andb orb].
    + destruct (String.eqb search ""); cbn [negb andb orb].
      * rewrite IH. by rewrite <- app_assoc.
      * destruct (Contains (ToLower (Name x)) search); cbn [negb andb orb].
        -- rewrite IH. by rewrite <- app_assoc.
        -- destruct (Contains (ToLower (Kind x)) search); cbn [negb andb orb];
             rewrite IH; [by rewrite <- app_assoc|done].
    + destruct (String.eqb (APIVersion x) apiGroup); cbn [negb andb orb]; [|apply IH].
      destruct (String.eqb search ""); cbn [negb andb orb].
      * rewrite IH. by rewrite <- app_assoc.
      * destruct (Contains (ToLower (Name x)) search); cbn [negb andb orb].
        -- rewrite IH. by rewrite <- app_assoc.
        -- destruct (Contains (ToLower (Kind x)) search); cbn [negb andb orb];
             rewrite IH; [by rewrite <- app_assoc|done].
Qed.

Lemma filterResources_shown search showOnlyPopulated apiGroup resources :
  filterResources search showOnlyPopulated apiGroup resources
  = (List.filter (shown search showOnlyPopulated apiGroup) resources, wrappedSum resources).
Proof. unfold filterResources. by rewrite filterResources_fold. Qed.

(** X15. The filter loop of [getNamespaceResources] keeps, in order, the
    resources that pass the three tests, and its total is the (wrapping)
    sum over all resources whether kept or not; without filters
    everything is kept, and the populated filter alone drops exactly the
    zero counts. *)
Theorem X15_filters_select_in_order search showOnlyPopulated apiGroup resources :
  filterResources search showOnlyPopulated apiGroup resources
  = (List.filter (shown search showOnlyPopulated apiGroup) resources, wrappedSum resources)
  ∧ (filterResources "" false "" resources).1 = resources
  ∧ (filterResources "" true "" resources).1
    = List.filter (λ r, negb (Count r =? 0)) resources.
Proof.
  unfold filterResources. rewrite !filterResources_fold. cbn [app fst]. repeat split.
  - induction resources as [|x l IH]; [done|]. cbn. by rewrite IH.
  - induction resources as [|x l IH]; [done|]. cbn [List.filter]. rewrite IH.
    unfold shown. cbn. by destruct (Count x =? 0).
Qed.

Lemma wrap64_small z : - 2 ^ 63 ≤ z < 2 ^ 63 → wrap64 z = z.
Proof. intros Hz. unfold wrap64. rewrite Z.mod_small; lia. Qed.

Lemma plainSum_nonneg rs : Forall (λ x, 0 ≤ Count x) rs → 0 ≤ plainSum rs.
Proof.
  induction 1 as [|x l Hx Hl IH]; cbn [plainSum foldr]; [lia|].
  fold (plainSum l). lia.
Qed.

(** X16. For counts that are not negative and whose sum fits an int,
    the total of [getNamespaceResources] is the sum of the counts of all
    resources of the namespace, independent of the filters. *)
Theorem X16_total_counts_every_resource search showOnlyPopulated apiGroup resources :
  Forall (λ x, 0 ≤ Count x) resources →
  plainSum resources < 2 ^ 63 →
  (filterResources search showOnlyPopulated apiGroup resources).2 = plainSum resources.
Proof.
  intros Hnn Hfit. unfold filterResources. rewrite filterResources_fold. cbn [snd].
  enough (∀ total, 0 ≤ total → total + plainSum resources < 2 ^ 63 →
            fold_left (λ total r, wrap64 (total + Count r)) resources total
            = total + plainSum resources) as H by (apply (H 0); lia).
  clear Hfit. induction Hnn as [|x l Hx Hl IH]; intros total Ht Hfit;
    cbn [plainSum foldr fold_left] in *; [lia|]. fold (plainSum l) in *.
  pose proof (plainSum_nonneg l Hl).
  rewrite wrap64_small by lia. rewrite IH by lia. lia.
Qed.

Lemma forRange_logs {A} (line : A → string * list Arg) (l : list A) u0 s u s' :
  forRange (λ _ t, logPrintf (line t).1 (line t).2) l u0 s = (u, s') →
  s'.1 = s.1 ∧ world s'.2 = world s.2 ∧ clock s'.2 = clock s.2 ∧ calls s'.2 = calls s.2.
Proof.
  revert u0 s. induction l as [|x l IH]; intros u0 s; cbn [forRange].
  - by intros [= <- <-].
  - intros H. apply bind_inv in H as (u1 & s1 & H1 & H). apply IH in H.
    destruct s as [c p]. revert H1. run. intros [= <- <-]. by run.
Qed.

Lemma timeNow_calls s t s' : timeNow s = (t, s') → s'.1 = s.1 ∧ calls s'.2 = calls s.2.
Proof. destruct s as [c p]. run. step. by intros [= <- <-]. Qed.

Lemma timeSince_calls t0 s t s' :
  timeSince t0 s = (t, s') → s'.1 = s.1 ∧ calls s'.2 = calls s.2.
Proof. destruct s as [c p]. run. step. by intros [= <- <-]. Qed.

Lemma logPrintf_calls fmt a s u s' :
  logPrintf fmt a s = (u, s') → s'.1 = s.1 ∧ calls s'.2 = calls s.2.
Proof. destruct s as [c p]. run. by intros [= <- <-]. Qed.

Lemma fmtPrintf_calls fmt a s u s' :
  fmtPrintf fmt a s = (u, s') → s'.1 = s.1 ∧ calls s'.2 = calls s.2.
Proof. destruct s as [c p]. run. by intros [= <- <-]. Qed.

(** X17. [getNamespaceResources] answers 503 without a client and 500
    with the text of the error of [GetResourcesInNamespace]; otherwise
    it answers the filtered entries with their number and the unfiltered
    total.  The filters act on the answer only: the handler's remote
    calls and the client it leaves are those of
    [GetResourcesInNamespace], and the debug fields are present exactly
    in debug mode. *)
Theorem X17_handler_filters_after_the_cache req (srv : Server) (p : Proc) resp st' :
  getNamespaceResources req (srv, p) = (resp, st') →
  match k8sClient srv with
  | None => resp = httpError "No Kubernetes connection" 503 ∧ st' = (srv, p)
  | Some c =>
      ∃ s1 s2 resources err,
        s1.1 = c ∧ world s1.2 = world p ∧ clock s1.2 = clock p ∧ calls s1.2 = calls p
        ∧ GetResourcesInNamespace (vars req "namespace") s1 = ((resources, err), s2)
        ∧ k8sClient st'.1 = Some s2.1
        ∧ calls st'.2 = calls s2.2
        ∧ match err with
          | Some e => resp = httpError (Error e) 500
          | None =>
              let search := ToLower (query req "search") in
              let populated := String.eqb (query req "populated") "true" in
              let filtered :=
                List.filter (shown search populated (query req "apiGroup")) resources in
              ∃ fields,
                resp = jsonResources filtered (len filtered) (wrappedSum resources)
                                     (vars req "namespace") (debug srv) fields
                ∧ (fields = None ↔ debug srv = false)
          end
  end.
Proof.
  unfold getNamespaceResources. cbn [fst snd].
  destruct (k8sClient srv) as [c|]; [|by intros [= <- <-]].
  unfold onClient. cbn [fst snd].
  match goal with |- context [bind ?m ?k (c, p)] => destruct (bind m k (c, p)) as [a [c' p']] eqn:H end.
  intros [= <- <-]. cbn [fst snd k8sClient].
  apply bind_inv in H as (u1 & s1 & H1 & H).
  assert (s1.1 = c ∧ world s1.2 = world p ∧ clock s1.2 = clock p ∧ calls s1.2 = calls p)
    as (Hc1 & Hw1 & Hk1 & Hcalls1) by (revert H1; run; by intros [= <- <-]).
  clear H1.
  apply bind_inv in H as ([resources err] & s2 & Hget & H).
  exists s1, s2, resources, err. do 5 (split; [done|]).
  destruct err as [e|].
  { apply ret_inv in H as [<- Hs]. subst s2. done. }
  revert H. destruct s2 as [c2 p2].
  rewrite filterResources_shown. intros H.
  apply bind_inv in H as (start & sa & Ha & H). apply timeNow_calls in Ha as [Ha1 Ha2].
  apply bind_inv in H as (ub & sb & Hb & H).
  assert (sb.1 = sa.1 ∧ calls sb.2 = calls sa.2) as [Hb1 Hb2].
  { unfold when in Hb. destruct (debug srv); [by apply logPrintf_calls in Hb|].
    by apply ret_inv in Hb as [_ ->]. }
  clear Hb.
  apply bind_inv in H as (ud & sd & Hd & H).
  assert (sd.1 = sb.1 ∧ calls sd.2 = calls sb.2) as [Hd1 Hd2].
  { destruct (debug srv); [|by apply ret_inv in Hd as [_ ->]].
    apply bind_inv in Hd as (? & s3 & H3 & Hd). apply logPrintf_calls in H3 as [? ?].
    apply bind_inv in Hd as (? & s4 & H4 & Hd).
    apply (forRange_logs
             (λ t, ("[DEBUG]   %s (%s/%s) -> %d objects",
                    [AStr (kvName t); AStr (kvGroup t); AStr (kvVersion t);
                     AInt (kvCount t)]))) in H4 as (? & _ & _ & ?).
    apply bind_inv in Hd as (? & s5 & H5 & Hd). apply timeSince_calls in H5 as [? ?].
    apply logPrintf_calls in Hd as [? ?]. split; congruence. }
  clear Hd.
  apply bind_inv in H as (ue & se & He & H). apply fmtPrintf_calls in He as [He1 He2].
  apply bind_inv in H as (fields & sf & Hf & H). apply ret_inv in H as [-> Hs]. subst sf.
  assert (c' = se.1 ∧ calls p' = calls se.2 ∧ (fields = None ↔ debug srv = false))
    as (Hf1 & Hf2 & Hf3).
  { destruct (debug srv); [|apply ret_inv in Hf as [-> Hs]; by subst se].
    apply bind_inv in Hf as (? & s6 & H6 & Hf). apply timeSince_calls in H6 as [? ?].
    apply bind_inv in Hf as (? & s7 & H7 & Hf). apply ret_inv in Hf as [-> Hs]. subst s7.
    assert ((c', p').1 = s6.1 ∧ calls (c', p').2 = calls s6.2) as [? ?].
    { destruct (0 <? len resources); [|apply ret_inv in H7 as [_ Hs]; by subst s6].
      apply bind_inv in H7 as (? & s8 & H8 & H7). apply timeSince_calls in H8 as [? ?].
      apply ret_inv in H7 as [_ Hs]. by subst s8. }
    cbn [fst snd] in *. repeat split; congruence. }
  cbn [fst snd] in *. repeat split.
  - congruence.
  - congruence.
  - by exists fields.
Qed.

(** *** The lookup of the object methods *)

Lemma targetResource_Some resourceIdentifier resources r :
  targetResource resourceIdentifier resources = Some r →
  ∃ pre post,
    resources = pre ++ r :: post
    ∧ Namespaced r = true
    ∧ (FullName r = resourceIdentifier ∨ Name r = resourceIdentifier)
    ∧ Forall (λ x, Namespaced x = false
                   ∨ (FullName x ≠ resourceIdentifier ∧ Name x ≠ resourceIdentifier)) pre.
Proof.
  induction resources as [|x l IH]; [done|]. cbn [targetResource].
  destruct ((String.eqb (FullName x) resourceIdentifier
             || String.eqb (Name x) resourceIdentifier) && Namespaced x) eqn:Hx.
  - intros [= ->]. exists [], l. apply andb_true_iff in Hx as [Hn Hns].
    repeat split; [done| |done].
    apply orb_true_iff in Hn as [Hn|Hn]; apply String.eqb_eq in Hn; auto.
  - intros (pre & post & -> & Hns & Hn & Hpre)%IH. exists (x :: pre), post.
    repeat split; [done..|]. constructor; [|done].
    apply andb_false_iff in Hx as [Hx| ->]; [right|by left].
    apply orb_false_iff in Hx as [H1 H2]. by apply String.eqb_neq in H1, H2.
Qed.

Lemma targetResource_None resourceIdentifier resources :
  targetResource resourceIdentifier resources = None →
  Forall (λ x, Namespaced x = false
               ∨ (FullName x ≠ resourceIdentifier ∧ Name x ≠ resourceIdentifier)) resources.
Proof.
  induction resources as [|x l IH]; [done|]. cbn [targetResource].
  destruct ((String.eqb (FullName x) resourceIdentifier
             || String.eqb (Name x) resourceIdentifier) && Namespaced x) eqn:Hx; [done|].
  intros Hl. constructor; [|by apply IH].
  apply andb_false_iff in Hx as [Hx| ->]; [right|by left].
  apply orb_false_iff in Hx as [H1 H2]. by apply String.eqb_neq in H1, H2.
Qed.

(** X18. When the lookup of the object methods finds a resource, it is
    the first catalog entry that is namespaced and whose full name or
    name equals the identifier; the request goes to that entry's group,
    version and name. *)
Theorem X18_lookup_takes_the_first_match resourceIdentifier s gvr err s' :
  resourceGVR resourceIdentifier s = ((Some gvr, err), s') →
  err = None ∧ dynamicClient s.1 = true
  ∧ ∃ resources pre r post,
      GetAPIResources s = ((resources, None), s')
      ∧ resources = pre ++ r :: post
      ∧ Namespaced r = true
      ∧ (FullName r = resourceIdentifier ∨ Name r = resourceIdentifier)
      ∧ Forall (λ x, Namespaced x = false
                     ∨ (FullName x ≠ resourceIdentifier ∧ Name x ≠ resourceIdentifier)) pre
      ∧ gvr = schema.GVR (APIGroup r) (APIVersion r) (Name r).
Proof.
  unfold resourceGVR. intros H.
  apply bind_inv in H as (c & s0 & [-> ->]%getClient_inv & H).
  destruct (dynamicClient s.1) eqn:Hd; cbn [negb] in H; [|by apply ret_inv in H as [[=] _]].
  apply bind_inv in H as ([resources e] & s1 & Hcat & H).
  destruct e as [e|]; [by apply ret_inv in H as [[=] _]|].
  destruct (targetResource resourceIdentifier resources) as [r|] eqn:Ht;
    [|by apply ret_inv in H as [[=] _]].
  apply ret_inv in H as [[= -> ->] Hs]. subst s1.
  apply targetResource_Some in Ht as (pre & post & -> & Hns & Hn & Hpre).
  repeat split. by exists (pre ++ r :: post), pre, r, post.
Qed.

(** X19. The lookup of the object methods fails in three ways: without
    a dynamic client (nothing is called, nothing changes), with the
    error of [GetAPIResources] passed on as it is, or with "resource ...
    not found or not namespaced", which means that no namespaced
    catalog entry has that full name or name. *)
Theorem X19_lookup_errors resourceIdentifier s gvr e s' :
  resourceGVR resourceIdentifier s = ((gvr, Some e), s') →
  gvr = None
  ∧ ((dynamicClient s.1 = false ∧ s' = s ∧ e = errorString "no dynamic client available")
     ∨ (dynamicClient s.1 = true ∧ ∃ resources, GetAPIResources s = ((resources, Some e), s'))
     ∨ (dynamicClient s.1 = true
        ∧ ∃ resources,
            GetAPIResources s = ((resources, None), s')
            ∧ Forall (λ x, Namespaced x = false
                           ∨ (FullName x ≠ resourceIdentifier
                              ∧ Name x ≠ resourceIdentifier)) resources
            ∧ e = errorString ("resource " +:+ resourceIdentifier
                               +:+ " not found or not namespaced"))).
Proof.
  unfold resourceGVR. intros H.
  apply bind_inv in H as (c & s0 & [-> ->]%getClient_inv & H).
  destruct (dynamicClient s.1) eqn:Hd; cbn [negb] in H.
  - apply bind_inv in H as ([resources e0] & s1 & Hcat & H).
    destruct e0 as [e0|].
    { apply ret_inv in H as [[= -> ->] Hs]. subst s1. split; [done|].
      right; left. split; [done|]. by exists resources. }
    destruct (targetResource resourceIdentifier resources) as [r|] eqn:Ht;
      [by apply ret_inv in H as [[=] _]|].
    apply ret_inv in H as [[= -> ->] Hs]. subst s1. split; [done|].
    right; right. split; [done|]. exists resources. split; [done|]. split; [|done].
    by apply targetResource_None.
  - apply ret_inv in H as [[= -> ->] Hs]. subst s'. split; [done|]. by left.
Qed.

(** *** The CSV export *)

Lemma csv_body resources body :
  fold_left (λ body resource, body ++ [csvRow resource]) resources body
  = body ++ map csvRow resources.
Proof.
  revert body. induction resources as [|x l IH]; intros body; cbn [fold_left map].
  - by rewrite app_nil_r.
  - rewrite IH. by rewrite <- app_assoc.
Qed.

(** X20. [exportResourcesCSV] answers 500 with the text of the error
    of [GetResourcesInNamespace]; otherwise the body is the header line
    followed by one row per entry, in order and unfiltered, and the API
    group column of a row is never empty.  Its remote calls are those
    of [GetResourcesInNamespace]. *)
Theorem X20_export_writes_every_entry req (srv : Server) (p : Proc) resp st' c :
  k8sClient srv = Some c →
  exportResourcesCSV req (srv, p) = (resp, st') →
  ∃ s1 s2 resources err,
    s1.1 = c ∧ world s1.2 = world p ∧ clock s1.2 = clock p ∧ calls s1.2 = calls p
    ∧ GetResourcesInNamespace (vars req "namespace") s1 = ((resources, err), s2)
    ∧ k8sClient st'.1 = Some s2.1
    ∧ calls st'.2 = calls s2.2
    ∧ match err with
      | Some e => resp = downloadError (Error e) 500
      | None =>
          ∃ rows,
            resp = csvFile ("attachment; filename=" +:+ dq +:+ "k8s-resources-"
                              +:+ vars req "namespace" +:+ ".csv" +:+ dq)
                           (csvHeader :: rows)
            ∧ rows = map csvRow resources
            ∧ Forall (λ row, ∃ name kind group version namespaced count,
                               args row = [AStr name; AStr kind; AStr group; AStr version;
                                           ABool namespaced; AInt count]
                               ∧ group ≠ "") rows
      end.
Proof.
  intros Hc. unfold exportResourcesCSV. cbn [fst snd]. rewrite Hc.
  unfold onClient. cbn [fst snd].
  match goal with |- context [bind ?m ?k (c, p)] =>
    destruct (bind m k (c, p)) as [a [c' p']] eqn:H end.
  intros [= <- <-]. cbn [fst snd k8sClient].
  apply bind_inv in H as (u1 & s1 & H1 & H).
  assert (s1.1 = c ∧ world s1.2 = world p ∧ clock s1.2 = clock p ∧ calls s1.2 = calls p)
    as (Hc1 & Hw1 & Hk1 & Hcalls1) by (revert H1; run; by intros [= <- <-]).
  clear H1.
  apply bind_inv in H as ([resources err] & s2 & Hget & H).
  exists s1, s2, resources, err. do 5 (split; [done|]).
  destruct err as [e|].
  { apply ret_inv in H as [<- Hs]. subst s2. done. }
  cbn zeta in H. rewrite csv_body in H.
  apply bind_inv in H as (u2 & s3 & H3 & H). apply fmtPrintf_calls in H3 as [H31 H32].
  apply ret_inv in H as [-> Hs]. subst s3. cbn [fst snd] in *.
  repeat split; [by f_equal|done|].
  eexists. split; [reflexivity|]. split; [done|].
  apply List.Forall_map, Forall_forall. intros r _.
  unfold csvRow. cbn [args]. do 6 eexists. split; [reflexivity|].
  by destruct (String.eqb_spec (APIGroup r) "").
Qed.

(** X21. An export of a namespace whose entry is younger than the TTL
    is served from the cache: one row per cached entry, the client
    unchanged and no remote call. *)
Theorem X21_export_is_served_from_the_cache req (srv : Server) (p : Proc) c cached t :
  k8sClient srv = Some c →
  namespaceEntry c (vars req "namespace") cached t →
  Sub (nextReading p) t < cacheTTL c →
  ∃ st',
    exportResourcesCSV req (srv, p)
    = (csvFile ("attachment; filename=" +:+ dq +:+ "k8s-resources-"
                  +:+ vars req "namespace" +:+ ".csv" +:+ dq)
               (csvHeader :: map csvRow cached), st')
    ∧ k8sClient st'.1 = Some c
    ∧ calls st'.2 = calls p.
Proof.
  intros Hc Hentry Hfresh. unfold exportResourcesCSV. cbn [fst snd]. rewrite Hc.
  unfold onClient. cbn [fst snd]. unfold bind at 1. unfold fmtPrintf at 1. cbn [fst snd].
  match goal with |- context [bind _ _ (c, ?p1)] =>
    destruct (namespace_hit (vars req "namespace") c p1 cached t Hentry Hfresh)
      as (p' & Hrun & Hcalls) end.
  unfold bind at 1. rewrite Hrun. cbn zeta. rewrite csv_body. run.
  eexists. split; [reflexivity|]. by split.
Qed.

End Properties.

(** ** Runs on the scripted platform *)

Section Runs.
Existing Instance Sim.platform.

(** *** The library functions on small inputs *)

Example Contains_subresource :
  Contains "pods/log" "/" = true ∧ Contains "pods" "/" = false ∧ Contains "" "" = true.
Proof. by repeat split. Qed.

Example permissionDenied_by_text :
  permissionDenied (errorString "secrets is forbidden: User cannot list resource") = true
  ∧ permissionDenied
      (errorString "the server does not allow this method on the requested resource")
    = true
  ∧ permissionDenied (errorString "context deadline exceeded") = false.
Proof. by repeat split. Qed.

Example parseGroupVersion_cases :
  Sim.parseGroupVersion "apps/v1" = inl {| schema.Group := "apps"; schema.Version := "v1" |}
  ∧ Sim.parseGroupVersion "v1" = inl {| schema.Group := ""; schema.Version := "v1" |}
  ∧ Sim.parseGroupVersion "" = inl {| schema.Group := ""; schema.Version := "" |}
  ∧ Sim.parseGroupVersion "a/b/c" = inr (errorString "unexpected GroupVersion string: a/b/c").
Proof. by repeat split. Qed.

Example Sub_saturates :
  Sub 0 zeroTime = maxDuration ∧ Sub (7 * second) (2 * second) = 5 * second.
Proof. by repeat split. Qed.

Example wrap64_wraps : wrap64 (2 ^ 63) = - 2 ^ 63 ∧ wrap64 8 = 8.
Proof. by repeat split. Qed.

Example skipResources_lookup :
  index skipResources "tokenrequests" = true
  ∧ index skipResources "bindings" = true
  ∧ index skipResources "pods" = false.
Proof. by repeat split. Qed.

Example NewClient_has_no_fresh_cache :
  (resourcesCacheValid NewClient (Sim.start Sim.small)).1 = false
  ∧ (checkNamespaceCache "default" (Sim.start Sim.small)).1 = None.
Proof. by repeat split. Qed.

(** *** The confirmed properties on concrete runs *)

Lemma C3_fallback_on_broken_cluster :
  let run := GetAPIResources (Sim.start Sim.broken) in
  run.1.2 = None
  ∧ run.1.1 = coreResources
  ∧ length run.1.1 = 5%nat
  ∧ map (λ x, (Name x, FullName x, APIGroup x, Namespaced x)) run.1.1
    = [ ("pods", "pods", "", true);
        ("services", "services", "", true);
        ("configmaps", "configmaps", "", true);
        ("secrets", "secrets", "", true);
        ("deployments", "deployments.apps", "apps", true) ].
Proof.
  apply (C3_fallback_when_no_group_succeeds (Sim.start Sim.broken)
           (GetAPIResources (Sim.start Sim.broken)).1
           (GetAPIResources (Sim.start Sim.broken)).2 Sim.allFailed).
  - apply surjective_pairing.
  - vm_compute. reflexivity.
  - reflexivity.
Defined.

Lemma C10_broken_cluster_is_asked_again :
  let s := Sim.start Sim.broken in
  let run := GetAPIResources s in
  run.2.1 = s.1
  ∧ resourcesCache run.2.1 = resourcesCache s.1
  ∧ resourcesCacheTime run.2.1 = resourcesCacheTime s.1
  ∧ ∀ (c2 : Client) (p : Proc) r2 s2,
      discoveryClient c2 = true →
      cacheTTL c2 = cacheTTL run.2.1 →
      resourcesCache c2 = resourcesCache run.2.1 →
      resourcesCacheTime c2 = resourcesCacheTime run.2.1 →
      clock run.2.2 ≤ clock p →
      GetAPIResources (c2, p) = (r2, s2) →
      ∃ response, calls s2.2 = calls p ++ [CallDiscovery response].
Proof.
  apply (C10_fallback_is_not_cached (Sim.start Sim.broken)
           (GetAPIResources (Sim.start Sim.broken)).1
           (GetAPIResources (Sim.start Sim.broken)).2 Sim.allFailed).
  - apply surjective_pairing.
  - vm_compute. reflexivity.
  - reflexivity.
Defined.


Lemma C5_second_call_on_small_cluster :
  let first := GetResourcesInNamespace "default" (Sim.start Sim.small) in
  ∃ p', GetResourcesInNamespace "default" (first.2.1, first.2.2) = (first.1, (first.2.1, p'))
        ∧ first.1 = (first.1.1, None)
        ∧ calls p' = calls first.2.2.
Proof.
  apply (C5_second_call_within_ttl "default" (Sim.start Sim.small)
           (GetResourcesInNamespace "default" (Sim.start Sim.small)).1
           (GetResourcesInNamespace "default" (Sim.start Sim.small)).2
           (GetResourcesInNamespace "default" (Sim.start Sim.small)).2.1
           (GetResourcesInNamespace "default" (Sim.start Sim.small)).2.2
           (GetResourcesInNamespace "default" (Sim.start Sim.small)).1.1
           4000000000).
  - apply surjective_pairing.
  - split; vm_compute; reflexivity.
  - split; vm_compute; reflexivity.
  - reflexivity.
  - lia.
  - vm_compute. reflexivity.
Defined.


Lemma C7_truncated_deployments :
  let s := Sim.start Sim.small in
  let run := countResourceObjects "default" Sim.deployments s in
  let n := run.1.1 in
  let err := run.1.2 in
  let s' := run.2 in
  (* one item and a token at first, five items in full *)
  (n = 5 ∧ err = None
   ∧ calls s'.2
     = [ CallList (3 * second) "default" (schema.GVR "apps" "v1" "deployments")
                  limitedList (inl (Sim.items 1 "next"));
         CallList (3 * second) "default" (schema.GVR "apps" "v1" "deployments")
                  unboundedList (inl (Sim.items 5 "")) ])
  ∧ let gvr := schema.GVR (APIGroup Sim.deployments) (APIVersion Sim.deployments)
                          (Name Sim.deployments) in
    let ask opts w := ResourceList (3 * second) "default" gvr opts w in
    let call opts w := CallList (3 * second) "default" gvr opts (ask opts w).1 in
    let first := ask limitedList (world s.2) in
    limitedList = {| metav1.Limit := 0; metav1.TimeoutSeconds := Some 3 |}
    ∧ unboundedList = {| metav1.Limit := 0; metav1.TimeoutSeconds := None |}
    ∧ match first.1 with
      | inr e =>
          n = 0 ∧ err = Some e
          ∧ calls s'.2 = calls s.2 ++ [call limitedList (world s.2)]
          ∧ world s'.2 = first.2
      | inl list =>
          if String.eqb (unstructured.Continue list) "" then
            n = len (unstructured.Items list) ∧ err = None
            ∧ calls s'.2 = calls s.2 ++ [call limitedList (world s.2)]
            ∧ world s'.2 = first.2
          else
            let followUp := ask unboundedList first.2 in
            calls s'.2
            = calls s.2 ++ [call limitedList (world s.2); call unboundedList first.2]
            ∧ world s'.2 = followUp.2
            ∧ match followUp.1 with
              | inl fullList => n = len (unstructured.Items fullList) ∧ err = None
              | inr e => n = 0 ∧ err = Some e
              end
      end
    ∧ 0 ≤ n
    ∧ s'.1 = s.1
    ∧ clock s'.2 = clock s.2
    ∧ logs s'.2 = logs s.2.
Proof.
  split; [vm_compute; repeat split|].
  apply (C7_count_protocol "default" Sim.deployments (Sim.start Sim.small)
           (countResourceObjects "default" Sim.deployments (Sim.start Sim.small)).1.1
           (countResourceObjects "default" Sim.deployments (Sim.start Sim.small)).1.2
           (countResourceObjects "default" Sim.deployments (Sim.start Sim.small)).2).
  - reflexivity.
  - vm_compute. reflexivity.
Defined.

Lemma C4_scan_of_small_cluster :
  let s := Sim.start Sim.small in
  let run := GetResourcesInNamespace "default" s in
  (* three pods; services forbidden; configmaps unreachable; five
     deployments: four entries, one warning *)
  (map (λ x, (Name x, Count x)) run.1.1
   = [("pods", 3); ("services", 0); ("configmaps", 0); ("deployments", 5)]
   ∧ List.filter isWarning (logs run.2.2)
     = [Printf "Warning: Failed to count objects for resource %s: %v"
               [AStr "configmaps";
                AErr (errorString "dial tcp 10.0.0.1:443: connect: connection refused")]])
  ∧ let asked := GetAPIResources (afterMiss "default" s) in
    match asked.1.2 with
    | Some e => run.1 = ([], Some e) ∧ run.2 = asked.2
    | None =>
        let rs := List.filter (λ x, Namespaced x && negb (index skipResources (Name x)))
                              asked.1.1 in
        let outcomes := countOutcomes "default" rs asked.2 in
        let warning (x : ResourceInfo) (o : Z * option error) : list Formatted :=
          match o.2 with
          | Some e =>
              if Contains (Error e) "does not allow this method"
                 || Contains (Error e) "forbidden"
              then []
              else [Printf "Warning: Failed to count objects for resource %s: %v"
                           [AStr (Name x); AErr e]]
          | None => []
          end in
        run.1.2 = None
        ∧ length run.1.1 = length rs
        ∧ length outcomes = length rs
        ∧ (∀ i x o, rs !! i = Some x → outcomes !! i = Some o →
             run.1.1 !! i
             = Some (withCount x (match o.2 with Some _ => 0 | None => o.1 end)))
        ∧ ∃ new, logs run.2.2 = logs asked.2.2 ++ new
                 ∧ List.filter isWarning new = concat (zip_with warning rs outcomes)
    end.
Proof.
  split; [vm_compute; repeat split|].
  apply (C4_count_failures_are_absorbed "default" (Sim.start Sim.small)
           (GetResourcesInNamespace "default" (Sim.start Sim.small)).1
           (GetResourcesInNamespace "default" (Sim.start Sim.small)).2).
  - apply surjective_pairing.
  - left. vm_compute. reflexivity.
Defined.

(** *** Where the specification says more than the code does *)

(** C4, counterexample.  As the claim words it, C4 does not hold.  On a
    cluster that refuses every connection, each of the four count
    attempts in the namespace forbidden-fruit fails with a network
    error, every entry gets count 0, and the log holds no warning at
    all: the URL in the text of the error contains "forbidden".  In the
    namespace default the same failures leave four warnings. *)
Theorem C4_network_failure_without_warning :
  let s := Sim.start Sim.offline in
  let run := GetResourcesInNamespace "forbidden-fruit" s in
  let other := GetResourcesInNamespace "default" s in
  (countResourceObjects "forbidden-fruit" Sim.deployments s).1
  = (0, Some (Sim.connectionRefused "forbidden-fruit"
                                    (schema.GVR "apps" "v1" "deployments")))
  ∧ Error (Sim.connectionRefused "forbidden-fruit" (schema.GVR "apps" "v1" "deployments"))
    = "Get " +:+ dq
      +:+ "https://10.0.0.1:443/apis/apps/v1/namespaces/forbidden-fruit/deployments"
      +:+ dq +:+ ": dial tcp 10.0.0.1:443: connect: connection refused"
  ∧ run.1.2 = None
  ∧ map (λ x, (Name x, Count x)) run.1.1
    = [("pods", 0); ("services", 0); ("configmaps", 0); ("deployments", 0)]
  ∧ List.filter isWarning (logs run.2.2) = []
  ∧ map (λ x, (Name x, Count x)) other.1.1
    = [("pods", 0); ("services", 0); ("configmaps", 0); ("deployments", 0)]
  ∧ map args (List.filter isWarning (logs other.2.2))
    = map (λ gvr, [AStr (schema.gvrResource gvr);
                   AErr (Sim.connectionRefused "default" gvr)])
          [ schema.GVR "" "v1" "pods"; schema.GVR "" "v1" "services";
            schema.GVR "" "v1" "configmaps"; schema.GVR "apps" "v1" "deployments" ].
Proof. vm_compute. by repeat split. Qed.


(** *** Where the code departs from its specification *)

(** C1. [clearCache] answers "cache cleared" and leaves both caches in
    place: on the small cluster, a request that filled the caches,
    then [clearCache], then the same request again: the client is the
    same after [clearCache], it still holds 5 catalog entries and the 4
    counted entries of the namespace, and the second request adds no
    remote call to the 6 of the first (1 discovery, 5 lists). *)
Theorem C1_clearCache_leaves_caches_in_place :
  let req := Sim.request "default" "" "" "" in
  let s1 := (getNamespaceResources req (Sim.server false, Sim.boot Sim.small)).2 in
  let s2 := (clearCache req s1).2 in
  let s3 := (getNamespaceResources req s2).2 in
  (clearCache req s1).1 = jsonStatus "cache cleared"
  ∧ k8sClient s2.1 = k8sClient s1.1
  ∧ (k8sClient s2.1 ≫= λ c, Some (length (resourcesCache c))) = Some 5%nat
  ∧ (k8sClient s2.1 ≫= λ c, length <$> namespaceCaches c !! "default") = Some 4%nat
  ∧ length (calls s1.2) = 6%nat
  ∧ calls s3.2 = calls s1.2.
Proof. vm_compute. repeat split; reflexivity. Qed.

(** C2. A scan by [GetResourcesInNamespaceWithCallback] does not apply
    the skip list: on the small cluster it issues a list request for
    tokenrequests and returns an entry for it, which the namespace cache
    then serves through [GetResourcesInNamespace] as well; a scan by
    [GetResourcesInNamespace] itself leaves tokenrequests out. *)
Theorem C2_callback_scan_counts_skipped_resources :
  let run := GetResourcesInNamespaceWithCallback "default" true (Sim.start Sim.small) in
  index skipResources "tokenrequests" = true
  ∧ map Name run.1.1 = ["pods"; "services"; "configmaps"; "deployments"; "tokenrequests"]
  ∧ existsb (Sim.listsResource "tokenrequests") (calls run.2.2) = true
  ∧ map Name (GetResourcesInNamespace "default" run.2).1.1
    = ["pods"; "services"; "configmaps"; "deployments"; "tokenrequests"]
  ∧ map Name (GetResourcesInNamespace "default" (Sim.start Sim.small)).1.1
    = ["pods"; "services"; "configmaps"; "deployments"]
  ∧ existsb (Sim.listsResource "tokenrequests")
            (calls (GetResourcesInNamespace "default" (Sim.start Sim.small)).2.2) = false.
Proof. vm_compute. repeat split; reflexivity. Qed.

(** C8. The apiGroup filter is compared with the API version of an
    entry: on the small cluster, where deployments is in group apps at
    version v1, the filter value apps returns no entry at all, and the
    filter value v1 returns all four entries, deployments of group apps
    among the three of the core group. *)
Theorem C8_apiGroup_filter_compares_version :
  let respond apiGroup :=
    (getNamespaceResources (Sim.request "default" "" "" apiGroup)
                           (Sim.server false, Sim.boot Sim.small)).1 in
  let entries response :=
    match response with
    | jsonResources resources _ _ _ _ _ => map (λ r, (Name r, APIGroup r, APIVersion r)) resources
    | _ => []
    end in
  entries (respond "")
  = [ ("pods", "", "v1"); ("services", "", "v1"); ("configmaps", "", "v1");
      ("deployments", "apps", "v1") ]
  ∧ respond "apps" = jsonResources [] 0 8 "default" false None
  ∧ entries (respond "v1") = entries (respond "").
Proof. vm_compute. repeat split; reflexivity. Qed.
(** *** The further properties on concrete runs *)

Lemma X1_second_discovery_on_small_cluster :
  let warm := (GetAPIResources (Sim.start Sim.small)).2 in
  ∃ p', GetAPIResources (warm.1, warm.2) = ((resourcesCache warm.1, None), (warm.1, p'))
        ∧ calls p' = calls warm.2.
Proof.
  apply (X1_catalog_cache_hit (GetAPIResources (Sim.start Sim.small)).2.1
           (GetAPIResources (Sim.start Sim.small)).2.2).
  - reflexivity.
  - vm_compute. discriminate.
  - vm_compute. reflexivity.
Defined.

Lemma X2_new_client_asks_the_cluster :
  ∃ response,
    calls (GetAPIResources (Sim.start Sim.small)).2.2
    = calls (Sim.boot Sim.small) ++ [CallDiscovery response].
Proof.
  apply (X2_empty_catalog_is_rediscovered NewClient (Sim.boot Sim.small)
           (GetAPIResources (Sim.start Sim.small)).1
           (GetAPIResources (Sim.start Sim.small)).2).
  - reflexivity.
  - reflexivity.
  - apply surjective_pairing.
Defined.

Lemma X3_unreachable_cluster :
  let s := Sim.start Sim.unreachable in
  let run := GetAPIResources s in
  run.1 = ([], Some (errorString ("failed to discover API resources: "
                                  +:+ Error Sim.refused)))
  ∧ run.2.1 = s.1.
Proof.
  apply (X3_discovery_error_is_returned (Sim.start Sim.unreachable)
           (GetAPIResources (Sim.start Sim.unreachable)).1
           (GetAPIResources (Sim.start Sim.unreachable)).2 [] Sim.refused).
  - apply surjective_pairing.
  - vm_compute. reflexivity.
  - reflexivity.
Defined.

Lemma X4_small_cluster_catalog :
  let run := GetAPIResources (Sim.start Sim.small) in
  Forall plainEntry run.1.1 ∧ Forall plainEntry (resourcesCache run.2.1).
Proof.
  apply (X4_catalog_has_no_subresources (Sim.start Sim.small)
           (GetAPIResources (Sim.start Sim.small)).1
           (GetAPIResources (Sim.start Sim.small)).2).
  - simpl. apply Forall_nil. done.
  - apply surjective_pairing.
Defined.

Lemma X5_small_cluster_catalog_is_kept :
  let run := GetAPIResources (Sim.start Sim.small) in
  resourcesCache run.2.1 = run.1.1
  ∧ resourcesCacheTime run.2.1 ≤ clock run.2.2
  ∧ ∀ p : Proc,
      Sub (nextReading p) (resourcesCacheTime run.2.1) < cacheTTL run.2.1 →
      ∃ p', GetAPIResources (run.2.1, p) = (run.1, (run.2.1, p')) ∧ calls p' = calls p.
Proof.
  apply (X5_discovered_catalog_is_served_next (Sim.start Sim.small)
           (GetAPIResources (Sim.start Sim.small)).1
           (GetAPIResources (Sim.start Sim.small)).2 Sim.smallLists None).
  - apply surjective_pairing.
  - vm_compute. reflexivity.
  - discriminate.
  - reflexivity.
  - vm_compute. discriminate.
Defined.

Lemma X7_scan_of_default_leaves_kube_system :
  let s := Sim.start Sim.small in
  let run := GetResourcesInNamespace "default" s in
  namespaceCaches run.2.1 !! "kube-system" = namespaceCaches s.1 !! "kube-system"
  ∧ namespaceCacheTimes run.2.1 !! "kube-system" = namespaceCacheTimes s.1 !! "kube-system".
Proof.
  apply (X7_other_namespaces_are_untouched "default" "kube-system" (Sim.start Sim.small)
           (GetResourcesInNamespace "default" (Sim.start Sim.small)).1
           (GetResourcesInNamespace "default" (Sim.start Sim.small)).2).
  - apply surjective_pairing.
  - discriminate.
Defined.


Lemma X11_scan_without_callback :
  let s := Sim.start Sim.small in
  callbacks (GetResourcesInNamespaceWithCallback "default" false s).2.2 = callbacks s.2.
Proof.
  apply (X11_no_callback_no_message "default" (Sim.start Sim.small)
           (GetResourcesInNamespaceWithCallback "default" false (Sim.start Sim.small)).1
           (GetResourcesInNamespaceWithCallback "default" false (Sim.start Sim.small)).2).
  apply surjective_pairing.
Defined.

Lemma X13_listing_after_a_callback_scan :
  let first := GetResourcesInNamespaceWithCallback "default" true (Sim.start Sim.small) in
  ∃ p', GetResourcesInNamespace "default" (first.2.1, first.2.2) = (first.1, (first.2.1, p'))
        ∧ calls p' = calls first.2.2.
Proof.
  refine (proj1 (X13_entry_points_share_the_cache "default" true (Sim.start Sim.small)
           (GetResourcesInNamespaceWithCallback "default" true (Sim.start Sim.small)).1
           (GetResourcesInNamespaceWithCallback "default" true (Sim.start Sim.small)).2
           (GetResourcesInNamespaceWithCallback "default" true (Sim.start Sim.small)).2.2
           (GetResourcesInNamespaceWithCallback "default" true (Sim.start Sim.small)).1.1
           4000000000 _ _ _) _).
  - split; vm_compute; reflexivity.
  - vm_compute. reflexivity.
  - reflexivity.
  - apply surjective_pairing.
Defined.

Lemma X14_counts_on_small_cluster :
  let run := GetResourcesInNamespace "default" (Sim.start Sim.small) in
  Forall (λ x, 0 ≤ Count x) run.1.1 ∧ countsNonneg run.2.1.
Proof.
  apply (X14_counts_are_never_negative "default" false (Sim.start Sim.small)
           (GetResourcesInNamespace "default" (Sim.start Sim.small)).1
           (GetResourcesInNamespace "default" (Sim.start Sim.small)).2).
  - intros namespace rs H. vm_compute in H. discriminate.
  - left. apply surjective_pairing.
Defined.

Lemma X16_total_on_small_cluster :
  let resources := (GetResourcesInNamespace "default" (Sim.start Sim.small)).1.1 in
  (filterResources "deploy" true "v1" resources).2 = plainSum resources.
Proof.
  apply (X16_total_counts_every_resource "deploy" true "v1"
           (GetResourcesInNamespace "default" (Sim.start Sim.small)).1.1).
  - vm_compute. repeat constructor; discriminate.
  - vm_compute. reflexivity.
Defined.

Lemma X17_listing_of_default_with_filters :
  let req := Sim.request "default" "deploy" "true" "v1" in
  let run := getNamespaceResources req (Sim.server false, Sim.boot Sim.small) in
  ∃ s1 s2 resources err,
    s1.1 = NewClient
    ∧ world s1.2 = world (Sim.boot Sim.small)
    ∧ clock s1.2 = clock (Sim.boot Sim.small)
    ∧ calls s1.2 = calls (Sim.boot Sim.small)
    ∧ GetResourcesInNamespace (vars req "namespace") s1 = ((resources, err), s2)
    ∧ k8sClient run.2.1 = Some s2.1
    ∧ calls run.2.2 = calls s2.2
    ∧ match err with
      | Some e => run.1 = httpError (Error e) 500
      | None =>
          let search := ToLower (query req "search") in
          let populated := String.eqb (query req "populated") "true" in
          let filtered :=
            List.filter (shown search populated (query req "apiGroup")) resources in
          ∃ fields,
            run.1 = jsonResources filtered (len filtered) (wrappedSum resources)
                                  (vars req "namespace") false fields
            ∧ (fields = None ↔ false = false)
      end.
Proof.
  apply (X17_handler_filters_after_the_cache (Sim.request "default" "deploy" "true" "v1")
           (Sim.server false) (Sim.boot Sim.small)
           (getNamespaceResources (Sim.request "default" "deploy" "true" "v1")
                                  (Sim.server false, Sim.boot Sim.small)).1
           (getNamespaceResources (Sim.request "default" "deploy" "true" "v1")
                                  (Sim.server false, Sim.boot Sim.small)).2).
  apply surjective_pairing.
Defined.

Lemma X18_lookup_of_deployments :
  let s := Sim.start Sim.small in
  let run := resourceGVR "deployments.apps" s in
  run.1.2 = None ∧ dynamicClient s.1 = true
  ∧ ∃ resources pre r post,
      GetAPIResources s = ((resources, None), run.2)
      ∧ resources = pre ++ r :: post
      ∧ Namespaced r = true
      ∧ (FullName r = "deployments.apps" ∨ Name r = "deployments.apps")
      ∧ Forall (λ x, Namespaced x = false
                     ∨ (FullName x ≠ "deployments.apps" ∧ Name x ≠ "deployments.apps")) pre
      ∧ schema.GVR "apps" "v1" "deployments"
        = schema.GVR (APIGroup r) (APIVersion r) (Name r).
Proof.
  apply (X18_lookup_takes_the_first_match "deployments.apps" (Sim.start Sim.small)
           (schema.GVR "apps" "v1" "deployments")
           (resourceGVR "deployments.apps" (Sim.start Sim.small)).1.2
           (resourceGVR "deployments.apps" (Sim.start Sim.small)).2).
  vm_compute. reflexivity.
Defined.

Lemma X19_lookup_of_nodes :
  let s := Sim.start Sim.small in
  let run := resourceGVR "nodes" s in
  let e := errorString "resource nodes not found or not namespaced" in
  run.1.1 = None
  ∧ ((dynamicClient s.1 = false ∧ run.2 = s
      ∧ e = errorString "no dynamic client available")
     ∨ (dynamicClient s.1 = true
        ∧ ∃ resources, GetAPIResources s = ((resources, Some e), run.2))
     ∨ (dynamicClient s.1 = true
        ∧ ∃ resources,
            GetAPIResources s = ((resources, None), run.2)
            ∧ Forall (λ x, Namespaced x = false
                           ∨ (FullName x ≠ "nodes" ∧ Name x ≠ "nodes")) resources
            ∧ e = errorString ("resource " +:+ "nodes" +:+ " not found or not namespaced"))).
Proof.
  apply (X19_lookup_errors "nodes" (Sim.start Sim.small)
           (resourceGVR "nodes" (Sim.start Sim.small)).1.1
           (errorString "resource nodes not found or not namespaced")
           (resourceGVR "nodes" (Sim.start Sim.small)).2).
  vm_compute. reflexivity.
Defined.

Lemma X20_export_of_default :
  let req := Sim.request "default" "deploy" "true" "v1" in
  let run := exportResourcesCSV req (Sim.server false, Sim.boot Sim.small) in
  ∃ s1 s2 resources err,
    s1.1 = NewClient
    ∧ world s1.2 = world (Sim.boot Sim.small)
    ∧ clock s1.2 = clock (Sim.boot Sim.small)
    ∧ calls s1.2 = calls (Sim.boot Sim.small)
    ∧ GetResourcesInNamespace (vars req "namespace") s1 = ((resources, err), s2)
    ∧ k8sClient run.2.1 = Some s2.1
    ∧ calls run.2.2 = calls s2.2
    ∧ match err with
      | Some e => run.1 = downloadError (Error e) 500
      | None =>
          ∃ rows,
            run.1 = csvFile ("attachment; filename=" +:+ dq +:+ "k8s-resources-"
                               +:+ vars req "namespace" +:+ ".csv" +:+ dq)
                            (csvHeader :: rows)
            ∧ rows = map csvRow resources
            ∧ Forall (λ row, ∃ name kind group version namespaced count,
                               args row = [AStr name; AStr kind; AStr group; AStr version;
                                           ABool namespaced; AInt count]
                               ∧ group ≠ "") rows
      end.
Proof.
  apply (X20_export_writes_every_entry (Sim.request "default" "deploy" "true" "v1")
           (Sim.server false) (Sim.boot Sim.small)
           (exportResourcesCSV (Sim.request "default" "deploy" "true" "v1")
                               (Sim.server false, Sim.boot Sim.small)).1
           (exportResourcesCSV (Sim.request "default" "deploy" "true" "v1")
                               (Sim.server false, Sim.boot Sim.small)).2
           NewClient).
  - reflexivity.
  - apply surjective_pairing.
Defined.

Lemma X21_export_after_a_listing :
  let req := Sim.request "default" "deploy" "true" "v1" in
  let listed := getNamespaceResources req (Sim.server false, Sim.boot Sim.small) in
  let cached := (GetResourcesInNamespace "default" (Sim.start Sim.small)).1.1 in
  ∃ st',
    exportResourcesCSV req (listed.2.1, listed.2.2)
    = (csvFile ("attachment; filename=" +:+ dq +:+ "k8s-resources-"
                  +:+ vars req "namespace" +:+ ".csv" +:+ dq)
               (csvHeader :: map csvRow cached), st')
    ∧ k8sClient st'.1 = Some (GetResourcesInNamespace "default" (Sim.start Sim.small)).2.1
    ∧ calls st'.2 = calls listed.2.2.
Proof.
  apply (X21_export_is_served_from_the_cache (Sim.request "default" "deploy" "true" "v1")
           (getNamespaceResources (Sim.request "default" "deploy" "true" "v1")
                                  (Sim.server false, Sim.boot Sim.small)).2.1
           (getNamespaceResources (Sim.request "default" "deploy" "true" "v1")
                                  (Sim.server false, Sim.boot Sim.small)).2.2
           (GetResourcesInNamespace "default" (Sim.start Sim.small)).2.1
           (GetResourcesInNamespace "default" (Sim.start Sim.small)).1.1
           4000000000).
  - vm_compute. reflexivity.
  - split; vm_compute; reflexivity.
  - vm_compute. reflexivity.
Defined.

Lemma X6_first_scan_of_default :
  let s := Sim.start Sim.small in
  let run := GetResourcesInNamespace "default" s in
  (* the four counted entries are stored under the namespace, stamped
     at the fourth reading of the clock *)
  (map (λ x, (Name x, Count x)) run.1.1
   = [("pods", 3); ("services", 0); ("configmaps", 0); ("deployments", 5)]
   ∧ namespaceCaches run.2.1 !! "default" = Some run.1.1
   ∧ namespaceCacheTimes run.2.1 !! "default" = Some 4000000000)
  ∧ let asked := GetAPIResources (afterMiss "default" s) in
    let rs := List.filter (λ x, Namespaced x && negb (index skipResources (Name x)))
                          asked.1.1 in
    asked.1.2 = None
    ∧ run.1.1 = zip_with counted rs (countOutcomes "default" rs asked.2)
    ∧ ∃ t, namespaceEntry run.2.1 "default" run.1.1 t ∧ clock s.2 ≤ t ≤ clock run.2.2.
Proof.
  split; [vm_compute; repeat split|].
  apply (X6_stale_entry_is_rescanned "default" (Sim.start Sim.small)
           (GetResourcesInNamespace "default" (Sim.start Sim.small)).1
           (GetResourcesInNamespace "default" (Sim.start Sim.small)).2).
  - apply surjective_pairing.
  - left. vm_compute. reflexivity.
  - reflexivity.
Defined.

Lemma X8_entries_of_default :
  let s := Sim.start Sim.small in
  let run := GetResourcesInNamespace "default" s in
  (* the catalog has five entries; tokenrequests is on the skip list *)
  (map Name (GetAPIResources (afterMiss "default" s)).1.1
   = ["pods"; "services"; "configmaps"; "deployments"; "tokenrequests"]
   ∧ map Name run.1.1 = ["pods"; "services"; "configmaps"; "deployments"])
  ∧ let asked := GetAPIResources (afterMiss "default" s) in
    Forall (λ x, Namespaced x = true ∧ index skipResources (Name x) = false ∧ 0 ≤ Count x)
           run.1.1
    ∧ asked.1.2 = None
    ∧ map (λ x, withCount x 0) run.1.1
      = map (λ x, withCount x 0)
            (List.filter (λ x, Namespaced x && negb (index skipResources (Name x)))
                         asked.1.1).
Proof.
  split; [vm_compute; repeat split|].
  apply (X8_scan_entries_are_countable "default" (Sim.start Sim.small)
           (GetResourcesInNamespace "default" (Sim.start Sim.small)).1
           (GetResourcesInNamespace "default" (Sim.start Sim.small)).2).
  - apply surjective_pairing.
  - left. vm_compute. reflexivity.
  - reflexivity.
Defined.

Lemma X10_callback_after_a_scan :
  let first := GetResourcesInNamespace "default" (Sim.start Sim.small) in
  let c := first.2.1 in
  let p := first.2.2 in
  (* the entry was stamped at 4 s; the clock reads 5 s at the test and
     6 s for the message *)
  callbacks (GetResourcesInNamespaceWithCallback "default" true (c, p)).2.2
  = [Printf "⚡ Using cached data for '%s' (%d resources, cached %v ago)"
            [AStr "default"; AInt 4; ARounded (2 * second) second]]
  ∧ let test := elapse (world p) in
    let again := elapse test.2 in
    let age := Sub (clock p + Z.of_N test.1 + Z.of_N again.1) 4000000000 in
    ∃ p',
      GetResourcesInNamespaceWithCallback "default" true (c, p)
      = ((first.1.1, None), (c, p'))
      ∧ calls p' = calls p
      ∧ logs p' = logs p
      ∧ callbacks p'
        = callbacks p
          ++ [Printf "⚡ Using cached data for '%s' (%d resources, cached %v ago)"
                     [AStr "default"; AInt (len first.1.1); ARounded age second]]
      ∧ world p' = again.2
      ∧ clock p' = clock p + Z.of_N test.1 + Z.of_N again.1.
Proof.
  split; [vm_compute; reflexivity|].
  apply (X10_callback_cache_hit "default" true
           (GetResourcesInNamespace "default" (Sim.start Sim.small)).2.1
           (GetResourcesInNamespace "default" (Sim.start Sim.small)).2.2
           (GetResourcesInNamespace "default" (Sim.start Sim.small)).1.1
           4000000000).
  - split; vm_compute; reflexivity.
  - vm_compute. reflexivity.
Defined.

Lemma X12_callback_scan_of_default :
  let s := Sim.start Sim.small in
  let run := GetResourcesInNamespaceWithCallback "default" true s in
  (* five entries, tokenrequests among them; its failure and that of
     services leave no warning, that of configmaps leaves one *)
  (map (λ x, (Name x, Count x)) run.1.1
   = [("pods", 3); ("services", 0); ("configmaps", 0); ("deployments", 5);
      ("tokenrequests", 0)]
   ∧ List.filter isWarning (logs run.2.2)
     = [Printf "Warning: Failed to count objects for resource %s: %v"
               [AStr "configmaps";
                AErr (errorString "dial tcp 10.0.0.1:443: connect: connection refused")]])
  ∧ let asked := GetAPIResources (afterMissWithCallback "default" true s) in
    match asked.1.2 with
    | Some e => run.1 = ([], Some e) ∧ run.2 = asked.2
    | None =>
        let rs := List.filter Namespaced asked.1.1 in
        let outcomes := countOutcomes "default" rs asked.2 in
        let warning (x : ResourceInfo) (o : Z * option error) : list Formatted :=
          match o.2 with
          | Some e =>
              if Contains (Error e) "does not allow this method"
                 || Contains (Error e) "forbidden"
              then []
              else [Printf "Warning: Failed to count objects for resource %s: %v"
                           [AStr (Name x); AErr e]]
          | None => []
          end in
        run.1.2 = None
        ∧ length run.1.1 = length rs
        ∧ (∀ i x o, rs !! i = Some x → outcomes !! i = Some o →
             run.1.1 !! i
             = Some (withCount x (match o.2 with Some _ => 0 | None => o.1 end)))
        ∧ ∃ new, logs run.2.2 = logs asked.2.2 ++ new
                 ∧ List.filter isWarning new = concat (zip_with warning rs outcomes)
    end.
Proof.
  split; [vm_compute; repeat split|].
  apply (X12_callback_scan_absorbs_count_failures "default" true (Sim.start Sim.small)
           (GetResourcesInNamespaceWithCallback "default" true (Sim.start Sim.small)).1
           (GetResourcesInNamespaceWithCallback "default" true (Sim.start Sim.small)).2).
  - apply surjective_pairing.
  - left. vm_compute. reflexivity.
Defined.

End Runs.
